(** * RestoManagerKe: the order lifecycle

    A shallow embedding of the order model (the Mongoose schema and its
    [pre('validate')] / [pre('save')] hooks) and of the order routes
    ([routes/orders.js]), with the properties of the order lifecycle
    proved over it.

    Conventions of the embedding:
    - a JavaScript [Number] is a double; the embedding covers the finite
      Numbers that hold a whole number (amounts in whole shillings, whole
      quantities, counts) and has them as [Z], with the sums and products
      of the code rounded to the nearest double, ties to even ([JS.add],
      [JS.mul]): exact up to [2^53], rounded beyond.  Fractions of a
      shilling or of a piece, and results from [2^1024] on, which the
      code has as [Infinity], are outside the embedding; the lengths of
      the collections are counted exactly;
    - a JavaScript string is a [string];
    - a field that may be [undefined] is an [option];
    - the collections of the document store are lists in insertion order;
    - a route handler is a function from the store to a response and a
      store, written in a small monad that has early responses
      ([return res.status(..).json(..)]) and thrown exceptions, both of
      which keep the writes already made;
    - requests are handled one at a time: a handler runs to its response
      before the next one starts;
    - what a request cannot decide itself comes in an environment: the
      clock, the id drawn for a new document, and whether the notification
      collection accepts a write. *)

From Stdlib Require Import String Ascii ZArith List Bool Lia.
From Stdlib Require Import Permutation Sorted.
Import ListNotations.

Local Open Scope string_scope.
Local Open Scope Z_scope.

(** ** JavaScript primitives used by the routes *)

Module JS.

(** [!s] for a string that may be undefined: undefined and the empty
    string are falsy. *)
Definition truthy_string (s : option string) : bool :=
  match s with
  | Some s => negb (String.eqb s "")
  | None => false
  end.

(** [!n] for a number that may be undefined: undefined and 0 are falsy. *)
Definition truthy_number (n : option Z) : bool :=
  match n with
  | Some n => negb (n =? 0)
  | None => false
  end.

(** [s || d] on strings. *)
Definition or_string (s : option string) (d : string) : string :=
  if truthy_string s then match s with Some v => v | None => d end else d.

(** [n || d] on numbers. *)
Definition or_number (n : option Z) (d : Z) : Z :=
  if truthy_number n then match n with Some v => v | None => d end else d.

(** [a === b] where [a] may be undefined and [b] is a string literal. *)
Definition strict_eq (a : option string) (b : string) : bool :=
  match a with
  | Some a => String.eqb a b
  | None => false
  end.

(** [arr.includes(x)] for an array of string literals. *)
Definition includes (arr : list string) (x : option string) : bool :=
  existsb (strict_eq x) arr.

(** The double nearest to a whole number, ties to the even significand:
    the number itself up to [2^53] and a multiple of the spacing of the
    doubles beyond.  (From [2^1024] on the code has [Infinity], which is
    outside the embedding.) *)
Definition round (x : Z) : Z :=
  let a := Z.abs x in
  if a <=? 2 ^ 53 then x
  else
    let ulp := 2 ^ (Z.log2 a - 52) in
    let q := a / ulp in
    let r := a mod ulp in
    Z.sgn x
    * ((if 2 * r <? ulp then q
        else if ulp <? 2 * r then q + 1
        else if Z.even q then q else q + 1) * ulp).

(** [a + b] and [a * b] on Numbers. *)
Definition add (a b : Z) : Z := round (a + b).

Definition mul (a b : Z) : Z := round (a * b).

(** The double quote. *)
Definition quote : string := String (ascii_of_nat 34) "".

(** Regular expressions as far as the schemas use them, tested against a
    whole string (the patterns are anchored by [^] and [$]) by
    derivatives. *)
Inductive RegExp :=
| Never
| Empty
| Char (accepts : ascii -> bool)
| Seq (a b : RegExp)
| Or (a b : RegExp)
| Many (a : RegExp).

Fixpoint nullable (r : RegExp) : bool :=
  match r with
  | Never => false
  | Empty => true
  | Char _ => false
  | Seq a b => nullable a && nullable b
  | Or a b => nullable a || nullable b
  | Many _ => true
  end.

Fixpoint derive (c : ascii) (r : RegExp) : RegExp :=
  match r with
  | Never => Never
  | Empty => Never
  | Char accepts => if accepts c then Empty else Never
  | Seq a b =>
      if nullable a then Or (Seq (derive c a) b) (derive c b)
      else Seq (derive c a) b
  | Or a b => Or (derive c a) (derive c b)
  | Many a => Seq (derive c a) (Many a)
  end.

(** [/^r$/.test(s)]. *)
Fixpoint test (r : RegExp) (s : string) : bool :=
  match s with
  | EmptyString => nullable r
  | String c s => test (derive c r) s
  end.

(** [r{n}] and [r{0,n}]. *)
Fixpoint times (n : nat) (r : RegExp) : RegExp :=
  match n with
  | O => Empty
  | S n => Seq r (times n r)
  end.

Fixpoint upto (n : nat) (r : RegExp) : RegExp :=
  match n with
  | O => Empty
  | S n => Or Empty (Seq r (upto n r))
  end.

(** The classes [w] and [d] of the patterns. *)
Definition is_word (c : ascii) : bool :=
  let n := nat_of_ascii c in
  ((48 <=? n) && (n <=? 57) || (65 <=? n) && (n <=? 90)
   || (97 <=? n) && (n <=? 122) || (n =? 95))%nat.

Definition is_decimal (c : ascii) : bool :=
  let n := nat_of_ascii c in ((48 <=? n) && (n <=? 57))%nat.

Definition digit (d : Z) : ascii := ascii_of_nat (48 + Z.to_nat d).

(** Decimal digits of a non-negative integer, most significant first. *)
Fixpoint decimal_fuel (fuel : nat) (n : Z) : string :=
  match fuel with
  | O => ""
  | S fuel =>
      if n <? 10 then String (digit n) ""
      else decimal_fuel fuel (n / 10) ++ String (digit (n mod 10)) ""
  end.

Definition decimal (n : Z) : string :=
  decimal_fuel (S (Z.to_nat (Z.log2 n))) n.

(** [n.toString()] and [String(n)], for the whole numbers up to [2^53]
    in absolute value (beyond, the code prints the shortest decimal that
    reads back as the same double). *)
Definition Number_toString (n : Z) : string :=
  if n <? 0 then "-" ++ decimal (- n) else decimal n.

Fixpoint repeat_char (c : ascii) (k : nat) : string :=
  match k with
  | O => ""
  | S k => String c (repeat_char c k)
  end.

(** [s.padStart(width, c)]. *)
Definition padStart (width : nat) (c : ascii) (s : string) : string :=
  repeat_char c (width - String.length s) ++ s.

(** [s.slice(-k)]: the last [k] characters, the whole string when it is
    shorter. *)
Definition slice_last (k : nat) (s : string) : string :=
  substring (String.length s - k) k s.

(** [arr.join(sep)]. *)
Fixpoint join (sep : string) (l : list string) : string :=
  match l with
  | [] => ""
  | [x] => x
  | x :: rest => x ++ sep ++ join sep rest
  end.

(** Digits in groups of three, the grouping of [toLocaleString()] under
    the [en-US] default locale, for the whole numbers up to [2^53] in
    absolute value. *)
Fixpoint grouped_fuel (fuel : nat) (n : Z) : string :=
  match fuel with
  | O => ""
  | S fuel =>
      if n <? 1000 then decimal n
      else grouped_fuel fuel (n / 1000) ++ ","
           ++ padStart 3 "0"%char (decimal (n mod 1000))
  end.

Definition toLocaleString (n : Z) : string :=
  if n <? 0 then "-" ++ grouped_fuel (S (Z.to_nat (Z.log2 (- n)))) (- n)
  else grouped_fuel (S (Z.to_nat (Z.log2 n))) n.

Definition newline : string := String (ascii_of_nat 10) "".

Definition is_hex (c : ascii) : bool :=
  let n := nat_of_ascii c in
  ((48 <=? n) && (n <=? 57) || (65 <=? n) && (n <=? 70)
   || (97 <=? n) && (n <=? 102))%nat.

Fixpoint all_hex (s : string) : bool :=
  match s with
  | EmptyString => true
  | String c s => is_hex c && all_hex s
  end.

End JS.

(** ** Documents *)

(** A [Date] as the code observes it: the instant and the local calendar
    fields read by [getFullYear()], [getMonth()] (0-based) and
    [getDate()]. *)
Record Date := mkDate {
  getTime : Z;
  getFullYear : Z;
  getMonth : Z;
  getDate : Z
}.

(** An [ObjectId] in its string form. *)
Definition ObjectId := string.

(** The strings Mongoose casts to an [ObjectId]: 24 hexadecimal
    characters.  A query by id with any other string throws a
    [CastError]. *)
Definition ObjectId_isValid (s : string) : bool :=
  (String.length s =? 24)%nat && JS.all_hex s.

(** The hexadecimal digits in lower case: the string form of the
    [ObjectId] a string is cast to. *)
Definition hex_lower (c : ascii) : ascii :=
  let n := nat_of_ascii c in
  if ((65 <=? n) && (n <=? 70))%nat then ascii_of_nat (n + 32) else c.

Fixpoint ObjectId_hex (s : string) : string :=
  match s with
  | EmptyString => EmptyString
  | String c s => String (hex_lower c) (ObjectId_hex s)
  end.

(** A query by id compares [ObjectId]s, twelve bytes each, not strings:
    the id of the request is cast first, so the case of its digits does
    not count. *)
Definition ObjectId_eq (a b : string) : bool :=
  String.eqb (ObjectId_hex a) (ObjectId_hex b).

(** [orderItemSchema] (the [_id] Mongoose gives each sub-document is
    left out: no route reads it). *)
Module Item.
Record t := mk {
  menuItemId : ObjectId;
  name : string;
  quantity : Z;
  price : Z;
  subtotal : Z
}.

Definition set_subtotal (v : Z) (i : t) : t :=
  mk (menuItemId i) (name i) (quantity i) (price i) v.
End Item.

(** The [deliveryAddress] sub-document. *)
Module Address.
Record t := mk {
  street : option string;
  city : option string;
  landmark : option string;
  instructions : option string
}.
End Address.

(** [orderSchema]. *)
Module Order.
Record t := mk {
  _id : ObjectId;
  orderNumber : option string;
  userId : ObjectId;
  customerId : ObjectId;
  customerName : string;
  customerPhone : string;
  customerEmail : string;
  items : list Item.t;
  subtotal : Z;
  total : Z;
  orderType : string;
  deliveryAddress : option Address.t;
  paymentMethod : string;
  paymentStatus : string;
  mpesaCheckoutId : option string;
  mpesaReceipt : option string;
  orderStatus : string;
  notes : string;
  createdAt : Date;
  updatedAt : Date
}.

Definition set_orderNumber (v : option string) (o : t) : t :=
  let '(mk a _ c d e f g h i j k l m n p q r s u w) := o in
  mk a v c d e f g h i j k l m n p q r s u w.

Definition set_items (v : list Item.t) (o : t) : t :=
  let '(mk a b c d e f g _ i j k l m n p q r s u w) := o in
  mk a b c d e f g v i j k l m n p q r s u w.

Definition set_subtotal (v : Z) (o : t) : t :=
  let '(mk a b c d e f g h _ j k l m n p q r s u w) := o in
  mk a b c d e f g h v j k l m n p q r s u w.

Definition set_total (v : Z) (o : t) : t :=
  let '(mk a b c d e f g h i _ k l m n p q r s u w) := o in
  mk a b c d e f g h i v k l m n p q r s u w.

Definition set_paymentStatus (v : string) (o : t) : t :=
  let '(mk a b c d e f g h i j k l m _ p q r s u w) := o in
  mk a b c d e f g h i j k l m v p q r s u w.

Definition set_mpesaReceipt (v : option string) (o : t) : t :=
  let '(mk a b c d e f g h i j k l m n p _ r s u w) := o in
  mk a b c d e f g h i j k l m n p v r s u w.

Definition set_orderStatus (v : string) (o : t) : t :=
  let '(mk a b c d e f g h i j k l m n p q _ s u w) := o in
  mk a b c d e f g h i j k l m n p q v s u w.

Definition set_updatedAt (v : Date) (o : t) : t :=
  let '(mk a b c d e f g h i j k l m n p q r s u _) := o in
  mk a b c d e f g h i j k l m n p q r s u v.
End Order.

(** [customerSchema]: the fields the order routes read and write and the
    fields that carry a validator. *)
Module Customer.
Record t := mk {
  _id : ObjectId;
  customerId : option string;
  name : string;
  email : option string;
  password : option string;
  phone : string;
  totalOrders : option Z;
  totalSpent : option Z;
  lastOrderDate : option Date
}.
End Customer.

(** [menuItemSchema]. *)
Module MenuItem.
Record t := mk {
  _id : ObjectId;
  menuId : option string;
  name : string;
  category : string;
  price : Z;
  description : string;
  preparationTime : Z;
  available : bool;
  image : string;
  createdAt : Date
}.

Definition set_menuId (v : option string) (m : t) : t :=
  mk (_id m) v (name m) (category m) (price m) (description m)
     (preparationTime m) (available m) (image m) (createdAt m).

Definition set_available (v : bool) (m : t) : t :=
  mk (_id m) (menuId m) (name m) (category m) (price m) (description m)
     (preparationTime m) v (image m) (createdAt m).
End MenuItem.

(** Modelled from the spec: the Notification model
    ([models/Notification.js]) is not part of the sources; an event record
    has [title], [message], [type], [read] (default false) and
    [createdAt]. *)
Module Notification.
Record t := mk {
  title : string;
  message : string;
  type : string;
  read : bool;
  createdAt : Date
}.
End Notification.

(** The document store: one list per collection, in insertion order. *)
Record Store := mkStore {
  orders : list Order.t;
  customers : list Customer.t;
  menu : list MenuItem.t;
  notifications : list Notification.t
}.

Definition with_orders (v : list Order.t) (s : Store) : Store :=
  mkStore v (customers s) (menu s) (notifications s).

Definition with_customers (v : list Customer.t) (s : Store) : Store :=
  mkStore (orders s) v (menu s) (notifications s).

Definition with_menu (v : list MenuItem.t) (s : Store) : Store :=
  mkStore (orders s) (customers s) v (notifications s).

Definition with_notifications (v : list Notification.t) (s : Store) : Store :=
  mkStore (orders s) (customers s) (menu s) v.

(** ** Exceptions and responses *)

(** The exceptions the handlers can see.  A [ValidationError] carries the
    model name and one [(path, message)] pair per failed validator. *)
Inductive Exn :=
| ValidationError (model : string) (errors : list (string * string))
| CastError (value : string) (path : string) (model : string)
| MongoServerError (code : Z) (msg : string)
| Error (msg : string).

(** [error.name]. *)
Definition exn_name (e : Exn) : string :=
  match e with
  | ValidationError _ _ => "ValidationError"
  | CastError _ _ _ => "CastError"
  | MongoServerError _ _ => "MongoServerError"
  | Error _ => "Error"
  end.

(** [error.message]. *)
Definition exn_message (e : Exn) : string :=
  match e with
  | ValidationError model errors =>
      model ++ " validation failed: "
      ++ JS.join ", " (map (fun pm => fst pm ++ ": " ++ snd pm) errors)
  | CastError value path model =>
      "Cast to ObjectId failed for value " ++ JS.quote ++ value ++ JS.quote
      ++ " (type string) at path " ++ JS.quote ++ path ++ JS.quote
      ++ " for model " ++ JS.quote ++ model ++ JS.quote
  | MongoServerError _ msg => msg
  | Error msg => msg
  end.

(** [Object.values(error.errors).map(e => e.message)]. *)
Definition exn_error_messages (e : Exn) : list string :=
  match e with
  | ValidationError _ errors => map snd errors
  | _ => []
  end.

(** The [order] object of the 201 response. *)
Record CreatedSummary := mkCreatedSummary {
  created_id : ObjectId;
  created_orderNumber : option string;
  created_total : Z;
  created_status : string;
  created_items : list Item.t;
  created_createdAt : Date;
  created_orderType : string;
  created_deliveryAddress : option Address.t
}.

(** The object returned by the tracking route. *)
Record TrackSummary := mkTrackSummary {
  track_orderNumber : option string;
  track_customerName : string;
  track_orderStatus : string;
  track_createdAt : Date;
  track_total : Z;
  track_items : list Item.t;
  track_orderType : string;
  track_deliveryAddress : option Address.t
}.

(** The JSON bodies the routes send, one constructor per shape. *)
Inductive Body :=
| BMessage (message : string)
| BValidation (message : string) (errors : list string)
| BFailure (message : string) (error : string)
| BCreated (message : string) (order : CreatedSummary)
| BTrack (summary : TrackSummary)
| BOrder (order : Order.t)
| BUpdated (message : string) (order : Order.t)
| BAvailability (message : string) (available : bool).

Record Response := mkResponse {
  status : Z;
  body : Body
}.

(** The field names of a JSON body. *)
Definition body_fields (b : Body) : list string :=
  match b with
  | BMessage _ => ["message"]
  | BValidation _ _ => ["message"; "errors"]
  | BFailure _ _ => ["message"; "error"]
  | BCreated _ _ => ["message"; "order"]
  | BTrack _ =>
      ["orderNumber"; "customerName"; "orderStatus"; "createdAt"; "total";
       "items"; "orderType"; "deliveryAddress"]
  | BOrder _ =>
      ["_id"; "orderNumber"; "userId"; "customerId"; "customerName";
       "customerPhone"; "customerEmail"; "items"; "subtotal"; "total";
       "orderType"; "deliveryAddress"; "paymentMethod"; "paymentStatus";
       "mpesaCheckoutId"; "mpesaReceipt"; "orderStatus"; "notes";
       "createdAt"; "updatedAt"]
  | BUpdated _ _ => ["message"; "order"]
  | BAvailability _ _ => ["message"; "available"]
  end.

(** ** The handler monad *)

(** What a piece of handler code does: go on with a value, send a response
    and return, or throw. *)
Inductive Outcome (A : Type) :=
| Continue (a : A)
| Responded (r : Response)
| Thrown (e : Exn).

Arguments Continue {A} a.
Arguments Responded {A} r.
Arguments Thrown {A} e.

Definition Handler (A : Type) := Store -> Outcome A * Store.

Definition ret {A} (a : A) : Handler A := fun s => (Continue a, s).

Definition bind {A B} (m : Handler A) (k : A -> Handler B) : Handler B :=
  fun s =>
    match m s with
    | (Continue a, s') => k a s'
    | (Responded r, s') => (Responded r, s')
    | (Thrown e, s') => (Thrown e, s')
    end.

(** [return res.status(code).json(body)]. *)
Definition respond {A} (code : Z) (b : Body) : Handler A :=
  fun s => (Responded (mkResponse code b), s).

(** [throw e]. *)
Definition throw {A} (e : Exn) : Handler A := fun s => (Thrown e, s).

Definition gets {A} (f : Store -> A) : Handler A := fun s => (Continue (f s), s).

Definition modify (f : Store -> Store) : Handler unit :=
  fun s => (Continue tt, f s).

Notation "x <- m ;; k" := (bind m (fun x => k))
  (at level 61, m at next level, right associativity).
Notation "m ;;; k" := (bind m (fun _ => k))
  (at level 61, right associativity).

(** [try { body } catch (error) { handler(error) }] around a whole route:
    the writes made before the throw stay. *)
Definition try_catch (body : Handler Response) (handler : Exn -> Response)
  : Store -> Response * Store :=
  fun s =>
    match body s with
    | (Continue r, s') => (r, s')
    | (Responded r, s') => (r, s')
    | (Thrown e, s') => (handler e, s')
    end.

(** ** The Order model: validators, hooks and [save()] *)

Module OrderModel.

(** The order number built by the [pre('validate')] hook from the current
    date and [countDocuments()]. *)
Definition order_number (date : Date) (count : Z) : string :=
  let year := JS.slice_last 2 (JS.Number_toString (getFullYear date)) in
  let month := JS.padStart 2 "0"%char (JS.Number_toString (getMonth date + 1)) in
  let day := JS.padStart 2 "0"%char (JS.Number_toString (getDate date)) in
  "ORD" ++ year ++ month ++ day
  ++ JS.padStart 4 "0"%char (JS.Number_toString (count + 1)).

(** [orderSchema.pre('validate')]: generate the order number unless the
    document has one; [count] is what [countDocuments()] returns. *)
Definition pre_validate (date : Date) (count : nat) (o : Order.t) : Order.t :=
  if JS.truthy_string (Order.orderNumber o) then o
  else Order.set_orderNumber (Some (order_number date (Z.of_nat count))) o.

(** [items.reduce((sum, item) => sum + item.subtotal, 0)]. *)
Definition sum_subtotals (items : list Item.t) : Z :=
  fold_left (fun sum item => JS.add sum (Item.subtotal item)) items 0.

(** [orderSchema.pre('save')]: recompute the line subtotals and the totals
    of a non-empty order, and refresh [updatedAt]. *)
Definition pre_save (date : Date) (o : Order.t) : Order.t :=
  let o :=
    match Order.items o with
    | [] => o
    | _ :: _ =>
        let items :=
          map (fun item =>
                 Item.set_subtotal
                   (JS.mul (Item.quantity item) (Item.price item)) item)
              (Order.items o) in
        let o := Order.set_items items o in
        let o := Order.set_subtotal (sum_subtotals (Order.items o)) o in
        Order.set_total (Order.subtotal o) o
    end in
  Order.set_updatedAt date o.

(** The schema validators; each yields its [(key, message)] on failure:
    the key is the full path of the field ([items.0.quantity]), the
    message names the field by its path in its own document
    ([quantity]). *)
Definition required_string (key path v : string) : list (string * string) :=
  if String.eqb v "" then [(key, "Path `" ++ path ++ "` is required.")]
  else [].

Definition min_number (key path : string) (m v : Z)
  : list (string * string) :=
  if v <? m then
    [(key, "Path `" ++ path ++ "` (" ++ JS.Number_toString v
           ++ ") is less than minimum allowed value ("
           ++ JS.Number_toString m ++ ").")]
  else [].

Definition enum_string (path : string) (allowed : list string) (v : string)
  : list (string * string) :=
  if existsb (String.eqb v) allowed then []
  else [(path, "`" ++ v ++ "` is not a valid enum value for path `"
               ++ path ++ "`.")].

Definition required_enum (path : string) (allowed : list string) (v : string)
  : list (string * string) :=
  match required_string path path v with
  | [] => enum_string path allowed v
  | errs => errs
  end.

Definition orderTypes : list string := ["takeaway"; "dine-in"; "delivery"].
Definition paymentMethods : list string := ["M-PESA"; "Cash"; "Card"].
Definition paymentStatuses : list string :=
  ["Pending"; "Paid"; "Failed"; "Refunded"].
Definition orderStatuses : list string :=
  ["Pending"; "Confirmed"; "Preparing"; "Ready"; "Out for Delivery";
   "Delivered"; "Completed"; "Cancelled"].

Definition validate_item (index : nat) (item : Item.t)
  : list (string * string) :=
  let key f := "items." ++ JS.Number_toString (Z.of_nat index) ++ "." ++ f in
  required_string (key "name") "name" (Item.name item)
  ++ min_number (key "quantity") "quantity" 1 (Item.quantity item)
  ++ min_number (key "price") "price" 0 (Item.price item)
  ++ min_number (key "subtotal") "subtotal" 0 (Item.subtotal item).

Fixpoint validate_items (index : nat) (items : list Item.t)
  : list (string * string) :=
  match items with
  | [] => []
  | item :: rest => validate_item index item ++ validate_items (S index) rest
  end.

(** Document validation against [orderSchema]: the paths of the order in
    the order of the schema, then the lines, whose validation ends after
    that of the paths of the order. *)
Definition validate (o : Order.t) : list (string * string) :=
  required_string "customerName" "customerName" (Order.customerName o)
  ++ required_string "customerPhone" "customerPhone" (Order.customerPhone o)
  ++ match Order.items o with
     | [] => [("items", "Order must contain at least one item")]
     | _ :: _ => []
     end
  ++ min_number "subtotal" "subtotal" 0 (Order.subtotal o)
  ++ min_number "total" "total" 0 (Order.total o)
  ++ required_enum "orderType" orderTypes (Order.orderType o)
  ++ required_enum "paymentMethod" paymentMethods (Order.paymentMethod o)
  ++ enum_string "paymentStatus" paymentStatuses (Order.paymentStatus o)
  ++ enum_string "orderStatus" orderStatuses (Order.orderStatus o)
  ++ validate_items 0 (Order.items o).

Definition has_id (id : ObjectId) (o : Order.t) : bool :=
  ObjectId_eq (Order._id o) id.

Definition has_number (n : string) (o : Order.t) : bool :=
  match Order.orderNumber o with
  | Some m => String.eqb m n
  | None => false
  end.

(** The unique sparse index on [orderNumber]: another document holds the
    number. *)
Definition number_taken (o : Order.t) (stored : list Order.t) : bool :=
  match Order.orderNumber o with
  | Some n =>
      existsb (fun x => negb (has_id (Order._id o) x) && has_number n x) stored
  | None => false
  end.

(** The write of an update: the first document with the [_id] is
    replaced. *)
Fixpoint replace_first (o : Order.t) (stored : list Order.t) : list Order.t :=
  match stored with
  | [] => []
  | x :: rest =>
      if has_id (Order._id o) x then o :: rest
      else x :: replace_first o rest
  end.

Definition duplicate_key : Exn :=
  MongoServerError 11000 "E11000 duplicate key error collection: orders".

(** An insert is refused when the [_id] or the order number is taken. *)
Definition insert_conflict (o : Order.t) (stored : list Order.t) : bool :=
  existsb (has_id (Order._id o)) stored || number_taken o stored.

(** An update is refused when it changes the order number to a taken
    one. *)
Definition update_conflict (old o : Order.t) (stored : list Order.t) : bool :=
  negb (match Order.orderNumber old with
        | Some n => has_number n o
        | None => false
        end)
  && number_taken o stored.

(** [order.save()]: the [pre('validate')] hook, validation, the
    [pre('save')] hook, then the write (an insert for a new document, an
    update of the stored one otherwise; Mongoose throws when the update
    matches no document).  The handler goes on with the document as the
    hooks left it. *)
Definition save (date : Date) (isNew : bool) (o : Order.t)
  : Handler Order.t :=
  count <- gets (fun s => length (orders s)) ;;
  let o := pre_validate date count o in
  match validate o with
  | (_ :: _) as errors => throw (ValidationError "Order" errors)
  | [] =>
      let o := pre_save date o in
      stored <- gets orders ;;
      if isNew then
        if insert_conflict o stored then throw duplicate_key
        else modify (with_orders (stored ++ [o])) ;;; ret o
      else
        match find (has_id (Order._id o)) stored with
        | None => throw (Error "No document found for query")
        | Some old =>
            if update_conflict old o stored then throw duplicate_key
            else modify (with_orders (replace_first o stored)) ;;; ret o
        end
  end.

(** [Order.findById(id)]. *)
Definition findById (id : string) : Handler (option Order.t) :=
  if ObjectId_isValid id then gets (fun s => find (has_id id) (orders s))
  else throw (CastError id "_id" "Order").

(** [Order.findOne({ orderNumber })]. *)
Definition findOne_orderNumber (n : string) : Handler (option Order.t) :=
  gets (fun s => find (has_number n) (orders s)).

End OrderModel.

(** ** The collaborators of the order routes *)

Module CustomerModel.

(** The id of a query for a customer is the id of the caller, which the
    server put into the token from the stored document. *)
Definition has_id (id : ObjectId) (c : Customer.t) : bool :=
  String.eqb (Customer._id c) id.

(** [Customer.findById(id)]. *)
Definition findById (id : string) : Handler (option Customer.t) :=
  if ObjectId_isValid id then gets (fun s => find (has_id id) (customers s))
  else throw (CastError id "_id" "Customer").

Definition words : JS.RegExp :=
  JS.Seq (JS.Char JS.is_word) (JS.Many (JS.Char JS.is_word)).

Definition dotted_words : JS.RegExp :=
  JS.Seq words
    (JS.Many
       (JS.Seq
          (JS.Or JS.Empty
             (JS.Char (fun c => Ascii.eqb c "." || Ascii.eqb c "-")))
          words)).

Definition suffix : JS.RegExp :=
  JS.Seq (JS.Char (Ascii.eqb "."))
    (JS.Seq (JS.times 2 (JS.Char JS.is_word))
       (JS.upto 1 (JS.Char JS.is_word))).

(** The pattern of [email]: words joined by single dots or hyphens, an
    at sign, such words again, and one or more suffixes of a dot and two
    or three word characters. *)
Definition email_pattern : JS.RegExp :=
  JS.Seq dotted_words
    (JS.Seq (JS.Char (Ascii.eqb "@"))
       (JS.Seq dotted_words (JS.Seq suffix (JS.Many suffix)))).

(** The pattern of [phone]: ten to twelve digits. *)
Definition phone_pattern : JS.RegExp :=
  JS.Seq (JS.times 10 (JS.Char JS.is_decimal))
    (JS.upto 2 (JS.Char JS.is_decimal)).

(** Document validation against [customerSchema], with the messages of
    the schema.  [match] passes an absent and an empty string,
    [minlength] an absent one. *)
Definition validate (c : Customer.t) : list (string * string) :=
  (if String.eqb (Customer.name c) ""
   then [("name", "Customer name is required")] else [])
  ++ match Customer.email c with
     | Some email =>
         if String.eqb email "" || JS.test email_pattern email then []
         else [("email", "Please enter a valid email")]
     | None => []
     end
  ++ match Customer.password c with
     | Some password =>
         if (String.length password <? 6)%nat
         then [("password", "Password must be at least 6 characters")]
         else []
     | None => []
     end
  ++ (if String.eqb (Customer.phone c) ""
      then [("phone", "Phone number is required")]
      else if JS.test phone_pattern (Customer.phone c) then []
      else [("phone", "Please enter a valid phone number")]).

(** The second [customerSchema.pre('save')] hook: a customer without a
    [customerId] gets [CUST] and the count plus one on five digits.  (The
    first hook hashes a password that was modified; the order routes do
    not modify it.) *)
Definition pre_save (count : nat) (c : Customer.t) : Customer.t :=
  if JS.truthy_string (Customer.customerId c) then c
  else
    Customer.mk (Customer._id c)
      (Some ("CUST" ++ JS.padStart 5 "0"%char
                         (JS.Number_toString (Z.of_nat count + 1))))
      (Customer.name c) (Customer.email c) (Customer.password c)
      (Customer.phone c)
      (Customer.totalOrders c) (Customer.totalSpent c)
      (Customer.lastOrderDate c).

Fixpoint replace_first (c : Customer.t) (stored : list Customer.t)
  : list Customer.t :=
  match stored with
  | [] => []
  | x :: rest =>
      if has_id (Customer._id c) x then c :: rest
      else x :: replace_first c rest
  end.

Definition has_customerId (n : string) (c : Customer.t) : bool :=
  match Customer.customerId c with
  | Some m => String.eqb m n
  | None => false
  end.

Definition duplicate_key : Exn :=
  MongoServerError 11000 "E11000 duplicate key error collection: customers".

(** The unique sparse index on [customerId]: the update is refused when
    it changes the [customerId] to one another customer holds. *)
Definition update_conflict (old c : Customer.t) (stored : list Customer.t)
  : bool :=
  match Customer.customerId c with
  | Some n =>
      negb (has_customerId n old)
      && existsb (fun x => negb (has_id (Customer._id c) x)
                           && has_customerId n x) stored
  | None => false
  end.

(** [customer.save()] of a stored customer: validation of the document,
    the hooks, then the update. *)
Definition save (c : Customer.t) : Handler Customer.t :=
  match validate c with
  | (_ :: _) as errors => throw (ValidationError "Customer" errors)
  | [] =>
      count <- gets (fun s => length (customers s)) ;;
      let c := pre_save count c in
      stored <- gets customers ;;
      match find (has_id (Customer._id c)) stored with
      | None => throw (Error "No document found for query")
      | Some old =>
          if update_conflict old c stored then throw duplicate_key
          else modify (with_customers (replace_first c stored)) ;;; ret c
      end
  end.

End CustomerModel.

Module MenuItemModel.

Definition has_id (id : ObjectId) (m : MenuItem.t) : bool :=
  ObjectId_eq (MenuItem._id m) id.

(** [MenuItem.findById(id)]. *)
Definition findById (id : string) : Handler (option MenuItem.t) :=
  if ObjectId_isValid id then gets (fun s => find (has_id id) (menu s))
  else throw (CastError id "_id" "MenuItem").

Definition categories : list string :=
  ["Appetizer"; "Main Course"; "Dessert"; "Beverage"; "Side Dish"].

(** Document validation against [menuItemSchema], with the messages of
    the schema. *)
Definition validate (m : MenuItem.t) : list (string * string) :=
  (if String.eqb (MenuItem.name m) ""
   then [("name", "Item name is required")] else [])
  ++ (if String.eqb (MenuItem.category m) ""
      then [("category", "Category is required")]
      else OrderModel.enum_string "category" categories (MenuItem.category m))
  ++ (if MenuItem.price m <? 0
      then [("price", "Price cannot be negative")] else [])
  ++ (if MenuItem.preparationTime m <? 0
      then [("preparationTime", "Preparation time cannot be negative")]
      else []).

(** [menuItemSchema.pre('save')]: an entry without a [menuId] gets [MENU]
    and the count plus one on four digits. *)
Definition pre_save (count : nat) (m : MenuItem.t) : MenuItem.t :=
  if JS.truthy_string (MenuItem.menuId m) then m
  else
    MenuItem.set_menuId
      (Some ("MENU" ++ JS.padStart 4 "0"%char
                         (JS.Number_toString (Z.of_nat count + 1)))) m.

Fixpoint replace_first (m : MenuItem.t) (stored : list MenuItem.t)
  : list MenuItem.t :=
  match stored with
  | [] => []
  | x :: rest =>
      if has_id (MenuItem._id m) x then m :: rest
      else x :: replace_first m rest
  end.

Definition has_menuId (n : string) (m : MenuItem.t) : bool :=
  match MenuItem.menuId m with
  | Some k => String.eqb k n
  | None => false
  end.

Definition duplicate_key : Exn :=
  MongoServerError 11000 "E11000 duplicate key error collection: menuitems".

(** The unique sparse index on [menuId]: the update is refused when it
    changes the [menuId] to one another entry holds. *)
Definition update_conflict (old m : MenuItem.t) (stored : list MenuItem.t)
  : bool :=
  match MenuItem.menuId m with
  | Some n =>
      negb (has_menuId n old)
      && existsb (fun x => negb (has_id (MenuItem._id m) x)
                           && has_menuId n x) stored
  | None => false
  end.

(** [menuItem.save()] of a stored entry: validation of the document, the
    hook, then the update. *)
Definition save (m : MenuItem.t) : Handler MenuItem.t :=
  match validate m with
  | (_ :: _) as errors => throw (ValidationError "MenuItem" errors)
  | [] =>
      count <- gets (fun s => length (menu s)) ;;
      let m := pre_save count m in
      stored <- gets menu ;;
      match find (has_id (MenuItem._id m)) stored with
      | None => throw (Error "No document found for query")
      | Some old =>
          if update_conflict old m stored then throw duplicate_key
          else modify (with_menu (replace_first m stored)) ;;; ret m
      end
  end.

End MenuItemModel.

(** What one request sees of its environment: the clock, the [ObjectId]
    drawn for a new document, and whether the notification collection
    accepts a write ([Some e]: [Notification.create] throws [e]). *)
Record Env := mkEnv {
  now : Date;
  newObjectId : ObjectId;
  notificationFailure : option Exn
}.

Module NotificationModel.

(** [Notification.create({ title, message, type })]. *)
Definition create (env : Env) (title message type : string) : Handler unit :=
  match notificationFailure env with
  | Some e => throw e
  | None =>
      modify (fun s =>
        with_notifications
          (notifications s
           ++ [Notification.mk title message type false (now env)]) s)
  end.

End NotificationModel.

(** ** Requests *)

(** One entry of [req.body.items]. *)
Module LineRequest.
Record t := mk {
  menuItemId : option string;
  quantity : option Z
}.
End LineRequest.

(** [req.body.items]: absent, present but not an array, or an array. *)
Inductive ItemsField :=
| ItemsUndefined
| ItemsNotArray
| ItemsArray (lines : list LineRequest.t).

(** The body of [POST /api/orders]. *)
Module OrderRequest.
Record t := mk {
  items : ItemsField;
  orderType : option string;
  paymentMethod : option string;
  deliveryAddress : option Address.t;
  notes : option string;
  mpesaCheckoutId : option string
}.
End OrderRequest.

(** [req.user] as the routes read it, [req.user.id] and [req.user.role];
    the [auth] middleware that fills it is not part of the sources. *)
Module User.
Record t := mk {
  id : string;
  role : option string
}.
End User.

(** ** The order routes ([routes/orders.js]) *)

Module Routes.

(** The [for (const item of items)] loop of the intake route: every line
    is checked and resolved against the catalog, and the name and the
    price of the catalog entry are copied into the order line. *)
Fixpoint collect_items (items : list LineRequest.t) (orderItems : list Item.t)
  : Handler (list Item.t) :=
  match items with
  | [] => ret orderItems
  | item :: rest =>
      match LineRequest.menuItemId item, LineRequest.quantity item with
      | Some menuItemId, Some quantity =>
          if negb (JS.truthy_string (Some menuItemId))
             || negb (JS.truthy_number (Some quantity))
          then respond 400
                 (BMessage "Each item must have menuItemId and quantity")
          else
            menuItem <- MenuItemModel.findById menuItemId ;;
            match menuItem with
            | None =>
                respond 400
                  (BMessage ("Item with ID " ++ menuItemId ++ " not found"))
            | Some menuItem =>
                if negb (MenuItem.available menuItem)
                then respond 400
                       (BMessage (MenuItem.name menuItem ++ " is not available"))
                else
                  collect_items rest
                    (orderItems
                     ++ [Item.mk (MenuItem._id menuItem)
                           (MenuItem.name menuItem)
                           quantity
                           (MenuItem.price menuItem)
                           (JS.mul (MenuItem.price menuItem) quantity)])
            end
      | _, _ =>
          respond 400 (BMessage "Each item must have menuItemId and quantity")
      end
  end.

(** [order.items.map(item => `${item.quantity}x ${item.name}`).join(', ')]. *)
Definition itemsList (o : Order.t) : string :=
  JS.join ", "
    (map (fun item =>
            JS.Number_toString (Item.quantity item) ++ "x " ++ Item.name item)
         (Order.items o)).

(** The string [`${order.orderNumber}`]. *)
Definition show_orderNumber (o : Order.t) : string :=
  match Order.orderNumber o with
  | Some n => n
  | None => "undefined"
  end.

(** [new Order(orderData)]: the schema defaults fill [createdAt] and
    [updatedAt], the driver draws the [_id]. *)
Definition new_order (env : Env) (customer : Customer.t)
  (orderItems : list Item.t) (subtotal : Z) (b : OrderRequest.t)
  (deliveryAddress : option Address.t) : Order.t :=
  Order.mk (newObjectId env) None
    (Customer._id customer) (Customer._id customer)
    (Customer.name customer) (Customer.phone customer)
    (JS.or_string (Customer.email customer) "")
    orderItems subtotal subtotal
    (JS.or_string (OrderRequest.orderType b) "takeaway")
    deliveryAddress
    (JS.or_string (OrderRequest.paymentMethod b) "M-PESA")
    "Pending"
    (if JS.truthy_string (OrderRequest.mpesaCheckoutId b)
     then OrderRequest.mpesaCheckoutId b else None)
    None
    "Pending"
    (JS.or_string (OrderRequest.notes b) "")
    (now env) (now env).

(** The customer statistics written after the order is saved. *)
Definition bump_stats (env : Env) (order : Order.t) (c : Customer.t)
  : Customer.t :=
  Customer.mk (Customer._id c) (Customer.customerId c) (Customer.name c)
    (Customer.email c) (Customer.password c) (Customer.phone c)
    (Some (JS.add (JS.or_number (Customer.totalOrders c) 0) 1))
    (Some (JS.add (JS.or_number (Customer.totalSpent c) 0)
                  (Order.total order)))
    (Some (now env)).

(** The delivery block of the intake route: a delivery order must carry
    an address with a street and a city, which then goes into the order;
    any other order gets no address. *)
Definition delivery_address (b : OrderRequest.t)
  : Handler (option Address.t) :=
  if JS.strict_eq (OrderRequest.orderType b) "delivery" then
    match OrderRequest.deliveryAddress b with
    | Some a =>
        if negb (JS.truthy_string (Address.street a))
           || negb (JS.truthy_string (Address.city a))
        then respond 400
               (BMessage "Delivery address (street and city) is required for delivery orders")
        else ret (Some a)
    | None =>
        respond 400
          (BMessage "Delivery address (street and city) is required for delivery orders")
    end
  else ret None.

(** The [try] block of [POST /api/orders]. *)
Definition createOrder_body (env : Env) (user : User.t) (b : OrderRequest.t)
  : Handler Response :=
  match OrderRequest.items b with
  | ItemsUndefined | ItemsNotArray | ItemsArray [] =>
      respond 400 (BMessage "Order must contain at least one item")
  | ItemsArray items =>
      customer <- CustomerModel.findById (User.id user) ;;
      match customer with
      | None => respond 404 (BMessage "Customer not found")
      | Some customer =>
          orderItems <- collect_items items [] ;;
          let subtotal := OrderModel.sum_subtotals orderItems in
          deliveryAddress <- delivery_address b ;;
          order <- OrderModel.save (now env) true
                     (new_order env customer orderItems subtotal b
                        deliveryAddress) ;;
          CustomerModel.save (bump_stats env order customer) ;;;
          NotificationModel.create env "🆕 New Order"
            ("Order #" ++ show_orderNumber order ++ " from "
             ++ Order.customerName order ++ JS.newline
             ++ "Items: " ++ itemsList order ++ JS.newline
             ++ "Total: KES " ++ JS.toLocaleString (Order.total order))
            "success" ;;;
          respond 201
            (BCreated "Order created successfully"
               (mkCreatedSummary (Order._id order) (Order.orderNumber order)
                  (Order.total order) (Order.orderStatus order)
                  (Order.items order) (Order.createdAt order)
                  (Order.orderType order) (Order.deliveryAddress order)))
      end
  end.

(** The [catch] block of [POST /api/orders]. *)
Definition createOrder_catch (error : Exn) : Response :=
  if String.eqb (exn_name error) "ValidationError" then
    mkResponse 400 (BValidation "Validation failed" (exn_error_messages error))
  else
    mkResponse 500 (BFailure "Failed to create order" (exn_message error)).

(** [POST /api/orders]. *)
Definition createOrder (env : Env) (user : User.t) (b : OrderRequest.t)
  : Store -> Response * Store :=
  try_catch (createOrder_body env user b) createOrder_catch.

(** The [catch] block shared by the other order routes. *)
Definition message_catch (error : Exn) : Response :=
  mkResponse 500 (BMessage (exn_message error)).

(** [GET /api/orders/track/:orderNumber], with [req.query.phone]. *)
Definition trackOrder (orderNumber : string) (phone : option string)
  : Store -> Response * Store :=
  try_catch
    (order <- OrderModel.findOne_orderNumber orderNumber ;;
     match order with
     | None => respond 404 (BMessage "Order not found")
     | Some order =>
         if JS.truthy_string phone
            && negb (JS.strict_eq phone (Order.customerPhone order))
         then respond 403 (BMessage "Invalid phone number for this order")
         else
           respond 200
             (BTrack
                (mkTrackSummary (Order.orderNumber order)
                   (Order.customerName order) (Order.orderStatus order)
                   (Order.createdAt order) (Order.total order)
                   (Order.items order) (Order.orderType order)
                   (Order.deliveryAddress order)))
     end)
    message_catch.

(** [req.user.role !== 'admin' && req.user.role !== 'manager']. *)
Definition not_staff (user : User.t) : bool :=
  negb (JS.strict_eq (User.role user) "admin")
  && negb (JS.strict_eq (User.role user) "manager").

(** [GET /api/orders/:id]. *)
Definition getOrder (user : User.t) (id : string)
  : Store -> Response * Store :=
  try_catch
    (if not_staff user then respond 403 (BMessage "Access denied")
     else
       order <- OrderModel.findById id ;;
       match order with
       | None => respond 404 (BMessage "Order not found")
       | Some order => respond 200 (BOrder order)
       end)
    message_catch.

(** [PATCH /api/orders/:id/status], with [req.body.status]. *)
Definition setOrderStatus (env : Env) (user : User.t) (id : string)
  (status : option string) : Store -> Response * Store :=
  try_catch
    (if not_staff user then respond 403 (BMessage "Access denied")
     else
       match status with
       | Some newStatus =>
           if negb (JS.includes OrderModel.orderStatuses status)
           then respond 400 (BMessage "Invalid status")
           else
             order <- OrderModel.findById id ;;
             match order with
             | None => respond 404 (BMessage "Order not found")
             | Some order =>
                 order <- OrderModel.save (now env) false
                            (Order.set_orderStatus newStatus order) ;;
                 NotificationModel.create env "📦 Order Status Updated"
                   ("Order #" ++ show_orderNumber order ++ " is now "
                    ++ newStatus ++ JS.newline
                    ++ "Items: " ++ itemsList order)
                   "info" ;;;
                 respond 200 (BUpdated "Order status updated" order)
             end
       | None => respond 400 (BMessage "Invalid status")
       end)
    message_catch.

(** [PATCH /api/orders/:id/payment], with [req.body.paymentStatus] and
    [req.body.mpesaReceipt]. *)
Definition setPaymentStatus (env : Env) (user : User.t) (id : string)
  (paymentStatus mpesaReceipt : option string) : Store -> Response * Store :=
  try_catch
    (if not_staff user then respond 403 (BMessage "Access denied")
     else
       match paymentStatus with
       | Some newStatus =>
           if negb (JS.includes OrderModel.paymentStatuses paymentStatus)
           then respond 400 (BMessage "Invalid payment status")
           else
             order <- OrderModel.findById id ;;
             match order with
             | None => respond 404 (BMessage "Order not found")
             | Some order =>
                 let order := Order.set_paymentStatus newStatus order in
                 let order :=
                   if JS.truthy_string mpesaReceipt
                   then Order.set_mpesaReceipt mpesaReceipt order
                   else order in
                 order <- OrderModel.save (now env) false order ;;
                 NotificationModel.create env
                   (if String.eqb newStatus "Paid" then "💰 Payment Received"
                    else "⚠️ Payment Update")
                   ("Payment for order #" ++ show_orderNumber order
                    ++ " is now " ++ newStatus ++ JS.newline
                    ++ "Total: KES " ++ JS.toLocaleString (Order.total order))
                   (if String.eqb newStatus "Paid" then "success"
                    else "warning") ;;;
                 respond 200 (BUpdated "Payment status updated" order)
             end
       | None => respond 400 (BMessage "Invalid payment status")
       end)
    message_catch.

End Routes.

(** ** The catalog routes ([routes/menu.js]) *)

Module Catalog.

(** [PATCH /api/menu/:id/toggle]. *)
Definition toggle (id : string) : Store -> Response * Store :=
  try_catch
    (menuItem <- MenuItemModel.findById id ;;
     match menuItem with
     | None => respond 404 (BMessage "Menu item not found")
     | Some menuItem =>
         menuItem <- MenuItemModel.save
                       (MenuItem.set_available
                          (negb (MenuItem.available menuItem)) menuItem) ;;
         respond 200
           (BAvailability
              ("Menu item "
               ++ (if MenuItem.available menuItem then "activated"
                   else "deactivated"))
              (MenuItem.available menuItem))
     end)
    Routes.message_catch.

(** The menu routes use the MenuItem model and no other: whatever one of
    them does, creating, updating, toggling or deleting an entry, or
    nothing at all when it turns the request down, it leaves a menu
    collection and touches no other collection.  A catalog write is given
    by what it makes of the menu collection. *)
Definition Op := list MenuItem.t -> list MenuItem.t.

Definition apply (op : Op) (s : Store) : Store := with_menu (op (menu s)) s.

Definition apply_all (ops : list Op) (s : Store) : Store :=
  fold_left (fun s op => apply op s) ops s.

(** What [MenuItem.findByIdAndDelete(id)] of [DELETE /api/menu/:id] makes
    of the collection: the first entry of that id is gone. *)
Fixpoint delete_first (id : ObjectId) (stored : list MenuItem.t)
  : list MenuItem.t :=
  match stored with
  | [] => []
  | x :: rest =>
      if MenuItemModel.has_id id x then rest else x :: delete_first id rest
  end.

End Catalog.

(** ** The order API as a whole *)

Inductive Request :=
| CreateOrder (user : User.t) (b : OrderRequest.t)
| SetOrderStatus (user : User.t) (id : string) (status : option string)
| SetPaymentStatus (user : User.t) (id : string)
    (paymentStatus mpesaReceipt : option string)
| TrackOrder (orderNumber : string) (phone : option string)
| GetOrder (user : User.t) (id : string).

Definition handle (env : Env) (req : Request) : Store -> Response * Store :=
  match req with
  | CreateOrder user b => Routes.createOrder env user b
  | SetOrderStatus user id status => Routes.setOrderStatus env user id status
  | SetPaymentStatus user id paymentStatus mpesaReceipt =>
      Routes.setPaymentStatus env user id paymentStatus mpesaReceipt
  | TrackOrder orderNumber phone => Routes.trackOrder orderNumber phone
  | GetOrder user id => Routes.getOrder user id
  end.

(** The stores the API can reach from a given one: any number of order
    requests and catalog writes, each under its own environment. *)
Inductive reachable (s0 : Store) : Store -> Prop :=
| reach_start : reachable s0 s0
| reach_request s env req :
    reachable s0 s -> reachable s0 (snd (handle env req s))
| reach_catalog s op :
    reachable s0 s -> reachable s0 (Catalog.apply op s).

(** ** The properties, as the specification words them *)

(** The sum of the line subtotals. *)
Definition line_total (items : list Item.t) : Z :=
  fold_right (fun item acc => Item.subtotal item + acc) 0 items.

(** Every line subtotal is unit price times quantity, and subtotal and
    total are both the sum of the line subtotals, as exact products and
    sums. *)
Definition totals_exact (o : Order.t) : Prop :=
  Forall (fun item => Item.subtotal item = Item.price item * Item.quantity item)
         (Order.items o)
  /\ Order.subtotal o = line_total (Order.items o)
  /\ Order.total o = line_total (Order.items o)
  /\ Order.total o = Order.subtotal o.

(** A number on exactly two decimal digits. *)
Definition two_digits (n : Z) : string :=
  String (JS.digit (n / 10)) (String (JS.digit (n mod 10)) "").

(** The order number as the specification gives it: [ORD], the two-digit
    year, month and day, and the count plus one zero-padded to four
    digits. *)
Definition spec_order_number (date : Date) (n : Z) : string :=
  "ORD" ++ two_digits (getFullYear date mod 100)
  ++ two_digits (getMonth date + 1)
  ++ two_digits (getDate date)
  ++ JS.padStart 4 "0"%char (JS.decimal (n + 1)).

(** A reading of the clock: a calendar date of a year that has at least
    two digits. *)
Definition calendar_date (d : Date) : Prop :=
  10 <= getFullYear d /\ 0 <= getMonth d <= 11 /\ 1 <= getDate d <= 31.

(** The order has an order number (a non-empty string). *)
Definition numbered (o : Order.t) : Prop :=
  JS.truthy_string (Order.orderNumber o) = true.

(** The line is a copy of the catalog entry's name and price. *)
Definition snapshot_of (catalog : list MenuItem.t) (line : LineRequest.t)
  (item : Item.t) : Prop :=
  exists id m,
    LineRequest.menuItemId line = Some id
    /\ find (MenuItemModel.has_id id) catalog = Some m
    /\ Item.menuItemId item = MenuItem._id m
    /\ Item.name item = MenuItem.name m
    /\ Item.price item = MenuItem.price m
    /\ LineRequest.quantity line = Some (Item.quantity item).

(** The request has a non-empty array of lines. *)
Definition lines_of (b : OrderRequest.t) : list LineRequest.t :=
  match OrderRequest.items b with
  | ItemsArray lines => lines
  | _ => []
  end.

(** ** Sample data *)

Module Sample.

Definition today : Date := mkDate 1793520000000 2026 10 1.

Definition customer : Customer.t :=
  Customer.mk "64b7f0c2a1d3e4f5a6b7c8d9" (Some "CUST00001") "Wanjiku"
    None None "0712345678" (Some 0) (Some 0) None.

Definition pilau : MenuItem.t :=
  MenuItem.mk "64b7f0c2a1d3e4f5a6b7c8e1" (Some "MENU0001") "Pilau"
    "Main Course" 500 "" 15 true "fa-utensils" today.

Definition chai : MenuItem.t :=
  MenuItem.mk "64b7f0c2a1d3e4f5a6b7c8e2" (Some "MENU0002") "Chai"
    "Beverage" 80 "" 15 true "fa-utensils" today.

Definition store0 : Store := mkStore [] [customer] [pilau; chai] [].

Definition env : Env := mkEnv today "64b7f0c2a1d3e4f5a6b7c8f1" None.

Definition env_outage : Env :=
  mkEnv today "64b7f0c2a1d3e4f5a6b7c8f1"
    (Some (Error "connection to the database lost")).

Definition diner : User.t := User.mk "64b7f0c2a1d3e4f5a6b7c8d9" None.

Definition manager : User.t :=
  User.mk "64b7f0c2a1d3e4f5a6b7c8a0" (Some "manager").

Definition two_pilau : OrderRequest.t :=
  OrderRequest.mk
    (ItemsArray [LineRequest.mk (Some "64b7f0c2a1d3e4f5a6b7c8e1") (Some 2)])
    (Some "takeaway") (Some "Cash") None None None.

(** No [orderType] and no [paymentMethod]. *)
Definition bare : OrderRequest.t :=
  OrderRequest.mk
    (ItemsArray [LineRequest.mk (Some "64b7f0c2a1d3e4f5a6b7c8e1") (Some 2);
                 LineRequest.mk (Some "64b7f0c2a1d3e4f5a6b7c8e2") (Some 3)])
    None None None None None.

(** A line whose id is well formed and in no catalog entry. *)
Definition unknown_item : OrderRequest.t :=
  OrderRequest.mk
    (ItemsArray [LineRequest.mk (Some "64b7f0c2a1d3e4f5a6b7c8e1") (Some 2);
                 LineRequest.mk (Some "ffffffffffffffffffffffff") (Some 1)])
    (Some "takeaway") (Some "Cash") None None None.

Definition no_items : OrderRequest.t :=
  OrderRequest.mk (ItemsArray []) (Some "takeaway") (Some "Cash")
    None None None.

(** The store after the first order has been taken. *)
Definition store1 : Store :=
  Eval vm_compute in snd (Routes.createOrder env diner two_pilau store0).

Definition order1 : Order.t :=
  Eval vm_compute in hd (Routes.new_order env customer [] 0 two_pilau None)
                        (orders store1).

(** An entry of one shilling, and an order for 9007199254740991 and for 2
    of it: 9007199254740993 pieces, one more than [2^53]. *)
Definition mandazi : MenuItem.t :=
  MenuItem.mk "64b7f0c2a1d3e4f5a6b7c8e3" (Some "MENU0003") "Mandazi"
    "Side Dish" 1 "" 15 true "fa-utensils" today.



(** The store once the manager has switched the pilau off. *)
Definition closed : Store :=
  Eval vm_compute in snd (Catalog.toggle "64b7f0c2a1d3e4f5a6b7c8e1" store0).

End Sample.

(** ** Vocabulary of the proofs *)

(** A line as the [pre('save')] hook leaves it. *)
Definition reprice (item : Item.t) : Item.t :=
  Item.set_subtotal (JS.mul (Item.quantity item) (Item.price item)) item.

(** The totals are consistent: every line subtotal is quantity times
    unit price and subtotal and total are both the sum of the line
    subtotals, as the [pre('save')] hook computes them, in the arithmetic
    of the code. *)
Definition totals_consistent (o : Order.t) : Prop :=
  Forall (fun item =>
            Item.subtotal item
            = JS.mul (Item.quantity item) (Item.price item))
         (Order.items o)
  /\ Order.subtotal o = OrderModel.sum_subtotals (Order.items o)
  /\ Order.total o = Order.subtotal o.


(** The largest whole number up to which every whole number is a
    double. *)
Definition exact_bound : Z := 2 ^ 53.

(** The document [save()] writes for [o] in store [s]: [o] after both
    hooks. *)
Definition saved (date : Date) (s : Store) (o : Order.t) : Order.t :=
  OrderModel.pre_save date (OrderModel.pre_validate date (length (orders s)) o).

(** The line names a catalog entry. *)
Definition resolves (catalog : list MenuItem.t) (line : LineRequest.t) : Prop :=
  exists id m,
    LineRequest.menuItemId line = Some id
    /\ find (MenuItemModel.has_id id) catalog = Some m.

(** The line passes every check of the intake loop. *)
Definition accepted (catalog : list MenuItem.t) (line : LineRequest.t) : Prop :=
  exists id q m,
    LineRequest.menuItemId line = Some id
    /\ LineRequest.quantity line = Some q
    /\ id <> "" /\ q <> 0
    /\ ObjectId_isValid id = true
    /\ find (MenuItemModel.has_id id) catalog = Some m
    /\ MenuItem.available m = true.

(** The sum of unit price times quantity over the lines. *)
Definition snapshot_total (items : list Item.t) : Z :=
  fold_right (fun item acc => Item.price item * Item.quantity item + acc) 0
             items.

Definition item_valid (item : Item.t) : Prop :=
  Item.name item <> "" /\ 1 <= Item.quantity item
  /\ 0 <= Item.price item /\ 0 <= Item.subtotal item.

(** What passing the schema validators means. *)
Definition valid (o : Order.t) : Prop :=
  Order.customerName o <> ""
  /\ Order.customerPhone o <> ""
  /\ Order.items o <> []
  /\ Forall item_valid (Order.items o)
  /\ 0 <= Order.subtotal o
  /\ 0 <= Order.total o
  /\ In (Order.orderType o) OrderModel.orderTypes
  /\ In (Order.paymentMethod o) OrderModel.paymentMethods
  /\ In (Order.paymentStatus o) OrderModel.paymentStatuses
  /\ In (Order.orderStatus o) OrderModel.orderStatuses.

(** A stored order is as [save()] leaves one: valid and numbered. *)
Definition stored_ok (o : Order.t) : Prop := valid o /\ numbered o.

(** The update of the customer statistics that follows the write of the
    order: what [customer.save()] does in the store that has the order. *)
Definition stats_update (env : Env) (s : Store) (customer : Customer.t)
  (o : Order.t) : Outcome Customer.t * Store :=
  CustomerModel.save (Routes.bump_stats env o customer)
    (with_orders (orders s ++ [o]) s).

(** The store once the order is written and the customer update has
    run. *)
Definition after_intake (env : Env) (s : Store) (customer : Customer.t)
  (o : Order.t) : Store :=
  snd (stats_update env s customer o).

(** The 201 response for a saved order. *)
Definition created_response (o : Order.t) : Response :=
  mkResponse 201
    (BCreated "Order created successfully"
       (mkCreatedSummary (Order._id o) (Order.orderNumber o) (Order.total o)
          (Order.orderStatus o) (Order.items o) (Order.createdAt o)
          (Order.orderType o) (Order.deliveryAddress o))).

(** The checks a request passes on its way to a saved order [o]. *)
Definition intake_accepted (env : Env) (user : User.t) (b : OrderRequest.t)
  (s : Store) (customer : Customer.t) (o : Order.t) : Prop :=
  exists lines orderItems addr,
    let fresh :=
      Routes.new_order env customer orderItems
        (OrderModel.sum_subtotals orderItems) b addr in
    OrderRequest.items b = ItemsArray lines
    /\ lines <> []
    /\ ObjectId_isValid (User.id user) = true
    /\ find (CustomerModel.has_id (User.id user)) (customers s) = Some customer
    /\ Routes.collect_items lines [] s = (Continue orderItems, s)
    /\ Routes.delivery_address b s = (Continue addr, s)
    /\ OrderModel.validate
         (OrderModel.pre_validate (now env) (length (orders s)) fresh) = []
    /\ o = saved (now env) s fresh
    /\ OrderModel.insert_conflict o (orders s) = false.

(** The answer and the store of an accepted intake: when the customer
    update goes through, the notification is appended and 201 sent, or its
    failure goes to the [catch] block; a failure of the customer update
    goes to the [catch] block with the order written. *)
Definition intake_result (env : Env) (s : Store) (customer : Customer.t)
  (o : Order.t) (resp : Response) (s' : Store) : Prop :=
  match fst (stats_update env s customer o) with
  | Continue _ =>
      match notificationFailure env with
      | None =>
          resp = created_response o
          /\ exists n,
              Notification.type n = "success"
              /\ s' = with_notifications (notifications s ++ [n])
                        (after_intake env s customer o)
      | Some e =>
          resp = Routes.createOrder_catch e
          /\ s' = after_intake env s customer o
      end
  | Responded r => resp = r /\ s' = after_intake env s customer o
  | Thrown e =>
      resp = Routes.createOrder_catch e
      /\ s' = after_intake env s customer o
  end.

Definition after_update (s : Store) (o : Order.t) : Store :=
  with_orders (OrderModel.replace_first o (orders s)) s.

(** The document the payment route saves. *)
Definition pay_tweak (newStatus : string) (mpesaReceipt : option string)
  (o : Order.t) : Order.t :=
  let o := Order.set_paymentStatus newStatus o in
  if JS.truthy_string mpesaReceipt then Order.set_mpesaReceipt mpesaReceipt o
  else o.

(** The checks an update passes on its way to a saved order [o]: the
    stored order [old] is found, changed by [tweak] and saved. *)
Definition update_accepted (env : Env) (id : string)
  (tweak : Order.t -> Order.t) (s : Store) (old o : Order.t) : Prop :=
  ObjectId_isValid id = true
  /\ find (OrderModel.has_id id) (orders s) = Some old
  /\ OrderModel.validate
       (OrderModel.pre_validate (now env) (length (orders s)) (tweak old))
     = []
  /\ o = saved (now env) s (tweak old)
  /\ OrderModel.update_conflict old o (orders s) = false.

(** The answer and the store of an accepted update. *)
Definition update_result (env : Env) (ntype message : string) (s : Store)
  (o : Order.t) (resp : Response) (s' : Store) : Prop :=
  match notificationFailure env with
  | None =>
      resp = mkResponse 200 (BUpdated message o)
      /\ exists n,
          Notification.type n = ntype
          /\ s' = with_notifications (notifications s ++ [n])
                    (after_update s o)
  | Some e =>
      resp = Routes.message_catch e /\ s' = after_update s o
  end.

(** The answers of a request that is turned down. *)
Definition refused (resp : Response) : Prop :=
  status resp = 400 \/ status resp = 403 \/ status resp = 404
  \/ status resp = 500.

(** The requests that save an order and emit a notification. *)
Definition emits (req : Request) : bool :=
  match req with
  | CreateOrder _ _ | SetOrderStatus _ _ _ | SetPaymentStatus _ _ _ _ => true
  | TrackOrder _ _ | GetOrder _ _ => false
  end.

(** The [catch] block of the route that serves the request. *)
Definition catch_of (req : Request) : Exn -> Response :=
  match req with
  | CreateOrder _ _ => Routes.createOrder_catch
  | _ => Routes.message_catch
  end.

(** The environment with a notification collection that accepts writes. *)
Definition sink_up (env : Env) : Env :=
  mkEnv (now env) (newObjectId env) None.

(** The summary the tracking route sends for an order. *)
Definition track_response (o : Order.t) : Response :=
  mkResponse 200
    (BTrack
       (mkTrackSummary (Order.orderNumber o) (Order.customerName o)
          (Order.orderStatus o) (Order.createdAt o) (Order.total o)
          (Order.items o) (Order.orderType o) (Order.deliveryAddress o))).

(** ** The customer's order list ([GET /api/orders/my-orders]) *)

Module Listing.

(** The JSON bodies of the list route: the array of orders, or the
    message of the [catch] block. *)
Inductive Body :=
| LOrders (found : list Order.t)
| LMessage (message : string).

Record Response := mkResponse {
  status : Z;
  body : Body
}.

(** The filter [{ $or: [{ userId: id }, { customerId: id }] }]. *)
Definition owned_by (id : ObjectId) (o : Order.t) : bool :=
  String.eqb (Order.userId o) id || String.eqb (Order.customerId o) id.

(** [.sort({ createdAt: -1 })]: newest first.  The store does not say in
    which order it returns documents created at the same instant; here
    they keep the order they are found in. *)
Fixpoint insert_newest (o : Order.t) (sorted : list Order.t)
  : list Order.t :=
  match sorted with
  | [] => [o]
  | x :: rest =>
      if getTime (Order.createdAt x) <? getTime (Order.createdAt o)
      then o :: x :: rest
      else x :: insert_newest o rest
  end.

Definition sort_newest (l : list Order.t) : list Order.t :=
  fold_right insert_newest [] l.

(** [GET /api/orders/my-orders]: a query whose id does not cast throws
    into the [catch] block. *)
Definition myOrders (user : User.t) (s : Store) : Response * Store :=
  if ObjectId_isValid (User.id user) then
    (mkResponse 200
       (LOrders (sort_newest (filter (owned_by (User.id user)) (orders s)))),
     s)
  else
    (mkResponse 500
       (LMessage (exn_message (CastError (User.id user) "userId" "Order"))),
     s).

End Listing.

(** ** The helpers ([utils/helpers.js]) and the validators *)

Module Helpers.

Definition is_digit (c : ascii) : bool :=
  ((48 <=? nat_of_ascii c) && (nat_of_ascii c <=? 57))%nat.

(** [s.replace(/\D/g, '')]: the digits of [s]. *)
Fixpoint digits_only (s : string) : string :=
  match s with
  | EmptyString => EmptyString
  | String c rest =>
      if is_digit c then String c (digits_only rest) else digits_only rest
  end.

(** [s.startsWith(p)]. *)
Definition startsWith (p s : string) : bool := String.prefix p s.

(** [s.substring(k)]: [s] without its first [k] characters. *)
Definition substring_from (k : nat) (s : string) : string :=
  substring k (String.length s - k) s.

(** [formatPhoneNumber]. *)
Definition formatPhoneNumber (phone : string) : string :=
  let formatted := digits_only phone in
  if startsWith "0" formatted then "254" ++ substring_from 1 formatted
  else if startsWith "7" formatted then "254" ++ formatted
  else if negb (startsWith "254" formatted) then "254" ++ formatted
  else formatted.

Fixpoint all_digits (s : string) : bool :=
  match s with
  | EmptyString => true
  | String c rest => is_digit c && all_digits rest
  end.

(** The regular expression [[17]\d{8}] on a whole string. *)
Definition subscriber (s : string) : bool :=
  (String.length s =? 9)%nat
  && (startsWith "1" s || startsWith "7" s)
  && all_digits s.

(** The regular expression [/^(0|254)?[17]\d{8}$/]: a subscriber number,
    bare or after [0] or [254]. *)
Definition phone_pattern (s : string) : bool :=
  subscriber s
  || startsWith "0" s && subscriber (substring_from 1 s)
  || startsWith "254" s && subscriber (substring_from 3 s).

(** [isValidPhone] of the validators. *)
Definition isValidPhone (phone : string) : bool :=
  phone_pattern (digits_only phone).

End Helpers.

(** ** The order figures of the dashboard and the reports *)

Module Reports.

(** A JavaScript object used as a map from strings to values, in the
    order the keys were first written: its own keys, which are here the
    enumerated payment methods and order types and the ISO days. *)
Fixpoint lookup {V} (k : string) (m : list (string * V)) : option V :=
  match m with
  | [] => None
  | (k', v) :: rest => if String.eqb k' k then Some v else lookup k rest
  end.

(** [obj[k] = v]. *)
Fixpoint assign {V} (k : string) (v : V) (m : list (string * V))
  : list (string * V) :=
  match m with
  | [] => [(k, v)]
  | (k', v') :: rest =>
      if String.eqb k' k then (k, v) :: rest else (k', v') :: assign k v rest
  end.

(** The [summary] object of [GET /api/reports/sales], as far as the
    orders fill it. *)
Record SalesSummary := mkSalesSummary {
  totalOrders : Z;
  totalRevenue : Z;
  paidOrders : Z;
  pendingOrders : Z;
  byPaymentMethod : list (string * Z);
  byOrderType : list (string * Z);
  daily : list (string * (Z * Z))
}.

(** The body of [orders.forEach(order => ...)] in the sales report.
    [isoDay] is [date.toISOString().split('T')[0]], the UTC day of the
    instant; a day of [daily] is the pair of its [orders] and
    [revenue]. *)
Definition sales_step (isoDay : Date -> string) (summary : SalesSummary)
  (order : Order.t) : SalesSummary :=
  let method := JS.or_string (Some (Order.paymentMethod order)) "Unknown" in
  let type := JS.or_string (Some (Order.orderType order)) "Unknown" in
  let day := isoDay (Order.createdAt order) in
  let today :=
    match lookup day (daily summary) with
    | Some d => d
    | None => (0, 0)
    end in
  mkSalesSummary
    (totalOrders summary)
    (JS.add (totalRevenue summary) (JS.or_number (Some (Order.total order)) 0))
    (if String.eqb (Order.paymentStatus order) "Paid"
     then paidOrders summary + 1 else paidOrders summary)
    (if String.eqb (Order.paymentStatus order) "Paid"
     then pendingOrders summary else pendingOrders summary + 1)
    (assign method
       (JS.add (JS.or_number (lookup method (byPaymentMethod summary)) 0)
               (Order.total order))
       (byPaymentMethod summary))
    (assign type
       (JS.or_number (lookup type (byOrderType summary)) 0 + 1)
       (byOrderType summary))
    (assign day (fst today + 1, JS.add (snd today) (Order.total order))
       (daily summary)).

(** The [summary] object of a report of [n] orders before the orders are
    processed. *)
Definition sales_start (n : Z) : SalesSummary :=
  mkSalesSummary n 0 0 0 [] [] [].

(** The summary of the sales report once the orders are processed. *)
Definition sales_summary (isoDay : Date -> string) (found : list Order.t)
  : SalesSummary :=
  fold_left (sales_step isoDay) found (sales_start (Z.of_nat (length found))).

(** The [orders] object of the summary of [GET /api/reports/general]. *)
Record OrderCounts := mkOrderCounts {
  total : Z;
  pending : Z;
  confirmed : Z;
  preparing : Z;
  ready : Z;
  completed : Z;
  cancelled : Z;
  revenue : Z
}.

(** [orders.filter(o => o.orderStatus === status).length]. *)
Definition count_status (status : string) (found : list Order.t) : Z :=
  Z.of_nat
    (length (filter (fun o => String.eqb (Order.orderStatus o) status) found)).

(** [orders.reduce((sum, o) => sum + (o.total || 0), 0)]. *)
Definition sum_totals (found : list Order.t) : Z :=
  fold_left (fun sum o => JS.add sum (JS.or_number (Some (Order.total o)) 0))
            found 0.

Definition order_counts (found : list Order.t) : OrderCounts :=
  mkOrderCounts (Z.of_nat (length found))
    (count_status "Pending" found) (count_status "Confirmed" found)
    (count_status "Preparing" found) (count_status "Ready" found)
    (count_status "Completed" found) (count_status "Cancelled" found)
    (sum_totals found).

(** The order term of [totalRevenue] in [GET /api/dashboard/stats]:
    [Order.find({ paymentStatus: 'Paid' })] and the sum of the totals. *)
Definition paid_revenue (s : Store) : Z :=
  sum_totals
    (filter (fun o => String.eqb (Order.paymentStatus o) "Paid") (orders s)).

End Reports.

(** ** Runs of the API *)

(** One step of a run: a request under its environment, or a catalog
    write. *)
Inductive Step :=
| Call (env : Env) (req : Request)
| Write (op : Catalog.Op).

Definition step (s : Store) (st : Step) : Store :=
  match st with
  | Call env req => snd (handle env req s)
  | Write op => Catalog.apply op s
  end.

Definition run (script : list Step) (s : Store) : Store :=
  fold_left step script s.

(** The environment a deployment provides: the clock shows a calendar
    date and the id drawn for a new document is well formed. *)
Definition sound_env (env : Env) : Prop :=
  calendar_date (now env) /\ ObjectId_isValid (newObjectId env) = true.

Definition sound_step (st : Step) : Prop :=
  match st with
  | Call env _ => sound_env env
  | Write _ => True
  end.

(** The order at position [i] carries the sequence number [i + 1] under
    some calendar date. *)
Definition sequenced (stored : list Order.t) : Prop :=
  forall i o,
    nth_error stored i = Some o ->
    exists date,
      calendar_date date
      /\ Order.orderNumber o = Some (spec_order_number date (Z.of_nat i)).

(** The value of a string of decimal digits. *)
Definition digits_value (s : string) : Z :=
  fold_left (fun acc c => 10 * acc + (Z.of_nat (nat_of_ascii c) - 48))
            (list_ascii_of_string s) 0.

(** The sum, over the keys of a tally, of a figure of their values. *)
Definition tally {V} (figure : V -> Z) (m : list (string * V)) : Z :=
  fold_right (fun kv acc => figure (snd kv) + acc) 0 m.

(** The sum of the totals of a list of orders. *)
Definition total_of (found : list Order.t) : Z :=
  fold_right (fun o acc => Order.total o + acc) 0 found.



(** The exact sum of the totals of the paid orders. *)
Definition paid_total (stored : list Order.t) : Z :=
  total_of
    (filter (fun o => String.eqb (Order.paymentStatus o) "Paid") stored).

(** What an order adds to the revenue of the paid orders. *)
Definition paid_part (o : Order.t) : Z :=
  if String.eqb (Order.paymentStatus o) "Paid" then Order.total o else 0.

(** The line names an entry that is not on offer. *)
Definition unavailable (catalog : list MenuItem.t) (line : LineRequest.t)
  : Prop :=
  exists id m,
    LineRequest.menuItemId line = Some id
    /\ find (MenuItemModel.has_id id) catalog = Some m
    /\ MenuItem.available m = false.

(** The stored orders have pairwise distinct, well-formed ids. *)
Definition distinct_ids (stored : list Order.t) : Prop :=
  NoDup (map (fun o => ObjectId_hex (Order._id o)) stored)
  /\ Forall (fun id => ObjectId_isValid id = true) (map Order._id stored).

(** The request asks for delivery and brings no usable address. *)
Definition lacks_address (b : OrderRequest.t) : Prop :=
  OrderRequest.orderType b = Some "delivery"
  /\ forall a,
       OrderRequest.deliveryAddress b = Some a ->
       JS.truthy_string (Address.street a) = false
       \/ JS.truthy_string (Address.city a) = false.

(** Not older than: the order of a list sorted newest first. *)
Definition not_older (a b : Order.t) : Prop :=
  getTime (Order.createdAt b) <= getTime (Order.createdAt a).

(** * Strings and decimal digits *)

Example decimal_2026 : JS.Number_toString 2026 = "2026".
Proof. reflexivity. Qed.

Example padStart_7 : JS.padStart 4 "0"%char (JS.Number_toString 7) = "0007".
Proof. reflexivity. Qed.

Example padStart_wide :
  JS.padStart 4 "0"%char (JS.Number_toString 12345) = "12345".
Proof. reflexivity. Qed.

Example slice_2026 : JS.slice_last 2 (JS.Number_toString 2026) = "26".
Proof. reflexivity. Qed.

Example locale_1234567 : JS.toLocaleString 1234567 = "1,234,567".
Proof. reflexivity. Qed.

Example first_order_stored :
  map Order.orderNumber (orders Sample.store1) = [Some "ORD2611010001"]
  /\ map Order.total (orders Sample.store1) = [1000]
  /\ map Notification.type (notifications Sample.store1) = ["success"].
Proof. vm_compute. auto. Qed.

Lemma length_append (s t : string) :
  String.length (s ++ t) = (String.length s + String.length t)%nat.
Proof. induction s as [|c s IH]; simpl; [reflexivity | now rewrite IH]. Qed.

Lemma substring_whole (s : string) : substring 0 (String.length s) s = s.
Proof. induction s as [|c s IH]; simpl; [reflexivity | now rewrite IH]. Qed.

Lemma substring_skip (s t : string) :
  substring (String.length s) (String.length t) (s ++ t) = t.
Proof.
  induction s as [|c s IH]; simpl.
  - apply substring_whole.
  - exact IH.
Qed.

(** The last characters of a concatenation are its second part. *)
Lemma slice_last_append (s t : string) :
  JS.slice_last (String.length t) (s ++ t) = t.
Proof.
  unfold JS.slice_last. rewrite length_append.
  replace (String.length s + String.length t - String.length t)%nat
    with (String.length s) by lia.
  apply substring_skip.
Qed.

Lemma append_assoc (s t u : string) : (s ++ t) ++ u = s ++ (t ++ u).
Proof. induction s as [|c s IH]; simpl; [reflexivity | now rewrite IH]. Qed.


Lemma decimal_small (n : Z) :
  n < 10 -> JS.decimal n = String (JS.digit n) "".
Proof.
  intros Hn. unfold JS.decimal. cbn [JS.decimal_fuel].
  destruct (Z.ltb_spec n 10); [reflexivity | lia].
Qed.

(** More fuel than the binary length of the number changes nothing. *)
Lemma decimal_fuel_enough (f g : nat) : forall n,
  0 <= n < 2 ^ Z.of_nat (S f) ->
  JS.decimal_fuel (S f + g) n = JS.decimal_fuel (S f) n.
Proof.
  induction f as [|f IH]; intros n Hn.
  - cbn [JS.decimal_fuel Nat.add].
    change (2 ^ Z.of_nat 1) with 2 in Hn.
    destruct (Z.ltb_spec n 10); [reflexivity | lia].
  - change (S (S f) + g)%nat with (S (S f + g)).
    cbn [JS.decimal_fuel].
    destruct (Z.ltb_spec n 10) as [|Hge]; [reflexivity|].
    rewrite IH; [reflexivity|].
    rewrite Nat2Z.inj_succ, Z.pow_succ_r in Hn by lia.
    split.
    + apply Z.div_pos; lia.
    + apply Z.div_lt_upper_bound; lia.
Qed.

(** The unfolding equation of the decimal rendering. *)
Lemma decimal_step (n : Z) :
  10 <= n ->
  JS.decimal n = JS.decimal (n / 10) ++ String (JS.digit (n mod 10)) "".
Proof.
  intros Hn. unfold JS.decimal at 1. cbn [JS.decimal_fuel].
  destruct (Z.ltb_spec n 10) as [|_]; [lia|].
  f_equal. unfold JS.decimal.
  assert (Hq : 1 <= n / 10) by (Z.to_euclidean_division_equations; lia).
  assert (Hlog : Z.log2 (n / 10) < Z.log2 n).
  { apply Z.log2_lt_pow2; [lia|].
    destruct (Z.log2_spec n) as [_ Hhi]; [lia|].
    rewrite Z.pow_succ_r in Hhi by apply Z.log2_nonneg.
    apply Z.div_lt_upper_bound; lia. }
  pose proof (Z.log2_nonneg (n / 10)) as Hnn.
  replace (Z.to_nat (Z.log2 n))
    with (S (Z.to_nat (Z.log2 (n / 10)))
          + (Z.to_nat (Z.log2 n) - S (Z.to_nat (Z.log2 (n / 10)))))%nat by lia.
  apply decimal_fuel_enough.
  destruct (Z.log2_spec (n / 10)) as [_ Hhi]; [lia|].
  split; [lia|].
  rewrite Nat2Z.inj_succ, Z2Nat.id by lia. exact Hhi.
Qed.

(** A number of at least two digits ends in its tens and units. *)
Lemma decimal_last_two (n : Z) :
  10 <= n ->
  exists front,
    JS.decimal n = front ++ two_digits (n mod 100).
Proof.
  intros Hn. unfold two_digits.
  replace ((n mod 100) / 10) with ((n / 10) mod 10)
    by (Z.to_euclidean_division_equations; lia).
  replace ((n mod 100) mod 10) with (n mod 10)
    by (Z.to_euclidean_division_equations; lia).
  rewrite decimal_step by exact Hn.
  destruct (Z.ltb_spec (n / 10) 10) as [Hlt|Hge].
  - exists "". rewrite decimal_small by exact Hlt.
    rewrite (Z.mod_small (n / 10)); [reflexivity|].
    split; [apply Z.div_pos; lia | exact Hlt].
  - exists (JS.decimal (n / 10 / 10)).
    rewrite decimal_step by exact Hge.
    rewrite append_assoc. reflexivity.
Qed.

Lemma toString_nonneg (n : Z) : 0 <= n -> JS.Number_toString n = JS.decimal n.
Proof.
  intros Hn. unfold JS.Number_toString.
  destruct (Z.ltb_spec n 0); [lia | reflexivity].
Qed.

(** [year.toString().slice(-2)] is the year modulo 100 on two digits. *)
Lemma slice_year (y : Z) :
  10 <= y -> JS.slice_last 2 (JS.Number_toString y) = two_digits (y mod 100).
Proof.
  intros Hy. rewrite toString_nonneg by lia.
  destruct (decimal_last_two y Hy) as [front ->].
  apply (slice_last_append front (two_digits (y mod 100))).
Qed.

(** [n.toString().padStart(2, '0')] is [n] on two digits, for [n] below
    one hundred. *)
Lemma pad_two_digits (n : Z) :
  0 <= n < 100 ->
  JS.padStart 2 "0"%char (JS.Number_toString n) = two_digits n.
Proof.
  intros Hn. rewrite toString_nonneg by lia. unfold two_digits.
  destruct (Z.ltb_spec n 10) as [Hlt|Hge].
  - rewrite decimal_small by exact Hlt.
    rewrite Z.div_small, Z.mod_small by lia. reflexivity.
  - rewrite decimal_step by exact Hge.
    rewrite decimal_small by (Z.to_euclidean_division_equations; lia).
    reflexivity.
Qed.

(** The hook builds the order number the specification describes. *)
Lemma order_number_spec (date : Date) (count : nat) :
  calendar_date date ->
  OrderModel.order_number date (Z.of_nat count)
  = spec_order_number date (Z.of_nat count).
Proof.
  intros (Hy & Hm & Hd).
  unfold OrderModel.order_number, spec_order_number.
  rewrite slice_year by exact Hy.
  rewrite !pad_two_digits by lia.
  rewrite toString_nonneg by lia.
  reflexivity.
Qed.

(** * Numbers and ids *)

(** Up to [2^53] a whole number is a double. *)
Lemma round_exact x : Z.abs x <= exact_bound -> JS.round x = x.
Proof.
  unfold exact_bound, JS.round. intros H. apply Z.leb_le in H.
  cbv zeta. now rewrite H.
Qed.

Lemma round_nonneg x : 0 <= x -> 0 <= JS.round x.
Proof.
  intros Hx. unfold JS.round. cbv zeta.
  destruct (Z.abs x <=? 2 ^ 53); [exact Hx|].
  apply Z.mul_nonneg_nonneg; [now apply Z.sgn_nonneg|].
  assert (Hq : 0 <= Z.abs x / 2 ^ (Z.log2 (Z.abs x) - 52)).
  { apply Z_div_nonneg_nonneg; [apply Z.abs_nonneg|].
    apply Z.pow_nonneg. lia. }
  apply Z.mul_nonneg_nonneg; [|apply Z.pow_nonneg; lia].
  destruct (_ <? _); [exact Hq|].
  destruct (_ <? _); [lia|].
  destruct (Z.even _); lia.
Qed.

Lemma add_exact a b :
  0 <= a -> 0 <= b -> a + b <= exact_bound -> JS.add a b = a + b.
Proof. intros Ha Hb H. apply round_exact. lia. Qed.

Lemma mul_exact a b :
  0 <= a -> 0 <= b -> a * b <= exact_bound -> JS.mul a b = a * b.
Proof. intros Ha Hb H. apply round_exact. nia. Qed.

Lemma add_nonneg a b : 0 <= a -> 0 <= b -> 0 <= JS.add a b.
Proof. intros Ha Hb. apply round_nonneg. lia. Qed.

Lemma mul_nonneg a b : 0 <= a -> 0 <= b -> 0 <= JS.mul a b.
Proof. intros Ha Hb. apply round_nonneg. nia. Qed.

Lemma ObjectId_eq_refl a : ObjectId_eq a a = true.
Proof. apply String.eqb_refl. Qed.

Lemma ObjectId_eq_hex a b :
  ObjectId_eq a b = true <-> ObjectId_hex a = ObjectId_hex b.
Proof. apply String.eqb_eq. Qed.

(** Two ids that are cast to the same [ObjectId] match the same
    documents. *)
Lemma ObjectId_eq_same a b :
  ObjectId_eq a b = true -> forall c, ObjectId_eq c a = ObjectId_eq c b.
Proof.
  intros H c. apply ObjectId_eq_hex in H. unfold ObjectId_eq. now rewrite H.
Qed.

Lemma find_same {A} (f g : A -> bool) (l : list A) :
  (forall x, f x = g x) -> find f l = find g l.
Proof.
  intros H. induction l as [|x l IH]; simpl; [reflexivity|].
  now rewrite H, IH.
Qed.

(** * The model layer *)

Lemma notify_run env title message type s :
  NotificationModel.create env title message type s =
  match notificationFailure env with
  | Some e => (Thrown e, s)
  | None =>
      (Continue tt,
       with_notifications
         (notifications s
          ++ [Notification.mk title message type false (now env)]) s)
  end.
Proof.
  unfold NotificationModel.create. now destruct (notificationFailure env).
Qed.

(** [customer.save()] step by step. *)
Lemma customer_save_run c s :
  CustomerModel.save c s =
  let c' := CustomerModel.pre_save (length (customers s)) c in
  match CustomerModel.validate c with
  | (_ :: _) as errors => (Thrown (ValidationError "Customer" errors), s)
  | [] =>
      match find (CustomerModel.has_id (Customer._id c')) (customers s) with
      | None => (Thrown (Error "No document found for query"), s)
      | Some old =>
          if CustomerModel.update_conflict old c' (customers s)
          then (Thrown CustomerModel.duplicate_key, s)
          else (Continue c',
                with_customers
                  (CustomerModel.replace_first c' (customers s)) s)
      end
  end.
Proof.
  unfold CustomerModel.save, bind, gets, throw, modify, ret. cbv zeta.
  destruct (CustomerModel.validate c); [|reflexivity].
  destruct (find _ _); [|reflexivity].
  destruct (CustomerModel.update_conflict _ _ _); reflexivity.
Qed.

(** A customer update either throws and writes nothing, or writes the
    customer the hook leaves and touches no other collection. *)
Lemma customer_save_inv c s out s' :
  CustomerModel.save c s = (out, s') ->
  (s' = s /\ exists e, out = Thrown e)
  \/ (out = Continue (CustomerModel.pre_save (length (customers s)) c)
      /\ CustomerModel.validate c = []
      /\ s' = with_customers
                (CustomerModel.replace_first
                   (CustomerModel.pre_save (length (customers s)) c)
                   (customers s)) s).
Proof.
  rewrite customer_save_run. cbv zeta.
  destruct (CustomerModel.validate c) eqn:Hv; [|intros [= <- <-]; eauto].
  destruct (find _ _); [|intros [= <- <-]; eauto].
  destruct (CustomerModel.update_conflict _ _ _); intros [= <- <-]; eauto.
Qed.

(** ** The hooks *)

Lemma line_total_nonneg (items : list Item.t) :
  Forall (fun item => 0 <= Item.subtotal item) items -> 0 <= line_total items.
Proof.
  induction 1 as [|item items Hitem _ IH]; simpl; lia.
Qed.

Lemma sum_subtotals_acc (items : list Item.t) : forall acc,
  Forall (fun item => 0 <= Item.subtotal item) items ->
  0 <= acc -> acc + line_total items <= exact_bound ->
  fold_left (fun sum item => JS.add sum (Item.subtotal item)) items acc
  = acc + line_total items.
Proof.
  induction items as [|item items IH]; intros acc Hs Hacc Hb; simpl.
  - lia.
  - inversion Hs as [|? ? Hitem Hrest]; subst.
    pose proof (line_total_nonneg items Hrest) as Hn.
    simpl in Hb.
    rewrite add_exact by lia. rewrite IH by (assumption || lia). lia.
Qed.

(** The [reduce] of the code is the sum of the line subtotals as long as
    that sum is a double. *)
Lemma sum_subtotals_line_total (items : list Item.t) :
  Forall (fun item => 0 <= Item.subtotal item) items ->
  line_total items <= exact_bound ->
  OrderModel.sum_subtotals items = line_total items.
Proof.
  intros Hs Hb. unfold OrderModel.sum_subtotals.
  rewrite sum_subtotals_acc by (assumption || lia). lia.
Qed.

Lemma sum_subtotals_from_nonneg (items : list Item.t) : forall acc,
  Forall (fun item => 0 <= Item.subtotal item) items ->
  0 <= acc ->
  0 <= fold_left (fun sum item => JS.add sum (Item.subtotal item)) items acc.
Proof.
  induction items as [|item items IH]; intros acc Hs Hacc; simpl;
    [exact Hacc|].
  inversion Hs as [|? ? Hitem Hrest]; subst.
  apply IH; [exact Hrest|]. now apply add_nonneg.
Qed.

Lemma sum_subtotals_nonneg (items : list Item.t) :
  Forall (fun item => 0 <= Item.subtotal item) items ->
  0 <= OrderModel.sum_subtotals items.
Proof. intros Hs. apply sum_subtotals_from_nonneg; [exact Hs | lia]. Qed.

Lemma pre_validate_fields date count o :
  let o' := OrderModel.pre_validate date count o in
  Order._id o' = Order._id o
  /\ Order.items o' = Order.items o
  /\ Order.orderType o' = Order.orderType o
  /\ Order.paymentMethod o' = Order.paymentMethod o
  /\ Order.orderStatus o' = Order.orderStatus o
  /\ Order.paymentStatus o' = Order.paymentStatus o.
Proof.
  unfold OrderModel.pre_validate.
  destruct (JS.truthy_string (Order.orderNumber o)); destruct o; simpl; auto 10.
Qed.

Lemma pre_validate_numbered date count o :
  numbered (OrderModel.pre_validate date count o).
Proof.
  unfold numbered, OrderModel.pre_validate.
  destruct (JS.truthy_string (Order.orderNumber o)) eqn:E; [exact E|].
  destruct o; reflexivity.
Qed.

Lemma pre_validate_keeps date count o :
  numbered o -> OrderModel.pre_validate date count o = o.
Proof. unfold numbered, OrderModel.pre_validate. now intros ->. Qed.

Lemma pre_validate_fresh date count o :
  Order.orderNumber o = None ->
  Order.orderNumber (OrderModel.pre_validate date count o)
  = Some (OrderModel.order_number date (Z.of_nat count)).
Proof.
  unfold OrderModel.pre_validate. intros ->. simpl. now destruct o.
Qed.

Lemma pre_save_fields date o :
  let o' := OrderModel.pre_save date o in
  Order._id o' = Order._id o
  /\ Order.orderNumber o' = Order.orderNumber o
  /\ Order.items o' = map reprice (Order.items o)
  /\ Order.orderType o' = Order.orderType o
  /\ Order.paymentMethod o' = Order.paymentMethod o
  /\ Order.orderStatus o' = Order.orderStatus o
  /\ Order.paymentStatus o' = Order.paymentStatus o
  /\ Order.customerPhone o' = Order.customerPhone o.
Proof.
  unfold OrderModel.pre_save.
  destruct o as [? ? ? ? ? ? ? its ? ? ? ? ? ? ? ? ? ? ? ?].
  destruct its; cbn; auto 10.
Qed.

Lemma reprice_consistent (items : list Item.t) :
  Forall (fun item =>
            Item.subtotal item
            = JS.mul (Item.quantity item) (Item.price item))
         (map reprice items).
Proof.
  induction items as [|item items IH]; simpl; constructor; [|exact IH].
  reflexivity.
Qed.

(** After the [pre('save')] hook a non-empty order has the totals the
    hook computes. *)
Lemma pre_save_totals date o :
  Order.items o <> [] -> totals_consistent (OrderModel.pre_save date o).
Proof.
  intros Hne. unfold totals_consistent, OrderModel.pre_save.
  destruct o as [? ? ? ? ? ? ? its ? ? ? ? ? ? ? ? ? ? ? ?].
  cbn [Order.items] in Hne. destruct its as [|i its]; [congruence|].
  cbn [Order.items Order.subtotal Order.total Order.set_items
       Order.set_subtotal Order.set_total Order.set_updatedAt].
  repeat split. apply (reprice_consistent (i :: its)).
Qed.

Lemma validate_nonempty o :
  OrderModel.validate o = [] -> Order.items o <> [].
Proof.
  unfold OrderModel.validate. intros H Hnil. rewrite Hnil in H.
  do 2 (apply app_eq_nil in H; destruct H as [_ H]).
  apply app_eq_nil in H. destruct H as [H _]. discriminate.
Qed.

(** ** [save()] *)

(** [save()] step by step: validation after the first hook, then the
    write of the document the second hook leaves. *)
Lemma save_run date isNew o s :
  OrderModel.save date isNew o s =
  match OrderModel.validate
          (OrderModel.pre_validate date (length (orders s)) o) with
  | (_ :: _) as errors => (Thrown (ValidationError "Order" errors), s)
  | [] =>
      if isNew then
        if OrderModel.insert_conflict (saved date s o) (orders s)
        then (Thrown OrderModel.duplicate_key, s)
        else (Continue (saved date s o),
              with_orders (orders s ++ [saved date s o]) s)
      else
        match find (OrderModel.has_id (Order._id (saved date s o)))
                   (orders s) with
        | None => (Thrown (Error "No document found for query"), s)
        | Some old =>
            if OrderModel.update_conflict old (saved date s o) (orders s)
            then (Thrown OrderModel.duplicate_key, s)
            else (Continue (saved date s o), after_update s (saved date s o))
        end
  end.
Proof.
  unfold OrderModel.save, saved, after_update, bind, gets, throw, modify, ret.
  destruct (OrderModel.validate _); [|reflexivity].
  destruct isNew.
  - destruct (OrderModel.insert_conflict _ _); reflexivity.
  - destruct (find _ _); [|reflexivity].
    destruct (OrderModel.update_conflict _ _ _); reflexivity.
Qed.

(** A [save()] either throws and writes nothing, or goes on with the
    saved document. *)
Lemma save_inv date isNew o s out s' :
  OrderModel.save date isNew o s = (out, s') ->
  (s' = s /\ exists e, out = Thrown e)
  \/ (out = Continue (saved date s o)
      /\ OrderModel.validate
           (OrderModel.pre_validate date (length (orders s)) o) = []
      /\ if isNew then
           OrderModel.insert_conflict (saved date s o) (orders s) = false
           /\ s' = with_orders (orders s ++ [saved date s o]) s
         else
           exists old,
             find (OrderModel.has_id (Order._id (saved date s o))) (orders s)
             = Some old
             /\ OrderModel.update_conflict old (saved date s o) (orders s)
                = false
             /\ s' = after_update s (saved date s o)).
Proof.
  rewrite save_run.
  destruct (OrderModel.validate _) eqn:Hv; [|intros [= <- <-]; eauto].
  destruct isNew.
  - destruct (OrderModel.insert_conflict _ _) eqn:Hc; intros [= <- <-];
      [eauto|]. right. auto.
  - destruct (find _ _) as [old|] eqn:Hf; [|intros [= <- <-]; eauto].
    destruct (OrderModel.update_conflict _ _ _) eqn:Hc; intros [= <- <-];
      [eauto|]. right. repeat split. exists old. auto.
Qed.

(** ** The intake loop *)

Lemma snapshot_resolves catalog line item :
  snapshot_of catalog line item -> resolves catalog line.
Proof. intros (id & m & H1 & H2 & _). exists id, m. auto. Qed.

Lemma menu_findById_inv id s out s' :
  MenuItemModel.findById id s = (out, s') ->
  s' = s
  /\ (out = Continue (find (MenuItemModel.has_id id) (menu s))
      \/ exists v p m, out = Thrown (CastError v p m)).
Proof.
  unfold MenuItemModel.findById, gets, throw.
  destruct (ObjectId_isValid id); intros [= <- <-]; eauto 6.
Qed.

(** The loop never writes; when it runs to its end, every line has been
    resolved and copied from the catalog; otherwise it has answered 400 or
    thrown a cast error. *)
Lemma collect_items_inv lines : forall acc s out s',
  Routes.collect_items lines acc s = (out, s') ->
  s' = s
  /\ match out with
     | Continue result =>
         exists new, result = (acc ++ new)%list
                     /\ Forall2 (snapshot_of (menu s)) lines new
     | Responded r => status r = 400 /\ exists m, body r = BMessage m
     | Thrown e => exists v p m, e = CastError v p m
     end.
Proof.
  induction lines as [|line lines IH]; intros acc s out s' H; cbn [Routes.collect_items] in H.
  - injection H as <- <-. split; [reflexivity|].
    exists []. rewrite app_nil_r. split; [reflexivity | constructor].
  - destruct (LineRequest.menuItemId line) as [id|] eqn:Hid;
      [destruct (LineRequest.quantity line) as [q|] eqn:Hq|];
      try (injection H as <- <-; split; [reflexivity | simpl; eauto]).
    destruct (_ || _);
      [injection H as <- <-; split; [reflexivity | simpl; eauto]|].
    unfold bind in H.
    destruct (MenuItemModel.findById id s) as [o1 s1] eqn:Hf.
    apply menu_findById_inv in Hf.
    destruct Hf as [-> [-> | (v & p & md & ->)]];
      [|injection H as <- <-; split; [reflexivity | eauto]].
    destruct (find _ _) as [m|] eqn:Hm;
      [|injection H as <- <-; split; [reflexivity | simpl; eauto]].
    destruct (negb _);
      [injection H as <- <-; split; [reflexivity | simpl; eauto]|].
    apply IH in H. destruct H as [-> H]. split; [reflexivity|].
    destruct out as [result|r|e]; try exact H.
    destruct H as (new & -> & Hnew).
    eexists (_ :: new). rewrite <- app_assoc. split; [reflexivity|].
    constructor; [|exact Hnew].
    exists id, m. cbn. auto 10.
Qed.

(** ** [POST /api/orders] *)

Lemma customer_findById_run id s :
  CustomerModel.findById id s =
  if ObjectId_isValid id
  then (Continue (find (CustomerModel.has_id id) (customers s)), s)
  else (Thrown (CastError id "_id" "Customer"), s).
Proof.
  unfold CustomerModel.findById. now destruct (ObjectId_isValid id).
Qed.

Lemma catch_status e :
  status (Routes.createOrder_catch e) = 400
  \/ status (Routes.createOrder_catch e) = 500.
Proof.
  unfold Routes.createOrder_catch. destruct (String.eqb _ _); auto.
Qed.

Lemma catch_refused e : refused (Routes.createOrder_catch e).
Proof. unfold refused. destruct (catch_status e) as [-> | ->]; auto. Qed.

Lemma delivery_address_inv b s out s' :
  Routes.delivery_address b s = (out, s') ->
  s' = s
  /\ ((exists addr, out = Continue addr)
      \/ exists r, out = Responded r /\ status r = 400).
Proof.
  unfold Routes.delivery_address, respond, ret.
  destruct (JS.strict_eq _ _); [|intros [= <- <-]; eauto].
  destruct (OrderRequest.deliveryAddress b) as [a|];
    [|intros [= <- <-]; eauto].
  destruct (_ || _); intros [= <- <-]; eauto.
Qed.

Ltac refused_unchanged :=
  left; split;
  [reflexivity
  | first [apply catch_refused | unfold refused; simpl; auto]].

(** Either the intake route has written nothing and turned the request
    down, or the request passed every check and one order is saved. *)
Lemma createOrder_inv env user b s resp s' :
  Routes.createOrder env user b s = (resp, s') ->
  (s' = s /\ refused resp)
  \/ exists customer o,
       intake_accepted env user b s customer o
       /\ intake_result env s customer o resp s'.
Proof.
  unfold Routes.createOrder, try_catch, Routes.createOrder_body.
  destruct (OrderRequest.items b) as [| |[|line lines]] eqn:Hitems;
    try (intros [= <- <-]; refused_unchanged).
  unfold bind at 1. rewrite customer_findById_run.
  destruct (ObjectId_isValid (User.id user)) eqn:Hid;
    [|intros [= <- <-]; refused_unchanged].
  destruct (find _ (customers s)) as [customer|] eqn:Hcust;
    [|intros [= <- <-]; refused_unchanged].
  unfold bind at 1.
  destruct (Routes.collect_items _ _ s) as [oi si] eqn:Hloop.
  pose proof (collect_items_inv _ _ _ _ _ Hloop) as [-> Hout].
  destruct oi as [orderItems|r|e];
    [| intros [= <- <-]; destruct Hout as [Hst _]; left;
       unfold refused; auto
     | intros [= <- <-]; refused_unchanged].
  clear Hout. cbv zeta.
  unfold bind at 1.
  destruct (Routes.delivery_address b s) as [oa sa] eqn:Haddr.
  pose proof (delivery_address_inv _ _ _ _ Haddr)
    as [-> [[addr ->] | (r & -> & Hr)]];
    [|intros [= <- <-]; left; unfold refused; auto].
  unfold bind at 1.
  destruct (OrderModel.save _ _ _ s) as [os ss] eqn:Hsave.
  apply save_inv in Hsave.
  destruct Hsave as [[-> [e ->]] | (-> & Hvalid & Hconf & ->)];
    [intros [= <- <-]; refused_unchanged|].
  unfold bind at 1.
  destruct (CustomerModel.save _ _) as [oc sc] eqn:Hc.
  pose proof (customer_save_inv _ _ _ _ Hc) as Hinv.
  intros H. right. exists customer. eexists. split.
  - exists (line :: lines), orderItems, addr. cbv zeta.
    repeat (split; [first [reflexivity | eassumption | discriminate]|]).
    exact Hconf.
  - unfold intake_result, after_intake, stats_update. rewrite Hc.
    cbn [fst snd].
    destruct oc as [c'|r|e'].
    + unfold bind at 1 in H. rewrite notify_run in H.
      destruct Hinv as [[_ [e' He']] | (_ & _ & Hsc)]; [discriminate|].
      destruct (notificationFailure env) as [e|]; injection H as <- <-.
      * split; reflexivity.
      * split; [reflexivity|]. eexists. split; cycle 1.
        { rewrite Hsc. reflexivity. }
        reflexivity.
    + injection H as <- <-. auto.
    + injection H as <- <-. auto.
Qed.

(** A request that passes every check is saved and answered. *)
Lemma createOrder_run env user b s customer o :
  intake_accepted env user b s customer o ->
  exists resp s',
    Routes.createOrder env user b s = (resp, s')
    /\ intake_result env s customer o resp s'.
Proof.
  intros (lines & orderItems & addr & H). cbv zeta in H.
  destruct H as (Hitems & Hne & Hid & Hcust & Hloop & Haddr & Hvalid & -> & Hconf).
  unfold Routes.createOrder, try_catch, Routes.createOrder_body.
  rewrite Hitems. destruct lines as [|line lines]; [congruence|].
  unfold bind at 1. rewrite customer_findById_run, Hid, Hcust.
  unfold bind at 1. rewrite Hloop. cbv zeta.
  unfold bind at 1. rewrite Haddr.
  unfold bind at 1. rewrite save_run, Hvalid, Hconf.
  unfold bind at 1.
  unfold intake_result, after_intake, stats_update.
  destruct (CustomerModel.save _ _) as [oc sc] eqn:Hc.
  pose proof (customer_save_inv _ _ _ _ Hc) as Hinv.
  cbn [fst snd].
  destruct oc as [c'|r|e'].
  - unfold bind at 1. rewrite notify_run.
    destruct Hinv as [[_ [e' He']] | (_ & _ & Hsc)]; [discriminate|].
    destruct (notificationFailure env) as [e|]; do 2 eexists; split;
      try reflexivity.
    + split; reflexivity.
    + split; [reflexivity|]. eexists. split; cycle 1.
      { rewrite Hsc. reflexivity. }
      reflexivity.
  - do 2 eexists. split; [reflexivity | auto].
  - do 2 eexists. split; [reflexivity | auto].
Qed.

(** ** Validation *)

Lemma app_nil_iff {A} (l l' : list A) :
  (l ++ l')%list = [] <-> l = [] /\ l' = [].
Proof.
  split; [apply app_eq_nil | intros [-> ->]; reflexivity].
Qed.

Lemma required_string_nil key path v :
  OrderModel.required_string key path v = [] <-> v <> "".
Proof.
  unfold OrderModel.required_string.
  destruct (String.eqb_spec v ""); split; intros; congruence.
Qed.

Lemma min_number_nil key path m v :
  OrderModel.min_number key path m v = [] <-> m <= v.
Proof.
  unfold OrderModel.min_number.
  destruct (Z.ltb_spec v m); split; intros; try congruence; lia.
Qed.

Lemma existsb_eqb_In v allowed :
  existsb (String.eqb v) allowed = true <-> In v allowed.
Proof.
  rewrite existsb_exists. split.
  - intros (x & Hin & Heq). apply String.eqb_eq in Heq. now subst.
  - intros Hin. exists v. split; [exact Hin | apply String.eqb_refl].
Qed.

Lemma enum_string_nil path allowed v :
  OrderModel.enum_string path allowed v = [] <-> In v allowed.
Proof.
  unfold OrderModel.enum_string. rewrite <- existsb_eqb_In.
  destruct (existsb _ _); split; intros; congruence.
Qed.

Lemma required_enum_nil path allowed v :
  ~ In "" allowed ->
  OrderModel.required_enum path allowed v = [] <-> In v allowed.
Proof.
  intros Hno. unfold OrderModel.required_enum.
  destruct (OrderModel.required_string path path v) eqn:Hr.
  - apply enum_string_nil.
  - split; [discriminate|]. intros Hin.
    assert (v <> "") by (intros ->; auto).
    apply (required_string_nil path path) in H. congruence.
Qed.

Lemma validate_items_nil items : forall index,
  OrderModel.validate_items index items = [] <-> Forall item_valid items.
Proof.
  induction items as [|item items IH]; intros index; simpl.
  - split; [constructor | reflexivity].
  - unfold OrderModel.validate_item.
    rewrite !app_nil_iff, IH, required_string_nil, !min_number_nil.
    split.
    + intros ((? & ? & ? & ?) & ?). constructor; [repeat split|]; assumption.
    + intros H. inversion H as [|? ? (? & ? & ? & ?) ?]; subst. auto 10.
Qed.

(** The validators pass exactly on the valid orders. *)
Lemma validate_nil o : OrderModel.validate o = [] <-> valid o.
Proof.
  unfold OrderModel.validate, valid.
  rewrite !app_nil_iff, !required_string_nil, validate_items_nil,
    !min_number_nil, !enum_string_nil.
  rewrite !required_enum_nil
    by (cbv [OrderModel.orderTypes OrderModel.paymentMethods In];
        intuition discriminate).
  assert (Hitems : match Order.items o with
                   | [] => [("items", "Order must contain at least one item")]
                   | _ :: _ => []
                   end = [] <-> Order.items o <> []).
  { destruct (Order.items o); split; congruence. }
  rewrite Hitems. tauto.
Qed.

Lemma reprice_valid item : item_valid item -> item_valid (reprice item).
Proof.
  intros (Hn & Hq & Hp & _). unfold item_valid, reprice. simpl.
  repeat split; try assumption. apply mul_nonneg; lia.
Qed.

Lemma valid_subtotals items :
  Forall item_valid items -> Forall (fun item => 0 <= Item.subtotal item) items.
Proof. apply Forall_impl. now intros item (_ & _ & _ & Hs). Qed.

(** The [pre('save')] hook keeps a valid order valid. *)
Lemma pre_save_valid date o : valid o -> valid (OrderModel.pre_save date o).
Proof.
  unfold valid, OrderModel.pre_save.
  destruct o as [? ? ? ? ? ? ? its ? ? ? ? ? ? ? ? ? ? ? ?].
  cbn [Order.items Order.customerName Order.customerPhone Order.subtotal
       Order.total Order.orderType Order.paymentMethod Order.paymentStatus
       Order.orderStatus].
  intros (H1 & H2 & H3 & H4 & H5 & H6 & H7 & H8 & H9 & H10).
  destruct its as [|i its]; [congruence|].
  cbn [Order.items Order.customerName Order.customerPhone Order.subtotal
       Order.total Order.orderType Order.paymentMethod Order.paymentStatus
       Order.orderStatus Order.set_items Order.set_subtotal Order.set_total
       Order.set_updatedAt].
  assert (Hv : Forall item_valid (map reprice (i :: its))).
  { apply Forall_map. revert H4. apply Forall_impl. exact reprice_valid. }
  pose proof (sum_subtotals_nonneg _ (valid_subtotals _ Hv)).
  repeat split; try assumption. discriminate.
Qed.

Lemma pre_validate_valid date count o :
  valid o <-> valid (OrderModel.pre_validate date count o).
Proof.
  unfold OrderModel.pre_validate.
  destruct (JS.truthy_string _); [reflexivity|]. now destruct o.
Qed.

Ltac valid_fields :=
  unfold valid;
  cbn [Order.customerName Order.customerPhone Order.items Order.subtotal
       Order.total Order.orderType Order.paymentMethod Order.paymentStatus
       Order.orderStatus Order.set_orderStatus].

Lemma set_orderStatus_valid st o :
  valid o -> In st OrderModel.orderStatuses ->
  valid (Order.set_orderStatus st o).
Proof.
  destruct o. valid_fields.
  intros (H1 & H2 & H3 & H4 & H5 & H6 & H7 & H8 & H9 & H10) Hin.
  repeat split; assumption.
Qed.

Lemma pre_save_numbered date o :
  numbered o -> numbered (OrderModel.pre_save date o).
Proof.
  unfold numbered.
  destruct (pre_save_fields date o) as (_ & -> & _). auto.
Qed.

Lemma saved_ok date s o :
  OrderModel.validate
    (OrderModel.pre_validate date (length (orders s)) o) = [] ->
  stored_ok (saved date s o) /\ totals_consistent (saved date s o).
Proof.
  intros Hv. unfold saved. split; [split|].
  - apply pre_save_valid. now apply validate_nil.
  - apply pre_save_numbered, pre_validate_numbered.
  - apply pre_save_totals. now apply validate_nonempty.
Qed.

(** ** The status and payment routes *)

Lemma includes_In allowed v :
  JS.includes allowed (Some v) = true <-> In v allowed.
Proof.
  unfold JS.includes, JS.strict_eq. apply existsb_eqb_In.
Qed.

Lemma findById_run id s :
  OrderModel.findById id s =
  if ObjectId_isValid id
  then (Continue (find (OrderModel.has_id id) (orders s)), s)
  else (Thrown (CastError id "_id" "Order"), s).
Proof. unfold OrderModel.findById. now destruct (ObjectId_isValid id). Qed.

Lemma find_order_id id stored o :
  find (OrderModel.has_id id) stored = Some o ->
  OrderModel.has_id id o = true.
Proof. intros H. apply find_some in H. apply H. Qed.

(** An id that matches an order matches the documents the order's own id
    matches. *)
Lemma has_id_same id o :
  OrderModel.has_id id o = true ->
  forall x, OrderModel.has_id (Order._id o) x = OrderModel.has_id id x.
Proof.
  unfold OrderModel.has_id. intros H x. now apply ObjectId_eq_same.
Qed.

(** The order found under an id is the one found under its own id. *)
Lemma find_by_own_id id stored o :
  find (OrderModel.has_id id) stored = Some o ->
  find (OrderModel.has_id (Order._id o)) stored = Some o.
Proof.
  intros H. rewrite <- H. apply find_same.
  apply has_id_same. exact (find_order_id _ _ _ H).
Qed.

Lemma saved_id date s o : Order._id (saved date s o) = Order._id o.
Proof.
  unfold saved.
  destruct (pre_save_fields date
              (OrderModel.pre_validate date (length (orders s)) o))
    as (-> & _).
  apply pre_validate_fields.
Qed.

(** The tail shared by both update routes: save, notify, answer 200. *)
Lemma update_tail_inv env id tweak old title text ntype message s resp s' :
  find (OrderModel.has_id id) (orders s) = Some old ->
  ObjectId_isValid id = true ->
  Order._id (tweak old) = Order._id old ->
  try_catch
    (order <- OrderModel.save (now env) false (tweak old) ;;
     NotificationModel.create env title (text order) ntype ;;;
     respond 200 (BUpdated message order))
    Routes.message_catch s = (resp, s') ->
  (s' = s /\ refused resp)
  \/ exists o,
       update_accepted env id tweak s old o
       /\ update_result env ntype message s o resp s'.
Proof.
  intros Hold Hid Htw. unfold try_catch.
  unfold bind at 1.
  destruct (OrderModel.save _ _ _ s) as [os ss] eqn:Hsave.
  apply save_inv in Hsave.
  destruct Hsave as [[-> [e ->]] | (-> & Hvalid & old' & Hf & Hconf & ->)];
    [intros [= <- <-]; refused_unchanged|].
  rewrite saved_id, Htw, (find_by_own_id _ _ _ Hold) in Hf.
  injection Hf as <-.
  unfold bind at 1. rewrite notify_run.
  intros H. right. eexists. split.
  - repeat (split; [first [reflexivity | eassumption]|]). exact Hconf.
  - unfold update_result.
    destruct (notificationFailure env); injection H as <- <-.
    + split; reflexivity.
    + split; [reflexivity|]. eexists. split; [|reflexivity]. reflexivity.
Qed.

Lemma update_tail_run env id tweak old o title text ntype message s :
  update_accepted env id tweak s old o ->
  Order._id (tweak old) = Order._id old ->
  exists resp s',
    try_catch
      (order <- OrderModel.save (now env) false (tweak old) ;;
       NotificationModel.create env title (text order) ntype ;;;
       respond 200 (BUpdated message order))
      Routes.message_catch s = (resp, s')
    /\ update_result env ntype message s o resp s'.
Proof.
  intros (Hid & Hold & Hvalid & -> & Hconf) Htw. unfold try_catch.
  unfold bind at 1.
  rewrite save_run, Hvalid, saved_id, Htw, (find_by_own_id _ _ _ Hold), Hconf.
  unfold bind at 1. rewrite notify_run. unfold update_result.
  destruct (notificationFailure env); do 2 eexists; split; try reflexivity.
  - split; reflexivity.
  - split; [reflexivity|]. eexists. split; [|reflexivity]. reflexivity.
Qed.

Lemma set_orderStatus_id st o :
  Order._id (Order.set_orderStatus st o) = Order._id o.
Proof. now destruct o. Qed.

Lemma pay_tweak_id st r o : Order._id (pay_tweak st r o) = Order._id o.
Proof. unfold pay_tweak. destruct (JS.truthy_string r); now destruct o. Qed.

(** Either the status route has written nothing and turned the request
    down, or the stored order is saved with the new status. *)
Lemma setOrderStatus_inv env user id st s resp s' :
  Routes.setOrderStatus env user id st s = (resp, s') ->
  (s' = s /\ refused resp)
  \/ exists newStatus old o,
       st = Some newStatus
       /\ In newStatus OrderModel.orderStatuses
       /\ Routes.not_staff user = false
       /\ update_accepted env id (Order.set_orderStatus newStatus) s old o
       /\ update_result env "info" "Order status updated" s o resp s'.
Proof.
  unfold Routes.setOrderStatus.
  destruct (Routes.not_staff user) eqn:Hrole;
    [intros [= <- <-]; refused_unchanged|].
  destruct st as [newStatus|]; [|intros [= <- <-]; refused_unchanged].
  destruct (JS.includes _ _) eqn:Hin; cbn [negb];
    [|intros [= <- <-]; refused_unchanged].
  apply includes_In in Hin.
  unfold try_catch at 1, bind at 1. rewrite findById_run.
  destruct (ObjectId_isValid id) eqn:Hid;
    [|intros [= <- <-]; refused_unchanged].
  destruct (find _ (orders s)) as [old|] eqn:Hold;
    [|intros [= <- <-]; refused_unchanged].
  intros H.
  destruct (update_tail_inv env id (Order.set_orderStatus newStatus) old
              _ _ _ _ s resp s' Hold Hid (set_orderStatus_id _ _) H)
    as [?|(o & ? & ?)]; [left; assumption|].
  right. exists newStatus, old, o. auto.
Qed.

Lemma setOrderStatus_run env user id newStatus s old o :
  Routes.not_staff user = false ->
  In newStatus OrderModel.orderStatuses ->
  update_accepted env id (Order.set_orderStatus newStatus) s old o ->
  exists resp s',
    Routes.setOrderStatus env user id (Some newStatus) s = (resp, s')
    /\ update_result env "info" "Order status updated" s o resp s'.
Proof.
  intros Hrole Hin Hacc. pose proof Hacc as (Hid & Hold & _).
  unfold Routes.setOrderStatus. rewrite Hrole.
  apply includes_In in Hin. rewrite Hin. cbn [negb].
  destruct (update_tail_run env id _ old o
              "📦 Order Status Updated"
              (fun order =>
                 "Order #" ++ Routes.show_orderNumber order ++ " is now "
                 ++ newStatus ++ JS.newline
                 ++ "Items: " ++ Routes.itemsList order)
              "info" "Order status updated" s Hacc (set_orderStatus_id _ _))
    as (resp & s' & Hrun & Hres).
  exists resp, s'. split; [|exact Hres].
  rewrite <- Hrun.
  unfold try_catch, bind at 1. rewrite findById_run, Hid, Hold.
  unfold try_catch. reflexivity.
Qed.

(** Either the payment route has written nothing and turned the request
    down, or the stored order is saved with the new payment status. *)
Lemma setPaymentStatus_inv env user id st receipt s resp s' :
  Routes.setPaymentStatus env user id st receipt s = (resp, s') ->
  (s' = s /\ refused resp)
  \/ exists newStatus old o,
       st = Some newStatus
       /\ In newStatus OrderModel.paymentStatuses
       /\ Routes.not_staff user = false
       /\ update_accepted env id (pay_tweak newStatus receipt) s old o
       /\ update_result env
            (if String.eqb newStatus "Paid" then "success" else "warning")
            "Payment status updated" s o resp s'.
Proof.
  unfold Routes.setPaymentStatus.
  destruct (Routes.not_staff user) eqn:Hrole;
    [intros [= <- <-]; refused_unchanged|].
  destruct st as [newStatus|]; [|intros [= <- <-]; refused_unchanged].
  destruct (JS.includes _ _) eqn:Hin; cbn [negb];
    [|intros [= <- <-]; refused_unchanged].
  apply includes_In in Hin.
  unfold try_catch at 1, bind at 1. rewrite findById_run.
  destruct (ObjectId_isValid id) eqn:Hid;
    [|intros [= <- <-]; refused_unchanged].
  destruct (find _ (orders s)) as [old|] eqn:Hold;
    [|intros [= <- <-]; refused_unchanged].
  intros H.
  destruct (update_tail_inv env id (pay_tweak newStatus receipt) old
              _ _ _ _ s resp s' Hold Hid (pay_tweak_id _ _ _) H)
    as [?|(o & ? & ?)]; [left; assumption|].
  right. exists newStatus, old, o. auto.
Qed.

Lemma setPaymentStatus_run env user id newStatus receipt s old o :
  Routes.not_staff user = false ->
  In newStatus OrderModel.paymentStatuses ->
  update_accepted env id (pay_tweak newStatus receipt) s old o ->
  exists resp s',
    Routes.setPaymentStatus env user id (Some newStatus) receipt s = (resp, s')
    /\ update_result env
         (if String.eqb newStatus "Paid" then "success" else "warning")
         "Payment status updated" s o resp s'.
Proof.
  intros Hrole Hin Hacc. pose proof Hacc as (Hid & Hold & _).
  unfold Routes.setPaymentStatus. rewrite Hrole.
  apply includes_In in Hin. rewrite Hin. cbn [negb].
  destruct (update_tail_run env id _ old o
              (if String.eqb newStatus "Paid" then "💰 Payment Received"
               else "⚠️ Payment Update")
              (fun order =>
                 "Payment for order #" ++ Routes.show_orderNumber order
                 ++ " is now " ++ newStatus ++ JS.newline
                 ++ "Total: KES " ++ JS.toLocaleString (Order.total order))
              (if String.eqb newStatus "Paid" then "success" else "warning")
              "Payment status updated" s Hacc (pay_tweak_id _ _ _))
    as (resp & s' & Hrun & Hres).
  exists resp, s'. split; [|exact Hres].
  rewrite <- Hrun.
  unfold try_catch, bind at 1. rewrite findById_run, Hid, Hold.
  unfold try_catch. reflexivity.
Qed.

(** * What a request leaves in the store *)

(** The customer update leaves the order in the store and touches the
    customers only. *)
Lemma after_intake_store env s customer o :
  orders (after_intake env s customer o) = (orders s ++ [o])%list
  /\ menu (after_intake env s customer o) = menu s
  /\ notifications (after_intake env s customer o) = notifications s.
Proof.
  unfold after_intake, stats_update.
  destruct (CustomerModel.save _ _) as [out s'] eqn:E.
  apply customer_save_inv in E.
  destruct E as [[-> _] | (_ & _ & ->)]; auto.
Qed.

(** The customer update goes on or throws: it sends no response. *)
Lemma stats_update_not_responded env s customer o r :
  fst (stats_update env s customer o) = Responded r -> False.
Proof.
  unfold stats_update.
  destruct (CustomerModel.save _ _) as [out s''] eqn:Hsave.
  apply customer_save_inv in Hsave. cbn [fst]. intros ->.
  destruct Hsave as [(_ & e' & He) | (He & _)]; discriminate.
Qed.

(** A success answer of the intake: the customer update went through and
    the notification was written. *)
Lemma intake_result_success env s customer o resp s' :
  intake_result env s customer o resp s' ->
  status resp = 200 \/ status resp = 201 ->
  (exists c, fst (stats_update env s customer o) = Continue c)
  /\ notificationFailure env = None
  /\ resp = created_response o
  /\ exists n,
       Notification.type n = "success"
       /\ s' = with_notifications (notifications s ++ [n])
                 (after_intake env s customer o).
Proof.
  unfold intake_result.
  destruct (fst (stats_update env s customer o)) as [c|r|e] eqn:Hstats.
  - destruct (notificationFailure env) as [e|].
    + intros [-> _] Hok. destruct (catch_status e); lia.
    + intros (-> & n & Hn & ->) _. eauto 10.
  - destruct (stats_update_not_responded _ _ _ _ _ Hstats).
  - intros [-> _] Hok. destruct (catch_status e); lia.
Qed.

Lemma intake_result_store env s customer o resp s' :
  intake_result env s customer o resp s' ->
  orders s' = (orders s ++ [o])%list /\ menu s' = menu s.
Proof.
  unfold intake_result.
  destruct (after_intake_store env s customer o) as (Ho & Hm & _).
  destruct (fst (stats_update env s customer o));
    [destruct (notificationFailure env)|..]; intros (_ & H).
  - subst. auto.
  - destruct H as (n & _ & ->). auto.
  - subst. auto.
  - subst. auto.
Qed.

Lemma update_result_store env ntype message s o resp s' :
  update_result env ntype message s o resp s' ->
  orders s' = OrderModel.replace_first o (orders s)
  /\ menu s' = menu s /\ customers s' = customers s.
Proof.
  unfold update_result.
  destruct (notificationFailure env); intros (_ & H).
  - subst. auto.
  - destruct H as (n & _ & ->). auto.
Qed.

Lemma trackOrder_store n phone s : snd (Routes.trackOrder n phone s) = s.
Proof.
  unfold Routes.trackOrder, try_catch, bind, OrderModel.findOne_orderNumber,
    gets, respond.
  destruct (find _ _); [|reflexivity].
  destruct (_ && _); reflexivity.
Qed.

Lemma getOrder_store user id s : snd (Routes.getOrder user id s) = s.
Proof.
  unfold Routes.getOrder, try_catch.
  destruct (Routes.not_staff user); [reflexivity|].
  unfold bind. rewrite findById_run.
  destruct (ObjectId_isValid id); [|reflexivity].
  destruct (find _ _); reflexivity.
Qed.

Lemma In_replace_first o stored x :
  In x (OrderModel.replace_first o stored) -> In x stored \/ x = o.
Proof.
  induction stored as [|y stored IH]; simpl; [tauto|].
  destruct (OrderModel.has_id _ y); simpl; intuition.
Qed.

(** Every request either leaves the orders as they are, appends one saved
    order, or replaces one stored order by its saved successor. *)
Lemma handle_orders env req s :
  orders (snd (handle env req s)) = orders s
  \/ (exists fresh,
        OrderModel.validate
          (OrderModel.pre_validate (now env) (length (orders s)) fresh) = []
        /\ Order.orderNumber fresh = None
        /\ OrderModel.insert_conflict (saved (now env) s fresh) (orders s)
           = false
        /\ orders (snd (handle env req s))
           = (orders s ++ [saved (now env) s fresh])%list)
  \/ (exists id tweak old,
        find (OrderModel.has_id id) (orders s) = Some old
        /\ OrderModel.validate
             (OrderModel.pre_validate (now env) (length (orders s))
                (tweak old)) = []
        /\ Order._id (tweak old) = Order._id old
        /\ Order.orderNumber (tweak old) = Order.orderNumber old
        /\ Order.items (tweak old) = Order.items old
        /\ orders (snd (handle env req s))
           = OrderModel.replace_first (saved (now env) s (tweak old))
               (orders s)).
Proof.
  destruct req as [user b|user id st|user id st receipt|n phone|user id];
    cbn [handle].
  - destruct (Routes.createOrder env user b s) as [resp s'] eqn:E.
    apply createOrder_inv in E.
    destruct E as [[-> _] | (customer & o & Hacc & Hres)]; [auto|].
    right; left. apply intake_result_store in Hres. destruct Hres as [Ho _].
    destruct Hacc as (lines & orderItems & addr & Hacc). cbv zeta in Hacc.
    destruct Hacc as (_ & _ & _ & _ & _ & _ & Hv & -> & Hconf).
    eexists. split; [exact Hv|].
    split; [reflexivity | split; [exact Hconf | exact Ho]].
  - destruct (Routes.setOrderStatus env user id st s) as [resp s'] eqn:E.
    apply setOrderStatus_inv in E.
    destruct E as [[-> _] | (newStatus & old & o & _ & _ & _ & Hacc & Hres)];
      [auto|].
    right; right. apply update_result_store in Hres. destruct Hres as [Ho _].
    destruct Hacc as (_ & Hold & Hv & -> & _).
    exists id, (Order.set_orderStatus newStatus), old.
    repeat split; try assumption; now destruct old.
  - destruct (Routes.setPaymentStatus env user id st receipt s)
      as [resp s'] eqn:E.
    apply setPaymentStatus_inv in E.
    destruct E as [[-> _] | (newStatus & old & o & _ & _ & _ & Hacc & Hres)];
      [auto|].
    right; right. apply update_result_store in Hres. destruct Hres as [Ho _].
    destruct Hacc as (_ & Hold & Hv & -> & _).
    exists id, (pay_tweak newStatus receipt), old.
    repeat split; try assumption;
      unfold pay_tweak; destruct (JS.truthy_string receipt); now destruct old.
  - left. now rewrite trackOrder_store.
  - left. now rewrite getOrder_store.
Qed.

(** * The claims *)

Lemma In_replace_first_self o old stored :
  find (OrderModel.has_id (Order._id o)) stored = Some old ->
  In o (OrderModel.replace_first o stored).
Proof.
  induction stored as [|x stored IH]; simpl; [discriminate|].
  destruct (OrderModel.has_id (Order._id o) x); simpl; auto.
Qed.

(** A successful [save()] leaves the document it returns in the store. *)
Lemma save_stores date isNew o s o' s' :
  OrderModel.save date isNew o s = (Continue o', s') ->
  o' = saved date s o
  /\ OrderModel.validate
       (OrderModel.pre_validate date (length (orders s)) o) = []
  /\ In o' (orders s').
Proof.
  intros H. apply save_inv in H.
  destruct H as [[_ [e He]] | (Ho & Hv & Hw)]; [discriminate|].
  injection Ho as ->. split; [reflexivity|]. split; [exact Hv|].
  destruct isNew.
  - destruct Hw as [_ ->]. apply in_or_app. simpl. auto.
  - destruct Hw as (old & Hf & _ & ->).
    exact (In_replace_first_self _ _ _ Hf).
Qed.


(** What the lines cost is not negative, and no line costs more than all
    of them together. *)
Lemma snapshot_total_bounds items :
  Forall item_valid items ->
  0 <= snapshot_total items
  /\ Forall (fun item =>
               Item.price item * Item.quantity item <= snapshot_total items)
            items.
Proof.
  induction 1 as [|item items (_ & Hq & Hp & _) _ [IH0 IH]]; simpl.
  - split; [lia | constructor].
  - assert (0 <= Item.price item * Item.quantity item) by nia.
    split; [lia|]. constructor; [lia|].
    revert IH. apply Forall_impl. intros x Hx. lia.
Qed.

Lemma line_total_snapshot items :
  Forall (fun item => Item.subtotal item = Item.price item * Item.quantity item)
         items ->
  line_total items = snapshot_total items.
Proof.
  induction 1 as [|item items Hitem _ IH]; simpl; [reflexivity|].
  now rewrite Hitem, IH.
Qed.


(** And the exact totals are those of the code within the bound. *)
Lemma exact_consistent o :
  valid o -> totals_exact o ->
  snapshot_total (Order.items o) <= exact_bound ->
  totals_consistent o.
Proof.
  intros (_ & _ & _ & Hitems & _) (Hlines & Hsub & _ & Htot) Hb.
  destruct (snapshot_total_bounds _ Hitems) as [_ Hle].
  assert (Hmul : Forall (fun item =>
                           Item.subtotal item
                           = JS.mul (Item.quantity item) (Item.price item))
                        (Order.items o)).
  { rewrite Forall_forall in *. intros item Hin.
    destruct (Hitems item Hin) as (_ & Hq & Hp & _).
    rewrite (Hlines item Hin), mul_exact; [lia | lia | lia |].
    specialize (Hle item Hin). lia. }
  split; [exact Hmul|]. split; [|exact Htot].
  rewrite Hsub. symmetry.
  apply sum_subtotals_line_total; [now apply valid_subtotals|].
  now rewrite (line_total_snapshot _ Hlines).
Qed.





(** ** The order number *)

Lemma saved_fields date s o :
  let o' := saved date s o in
  Order._id o' = Order._id o
  /\ Order.items o' = map reprice (Order.items o)
  /\ Order.orderType o' = Order.orderType o
  /\ Order.paymentMethod o' = Order.paymentMethod o
  /\ Order.orderStatus o' = Order.orderStatus o
  /\ Order.paymentStatus o' = Order.paymentStatus o.
Proof.
  cbv zeta. unfold saved.
  destruct (pre_save_fields date
              (OrderModel.pre_validate date (length (orders s)) o))
    as (-> & _ & -> & -> & -> & -> & -> & _).
  destruct (pre_validate_fields date (length (orders s)) o)
    as (-> & -> & -> & -> & -> & ->).
  auto 10.
Qed.

Lemma saved_number_fresh date s o :
  Order.orderNumber o = None ->
  Order.orderNumber (saved date s o)
  = Some (OrderModel.order_number date (Z.of_nat (length (orders s)))).
Proof.
  intros Hnone. unfold saved.
  destruct (pre_save_fields date
              (OrderModel.pre_validate date (length (orders s)) o))
    as (_ & -> & _).
  now apply pre_validate_fresh.
Qed.

Lemma saved_number_kept date s o :
  numbered o -> Order.orderNumber (saved date s o) = Order.orderNumber o.
Proof.
  intros Hnum. unfold saved.
  destruct (pre_save_fields date
              (OrderModel.pre_validate date (length (orders s)) o))
    as (_ & -> & _).
  now rewrite pre_validate_keeps.
Qed.

(** What the intake route appends when it writes. *)
Lemma createOrder_appends env user b s :
  orders (snd (Routes.createOrder env user b s)) <> orders s ->
  exists customer o,
    intake_accepted env user b s customer o
    /\ orders (snd (Routes.createOrder env user b s))
       = (orders s ++ [o])%list.
Proof.
  destruct (Routes.createOrder env user b s) as [resp s'] eqn:E.
  cbn [snd]. intros Hneq. apply createOrder_inv in E.
  destruct E as [[-> _] | (customer & o & Hacc & Hres)]; [congruence|].
  exists customer, o. split; [exact Hacc|].
  now apply intake_result_store in Hres.
Qed.

(** C2. The order number generated for an order persisted into a store
    that holds n orders is the string ORD, then the year modulo 100, the
    month and the day of the current date on two digits each, then n+1
    zero-padded to four digits: for every [save()] of a document that has
    no order number, and so for every order createOrder persists.  The
    clock is read as a calendar date of a year with at least two digits. *)
Theorem order_number_format (date : Date) :
  calendar_date date ->
  (forall isNew o s o' s',
      JS.truthy_string (Order.orderNumber o) = false ->
      OrderModel.save date isNew o s = (Continue o', s') ->
      In o' (orders s')
      /\ Order.orderNumber o'
         = Some (spec_order_number date (Z.of_nat (length (orders s)))))
  /\ (forall env user b s,
        now env = date ->
        orders (snd (Routes.createOrder env user b s)) <> orders s ->
        exists o,
          orders (snd (Routes.createOrder env user b s))
          = (orders s ++ [o])%list
          /\ Order.orderNumber o
             = Some (spec_order_number date (Z.of_nat (length (orders s))))).
Proof.
  intros Hdate. split.
  - intros isNew o s o' s' Hnone H.
    apply save_stores in H. destruct H as (-> & _ & Hin).
    split; [exact Hin|].
    unfold saved.
    destruct (pre_save_fields date
                (OrderModel.pre_validate date (length (orders s)) o))
      as (_ & -> & _).
    unfold OrderModel.pre_validate. rewrite Hnone.
    rewrite order_number_spec by exact Hdate. now destruct o.
  - intros env user b s <- Hneq.
    destruct (createOrder_appends env user b s Hneq)
      as (customer & o & Hacc & Heq).
    exists o. split; [exact Heq|].
    destruct Hacc as (lines & orderItems & addr & Hacc). cbv zeta in Hacc.
    destruct Hacc as (_ & _ & _ & _ & _ & _ & _ & -> & _).
    rewrite saved_number_fresh by reflexivity.
    now rewrite order_number_spec.
Qed.

Lemma order_number_format_witness :
  exists o,
    orders (snd (Routes.createOrder Sample.env Sample.diner Sample.two_pilau
                   Sample.store0))
    = (orders Sample.store0 ++ [o])%list
    /\ Order.orderNumber o
       = Some (spec_order_number Sample.today
                 (Z.of_nat (length (orders Sample.store0)))).
Proof.
  assert (Hdate : calendar_date Sample.today)
    by (vm_compute; intuition discriminate).
  apply (proj2 (order_number_format Sample.today Hdate) Sample.env
           Sample.diner Sample.two_pilau Sample.store0).
  - reflexivity.
  - vm_compute. discriminate.
Defined.

Example first_order_number :
  spec_order_number Sample.today 0 = "ORD2611010001".
Proof. reflexivity. Qed.

(** ** The order number of a stored order *)

Lemma nth_replace_first o old stored :
  find (OrderModel.has_id (Order._id o)) stored = Some old ->
  forall i x,
    nth_error stored i = Some x ->
    nth_error (OrderModel.replace_first o stored) i = Some x
    \/ (x = old /\ nth_error (OrderModel.replace_first o stored) i = Some o).
Proof.
  induction stored as [|y stored IH]; simpl; [discriminate|].
  destruct (OrderModel.has_id (Order._id o) y) eqn:Hy.
  - intros [= <-] [|i] x; simpl; [intros [= <-]; auto | auto].
  - intros Hf [|i] x; simpl; [auto | apply IH, Hf].
Qed.

(** C3. The order number is assigned once, before the first persist,
    and never changes afterwards: every document a [save()] writes has an
    order number, and the [save()] of a document that already has one
    keeps it; so every request leaves each numbered order where it is,
    with its id and its order number (setOrderStatus and setPaymentStatus
    never change it), and every order document a request writes has an
    order number. *)
Theorem order_number_assigned_once :
  (forall date isNew o s o' s',
      OrderModel.save date isNew o s = (Continue o', s') ->
      numbered o'
      /\ (numbered o -> Order.orderNumber o' = Order.orderNumber o))
  /\ (forall env req s i o,
        nth_error (orders s) i = Some o -> numbered o ->
        exists o',
          nth_error (orders (snd (handle env req s))) i = Some o'
          /\ Order._id o' = Order._id o
          /\ Order.orderNumber o' = Order.orderNumber o)
  /\ (forall env req s o',
        In o' (orders (snd (handle env req s))) ->
        In o' (orders s) \/ numbered o').
Proof.
  split; [|split].
  - intros date isNew o s o' s' H.
    apply save_stores in H. destruct H as (-> & Hv & _).
    split; [now apply saved_ok | apply saved_number_kept].
  - intros env req s i o Hi Ho.
    destruct (handle_orders env req s)
      as [Heq | [(fresh & Hv & _ & _ & Heq)
                | (id & tweak & old & Hold & Hv & Hid & Hnum & _ & Heq)]];
      rewrite Heq.
    + eauto.
    + exists o. split; [|auto].
      rewrite nth_error_app1; [exact Hi|].
      apply nth_error_Some. congruence.
    + destruct (nth_replace_first (saved (now env) s (tweak old)) old
                  (orders s))
        with (i := i) (x := o) as [Hsame | [-> Hnew]]; try assumption.
      * rewrite saved_id, Hid. exact (find_by_own_id _ _ _ Hold).
      * eauto.
      * eexists. split; [exact Hnew|]. split.
        -- now rewrite saved_id.
        -- rewrite saved_number_kept; [exact Hnum|].
           unfold numbered in *. now rewrite Hnum.
  - intros env req s o' Hin.
    destruct (handle_orders env req s)
      as [Heq | [(fresh & Hv & _ & _ & Heq)
                | (id & tweak & old & _ & Hv & _ & _ & _ & Heq)]];
      rewrite Heq in Hin.
    + auto.
    + apply in_app_or in Hin. destruct Hin as [Hin | [<- | []]]; [auto|].
      right. now apply saved_ok.
    + apply In_replace_first in Hin. destruct Hin as [Hin | ->]; [auto|].
      right. now apply saved_ok.
Qed.

Lemma order_number_assigned_once_witness :
  (exists o',
      nth_error
        (orders (snd (handle Sample.env
                        (SetOrderStatus Sample.manager
                           "64b7f0c2a1d3e4f5a6b7c8f1" (Some "Ready"))
                        Sample.store1))) 0 = Some o'
      /\ Order._id o' = Order._id Sample.order1
      /\ Order.orderNumber o' = Order.orderNumber Sample.order1)
  /\ (In Sample.order1 (orders Sample.store0) \/ numbered Sample.order1).
Proof.
  split.
  - apply (proj1 (proj2 order_number_assigned_once) Sample.env
             (SetOrderStatus Sample.manager
                "64b7f0c2a1d3e4f5a6b7c8f1" (Some "Ready"))
             Sample.store1 0%nat Sample.order1);
      reflexivity.
  - apply (proj2 (proj2 order_number_assigned_once) Sample.env
             (CreateOrder Sample.diner Sample.two_pilau) Sample.store0).
    vm_compute. left. reflexivity.
Defined.

(** ** Snapshot pricing *)

Lemma catalog_apply_orders op s : orders (Catalog.apply op s) = orders s.
Proof. reflexivity. Qed.




Lemma has_id_refl o : OrderModel.has_id (Order._id o) o = true.
Proof. apply ObjectId_eq_refl. Qed.




(** The manager renames the pilau and raises its price to 900: the order
    taken before reads as it did, two pilau at 500. *)
Example price_change_leaves_total :
  let special :=
    MenuItem.mk "64b7f0c2a1d3e4f5a6b7c8e1" (Some "MENU0001") "Pilau Special"
      "Main Course" 900 "" 15 true "fa-utensils" Sample.today in
  let later :=
    Catalog.apply_all
      [MenuItemModel.replace_first special]
      Sample.store1 in
  map MenuItem.price (menu later) = [900; 80]
  /\ fst (Routes.getOrder Sample.manager "64b7f0c2a1d3e4f5a6b7c8f1" later)
     = mkResponse 200 (BOrder Sample.order1)
  /\ Order.total Sample.order1 = 1000.
Proof. vm_compute. auto. Qed.

(** ** Notification failures *)

Lemma refused_not_success resp :
  refused resp -> status resp = 200 \/ status resp = 201 -> False.
Proof. unfold refused. lia. Qed.

Lemma after_intake_notifications env s customer o :
  notifications (after_intake env s customer o) = notifications s.
Proof. apply after_intake_store. Qed.

Lemma intake_result_up env e s customer o resp s' resp_up s_up :
  notificationFailure env = Some e ->
  intake_result env s customer o resp s' ->
  intake_result (sink_up env) s customer o resp_up s_up ->
  status resp_up = 200 \/ status resp_up = 201 ->
  resp = Routes.createOrder_catch e
  /\ orders s' = orders s_up /\ customers s' = customers s_up
  /\ notifications s' = notifications s.
Proof.
  unfold intake_result. intros ->.
  change (stats_update (sink_up env) s customer o)
    with (stats_update env s customer o).
  change (after_intake (sink_up env) s customer o)
    with (after_intake env s customer o).
  cbn [notificationFailure sink_up].
  destruct (fst (stats_update env s customer o)) as [c|r|e'] eqn:Hstats;
    cbv beta iota.
  - intros (-> & ->) (_ & n & _ & ->) _.
    repeat split; try reflexivity. apply after_intake_notifications.
  - destruct (stats_update_not_responded _ _ _ _ _ Hstats).
  - intros _ (-> & _) Hok. exfalso.
    destruct (catch_status e'); lia.
Qed.

Lemma update_result_up env e ntype message s o resp s' resp_up s_up :
  notificationFailure env = Some e ->
  update_result env ntype message s o resp s' ->
  update_result (sink_up env) ntype message s o resp_up s_up ->
  resp = Routes.message_catch e
  /\ orders s' = orders s_up /\ customers s' = customers s_up
  /\ notifications s' = notifications s.
Proof.
  unfold update_result. intros ->. cbn [notificationFailure sink_up].
  intros (-> & ->) (_ & n & _ & ->). auto.
Qed.

(** C5, as the code has it.  When the notification collection refuses the
    write, a createOrder, setOrderStatus or setPaymentStatus request that
    would otherwise have succeeded is answered by the catch block of its
    route (500, or 400 on a validation error in createOrder) and not with
    success; the order and customer writes already made stay as in the
    successful run, and no notification is recorded. *)
Theorem notification_failure_reported (env : Env) (req : Request) (s : Store)
  (e : Exn) :
  emits req = true ->
  notificationFailure env = Some e ->
  status (fst (handle (sink_up env) req s)) = 200
  \/ status (fst (handle (sink_up env) req s)) = 201 ->
  fst (handle env req s) = catch_of req e
  /\ orders (snd (handle env req s))
     = orders (snd (handle (sink_up env) req s))
  /\ customers (snd (handle env req s))
     = customers (snd (handle (sink_up env) req s))
  /\ notifications (snd (handle env req s)) = notifications s.
Proof.
  intros Hemits Hfail Hok.
  destruct req as [user b|user id st|user id st receipt|n phone|user id];
    try discriminate; cbn [handle catch_of] in *.
  - destruct (Routes.createOrder (sink_up env) user b s) as [r_up s_up] eqn:E.
    cbn [fst snd] in *. apply createOrder_inv in E.
    destruct E as [[_ Href] | (customer & o & Hacc & Hres)];
      [destruct (refused_not_success _ Href Hok)|].
    destruct (createOrder_run env user b s customer o Hacc)
      as (resp & s' & -> & Hres').
    exact (intake_result_up _ _ _ _ _ _ _ _ _ Hfail Hres' Hres Hok).
  - destruct (Routes.setOrderStatus (sink_up env) user id st s)
      as [r_up s_up] eqn:E.
    cbn [fst snd] in *. apply setOrderStatus_inv in E.
    destruct E as [[_ Href]
                  | (newStatus & old & o & -> & Hin & Hrole & Hacc & Hres)];
      [destruct (refused_not_success _ Href Hok)|].
    destruct (setOrderStatus_run env user id newStatus s old o Hrole Hin Hacc)
      as (resp & s' & -> & Hres').
    exact (update_result_up _ _ _ _ _ _ _ _ _ _ Hfail Hres' Hres).
  - destruct (Routes.setPaymentStatus (sink_up env) user id st receipt s)
      as [r_up s_up] eqn:E.
    cbn [fst snd] in *. apply setPaymentStatus_inv in E.
    destruct E as [[_ Href]
                  | (newStatus & old & o & -> & Hin & Hrole & Hacc & Hres)];
      [destruct (refused_not_success _ Href Hok)|].
    destruct (setPaymentStatus_run env user id newStatus receipt s old o
                Hrole Hin Hacc)
      as (resp & s' & -> & Hres').
    exact (update_result_up _ _ _ _ _ _ _ _ _ _ Hfail Hres' Hres).
Qed.

Lemma notification_failure_reported_witness :
  fst (handle Sample.env_outage
         (CreateOrder Sample.diner Sample.two_pilau) Sample.store0)
  = catch_of (CreateOrder Sample.diner Sample.two_pilau)
      (Error "connection to the database lost")
  /\ orders (snd (handle Sample.env_outage
                    (CreateOrder Sample.diner Sample.two_pilau)
                    Sample.store0))
     = orders (snd (handle (sink_up Sample.env_outage)
                      (CreateOrder Sample.diner Sample.two_pilau)
                      Sample.store0))
  /\ customers (snd (handle Sample.env_outage
                       (CreateOrder Sample.diner Sample.two_pilau)
                       Sample.store0))
     = customers (snd (handle (sink_up Sample.env_outage)
                         (CreateOrder Sample.diner Sample.two_pilau)
                         Sample.store0))
  /\ notifications (snd (handle Sample.env_outage
                           (CreateOrder Sample.diner Sample.two_pilau)
                           Sample.store0))
     = notifications Sample.store0.
Proof.
  apply (notification_failure_reported Sample.env_outage
           (CreateOrder Sample.diner Sample.two_pilau) Sample.store0
           (Error "connection to the database lost")).
  - reflexivity.
  - reflexivity.
  - right. reflexivity.
Defined.

(** C5 as stated fails: the order and the customer statistics are
    persisted, the notification write fails, and the caller gets 500. *)
Lemma notification_outage_fails_intake :
  orders (snd (Routes.createOrder Sample.env_outage Sample.diner
                 Sample.two_pilau Sample.store0))
  = orders Sample.store1
  /\ customers (snd (Routes.createOrder Sample.env_outage Sample.diner
                       Sample.two_pilau Sample.store0))
     = customers Sample.store1
  /\ fst (Routes.createOrder Sample.env_outage Sample.diner
            Sample.two_pilau Sample.store0)
     = mkResponse 500
         (BFailure "Failed to create order" "connection to the database lost").
Proof. vm_compute. auto. Qed.

(** The same on the status route. *)
Example notification_outage_fails_status :
  fst (Routes.setOrderStatus Sample.env_outage Sample.manager
         "64b7f0c2a1d3e4f5a6b7c8f1" (Some "Ready") Sample.store1)
  = mkResponse 500 (BMessage "connection to the database lost")
  /\ map Order.orderStatus
       (orders (snd (Routes.setOrderStatus Sample.env_outage Sample.manager
                       "64b7f0c2a1d3e4f5a6b7c8f1" (Some "Ready")
                       Sample.store1)))
     = ["Ready"].
Proof. vm_compute. auto. Qed.

(** ** Lines that do not resolve *)

Lemma menu_findById_run id s :
  MenuItemModel.findById id s =
  if ObjectId_isValid id
  then (Continue (find (MenuItemModel.has_id id) (menu s)), s)
  else (Thrown (CastError id "_id" "MenuItem"), s).
Proof. unfold MenuItemModel.findById. now destruct (ObjectId_isValid id). Qed.

Lemma truthy_string_some v : v <> "" -> JS.truthy_string (Some v) = true.
Proof.
  intros H. unfold JS.truthy_string.
  now destruct (String.eqb_spec v "").
Qed.

Lemma truthy_number_some q : q <> 0 -> JS.truthy_number (Some q) = true.
Proof.
  intros H. unfold JS.truthy_number.
  now destruct (Z.eqb_spec q 0).
Qed.

(** The loop stops with 400 at the first line that fails a check, here a
    well-formed line that names no catalog entry. *)
Lemma collect_items_unresolved pre : forall acc s bad post id q,
  Forall (accepted (menu s)) pre ->
  LineRequest.menuItemId bad = Some id ->
  LineRequest.quantity bad = Some q ->
  id <> "" -> q <> 0 ->
  ObjectId_isValid id = true ->
  find (MenuItemModel.has_id id) (menu s) = None ->
  Routes.collect_items (pre ++ bad :: post) acc s
  = (Responded
       (mkResponse 400 (BMessage ("Item with ID " ++ id ++ " not found"))),
     s).
Proof.
  induction pre as [|line pre IH]; intros acc s bad post id q Hpre Hid Hq
    Hid0 Hq0 Hvalid Hnone; cbn [app Routes.collect_items].
  - rewrite Hid, Hq, truthy_string_some, truthy_number_some by assumption.
    cbn [negb orb]. unfold bind.
    rewrite menu_findById_run, Hvalid, Hnone. reflexivity.
  - inversion Hpre as [|? ? (id' & q' & m & H1 & H2 & H3 & H4 & H5 & H6 & H7)
                         Hrest]; subst.
    rewrite H1, H2, truthy_string_some, truthy_number_some by assumption.
    cbn [negb orb]. unfold bind.
    rewrite menu_findById_run, H5, H6, H7. cbn [negb].
    now apply IH with (q := q).
Qed.

Lemma Forall2_In_l {A B} (R : A -> B -> Prop) l l' x :
  Forall2 R l l' -> In x l -> exists y, R x y.
Proof.
  induction 1 as [|a b l l' Hab _ IH]; simpl; [tauto|].
  intros [<- | Hin]; eauto.
Qed.

(** C6, as the code has it.  A createOrder request with a line whose
    menuItemId names no catalog entry is turned down and writes nothing, so
    no order is created; when the customer exists, the lines before it pass
    every check and the line itself has a well-formed id and a quantity,
    the answer is HTTP 400 (not 404) with the one-field body
    {message: Item with ID <id> not found}. *)
Theorem unresolved_item_rejected (env : Env) (user : User.t)
  (b : OrderRequest.t) (s : Store) (bad : LineRequest.t) :
  In bad (lines_of b) ->
  ~ resolves (menu s) bad ->
  snd (Routes.createOrder env user b s) = s
  /\ refused (fst (Routes.createOrder env user b s))
  /\ forall pre post customer id q,
       OrderRequest.items b = ItemsArray (pre ++ bad :: post) ->
       Forall (accepted (menu s)) pre ->
       ObjectId_isValid (User.id user) = true ->
       find (CustomerModel.has_id (User.id user)) (customers s)
       = Some customer ->
       LineRequest.menuItemId bad = Some id ->
       LineRequest.quantity bad = Some q ->
       id <> "" -> q <> 0 ->
       ObjectId_isValid id = true ->
       fst (Routes.createOrder env user b s)
       = mkResponse 400 (BMessage ("Item with ID " ++ id ++ " not found")).
Proof.
  intros Hin Hbad.
  assert (Hgen : snd (Routes.createOrder env user b s) = s
                 /\ refused (fst (Routes.createOrder env user b s))).
  { destruct (Routes.createOrder env user b s) as [resp s'] eqn:E.
    cbn [fst snd]. apply createOrder_inv in E.
    destruct E as [[-> Href] | (customer & o & Hacc & _)]; [auto|].
    exfalso.
    destruct Hacc as (lines & orderItems & addr & Hacc). cbv zeta in Hacc.
    destruct Hacc as (Hitems & _ & _ & _ & Hloop & _).
    apply collect_items_inv in Hloop.
    destruct Hloop as [_ (new & _ & Hsnap)].
    unfold lines_of in Hin. rewrite Hitems in Hin.
    destruct (Forall2_In_l _ _ _ _ Hsnap Hin) as [item Hitem].
    apply Hbad. exact (snapshot_resolves _ _ _ Hitem). }
  destruct Hgen as [Hstore Href]. split; [exact Hstore|].
  split; [exact Href|].
  intros pre post customer id q Hitems Hpre Huser Hcust Hid Hq Hid0 Hq0 Hvalid.
  assert (Hnone : find (MenuItemModel.has_id id) (menu s) = None).
  { destruct (find (MenuItemModel.has_id id) (menu s)) as [m|] eqn:Hm;
      [|reflexivity].
    exfalso. apply Hbad. exists id, m. auto. }
  unfold Routes.createOrder, try_catch, Routes.createOrder_body.
  rewrite Hitems.
  destruct (pre ++ bad :: post)%list as [|line lines] eqn:Hlines.
  { destruct pre; discriminate. }
  unfold bind at 1. rewrite customer_findById_run, Huser, Hcust.
  unfold bind at 1. rewrite <- Hlines.
  rewrite (collect_items_unresolved pre [] s bad post id q) by assumption.
  reflexivity.
Qed.

Lemma unresolved_item_rejected_witness :
  snd (Routes.createOrder Sample.env Sample.diner Sample.unknown_item
         Sample.store0) = Sample.store0
  /\ refused (fst (Routes.createOrder Sample.env Sample.diner
                     Sample.unknown_item Sample.store0))
  /\ fst (Routes.createOrder Sample.env Sample.diner Sample.unknown_item
            Sample.store0)
     = mkResponse 400
         (BMessage ("Item with ID " ++ "ffffffffffffffffffffffff"
                    ++ " not found")).
Proof.
  destruct (unresolved_item_rejected Sample.env Sample.diner
              Sample.unknown_item Sample.store0
              (LineRequest.mk (Some "ffffffffffffffffffffffff") (Some 1)))
    as (Hstore & Hrefused & Hanswer).
  - simpl. auto.
  - intros (id & m & Hid & Hm). injection Hid as <-. vm_compute in Hm.
    discriminate.
  - split; [exact Hstore|]. split; [exact Hrefused|].
    apply (Hanswer
             [LineRequest.mk (Some "64b7f0c2a1d3e4f5a6b7c8e1") (Some 2)] []
             Sample.customer "ffffffffffffffffffffffff" 1);
      try reflexivity; try discriminate.
    constructor; [|constructor].
    exists "64b7f0c2a1d3e4f5a6b7c8e1", 2, Sample.pilau.
    repeat split; try reflexivity; discriminate.
Defined.

(** C6 as stated fails: the second line names no catalog entry, and the
    answer is 400, not 404. *)
Lemma unresolved_item_is_400 :
  find (MenuItemModel.has_id "ffffffffffffffffffffffff") (menu Sample.store0)
  = None
  /\ Routes.createOrder Sample.env Sample.diner Sample.unknown_item
       Sample.store0
     = (mkResponse 400
          (BMessage "Item with ID ffffffffffffffffffffffff not found"),
        Sample.store0)
  /\ status (fst (Routes.createOrder Sample.env Sample.diner
                    Sample.unknown_item Sample.store0)) <> 404.
Proof. vm_compute. repeat split. discriminate. Qed.

(** An id resolves whatever the case of its hexadecimal digits: the line
    of the order carries the id of the entry as it is stored. *)
Example upper_case_id_resolves :
  let b :=
    OrderRequest.mk
      (ItemsArray [LineRequest.mk (Some "64B7F0C2A1D3E4F5A6B7C8E1") (Some 2)])
      (Some "takeaway") (Some "Cash") None None None in
  status (fst (Routes.createOrder Sample.env Sample.diner b Sample.store0))
  = 201
  /\ map (fun o => map Item.menuItemId (Order.items o))
         (orders (snd (Routes.createOrder Sample.env Sample.diner b
                         Sample.store0)))
     = [["64b7f0c2a1d3e4f5a6b7c8e1"]].
Proof. vm_compute. auto. Qed.

(** ** Empty requests *)

(** C7. A createOrder request whose items are absent, not an array or
    an empty array is answered 400 with a message, and the store is left
    exactly as it was: no order, no notification, no change to any
    customer. *)
Theorem empty_items_rejected (env : Env) (user : User.t) (b : OrderRequest.t)
  (s : Store) :
  lines_of b = [] ->
  Routes.createOrder env user b s
  = (mkResponse 400 (BMessage "Order must contain at least one item"), s).
Proof.
  unfold lines_of, Routes.createOrder, try_catch, Routes.createOrder_body.
  destruct (OrderRequest.items b) as [| |[|line lines]];
    first [reflexivity | discriminate].
Qed.

Lemma empty_items_rejected_witness :
  Routes.createOrder Sample.env Sample.diner Sample.no_items Sample.store1
  = (mkResponse 400 (BMessage "Order must contain at least one item"),
     Sample.store1).
Proof.
  apply (empty_items_rejected Sample.env Sample.diner Sample.no_items
           Sample.store1).
  reflexivity.
Defined.

(** ** Status transitions *)

Lemma find_replace_first id o old stored :
  find (OrderModel.has_id id) stored = Some old ->
  OrderModel.has_id id o = true ->
  find (OrderModel.has_id id) (OrderModel.replace_first o stored) = Some o.
Proof.
  intros Hf Hid. pose proof (has_id_same id o Hid) as Hsame.
  induction stored as [|x stored IH]; simpl in *; [discriminate|].
  rewrite Hsame.
  destruct (OrderModel.has_id id x) eqn:Hx.
  - simpl. now rewrite Hid.
  - simpl. rewrite Hx. auto.
Qed.

(** A document with the id of an order is found under the ids the order
    is found under. *)
Lemma has_id_of id o old :
  OrderModel.has_id id old = true -> Order._id o = Order._id old ->
  OrderModel.has_id id o = true.
Proof. unfold OrderModel.has_id. now intros H ->. Qed.

(** A stored order stays acceptable under any of the eight statuses. *)
Lemma status_update_accepted env id s old newStatus :
  ObjectId_isValid id = true ->
  find (OrderModel.has_id id) (orders s) = Some old ->
  stored_ok old ->
  In newStatus OrderModel.orderStatuses ->
  update_accepted env id (Order.set_orderStatus newStatus) s old
    (saved (now env) s (Order.set_orderStatus newStatus old)).
Proof.
  intros Hid Hold [Hvalid Hnum] Hin.
  assert (Hnum' : numbered (Order.set_orderStatus newStatus old))
    by (now destruct old).
  repeat split; try assumption.
  - apply validate_nil. apply -> pre_validate_valid.
    now apply set_orderStatus_valid.
  - unfold OrderModel.update_conflict, OrderModel.has_number.
    rewrite saved_number_kept by exact Hnum'.
    replace (Order.orderNumber (Order.set_orderStatus newStatus old))
      with (Order.orderNumber old) by (now destruct old).
    unfold numbered, JS.truthy_string in Hnum.
    destruct (Order.orderNumber old) as [n|]; [|discriminate].
    now rewrite String.eqb_refl.
Qed.

(** C8. For a staff caller, setOrderStatus turns down every status that
    is not one of the eight enumerated values with 400 and writes nothing;
    and for each of the eight values, whatever status the stored order has,
    it saves the order with the new status, records a notification of type
    info and answers 200 with the saved order. *)
Theorem setOrderStatus_any_transition (env : Env) (user : User.t)
  (id : string) (st : option string) (s : Store) :
  Routes.not_staff user = false ->
  ((forall v, st = Some v -> ~ In v OrderModel.orderStatuses) ->
   Routes.setOrderStatus env user id st s
   = (mkResponse 400 (BMessage "Invalid status"), s))
  /\ (forall newStatus old,
        st = Some newStatus ->
        In newStatus OrderModel.orderStatuses ->
        ObjectId_isValid id = true ->
        find (OrderModel.has_id id) (orders s) = Some old ->
        stored_ok old ->
        notificationFailure env = None ->
        exists o n,
          Routes.setOrderStatus env user id st s
          = (mkResponse 200 (BUpdated "Order status updated" o),
             with_notifications (notifications s ++ [n]) (after_update s o))
          /\ Order.orderStatus o = newStatus
          /\ Notification.type n = "info"
          /\ find (OrderModel.has_id id) (orders (after_update s o)) = Some o
          /\ stored_ok o).
Proof.
  intros Hrole. split.
  - intros Hnot. unfold Routes.setOrderStatus, try_catch. rewrite Hrole.
    destruct st as [v|]; [|reflexivity].
    destruct (JS.includes OrderModel.orderStatuses (Some v)) eqn:Hin;
      [|reflexivity].
    apply includes_In in Hin. destruct (Hnot v eq_refl Hin).
  - intros newStatus old -> Hin Hid Hold Hok Hsink.
    pose proof (status_update_accepted env id s old newStatus Hid Hold Hok Hin)
      as Hacc.
    destruct (setOrderStatus_run env user id newStatus s old _ Hrole Hin Hacc)
      as (resp & s' & Hrun & Hres).
    unfold update_result in Hres. rewrite Hsink in Hres.
    destruct Hres as (-> & n & Hn & ->).
    eexists. exists n. split; [exact Hrun|].
    destruct Hacc as (_ & _ & Hv & _ & _).
    split; [|split; [exact Hn|split]].
    + destruct (saved_fields (now env) s (Order.set_orderStatus newStatus old))
        as (_ & _ & _ & _ & -> & _).
      now destruct old.
    + apply (find_replace_first id _ old); [exact Hold|].
      apply (has_id_of id _ old); [exact (find_order_id _ _ _ Hold)|].
      now rewrite saved_id, set_orderStatus_id.
    + now apply saved_ok.
Qed.

Lemma setOrderStatus_any_transition_witness :
  Routes.setOrderStatus Sample.env Sample.manager
    "64b7f0c2a1d3e4f5a6b7c8f1" (Some "Shipped") Sample.store1
  = (mkResponse 400 (BMessage "Invalid status"), Sample.store1)
  /\ exists o n,
       Routes.setOrderStatus Sample.env Sample.manager
         "64b7f0c2a1d3e4f5a6b7c8f1" (Some "Ready") Sample.store1
       = (mkResponse 200 (BUpdated "Order status updated" o),
          with_notifications (notifications Sample.store1 ++ [n])
            (after_update Sample.store1 o))
       /\ Order.orderStatus o = "Ready"
       /\ Notification.type n = "info"
       /\ find (OrderModel.has_id "64b7f0c2a1d3e4f5a6b7c8f1")
               (orders (after_update Sample.store1 o)) = Some o
       /\ stored_ok o.
Proof.
  split.
  - apply (proj1 (setOrderStatus_any_transition Sample.env Sample.manager
                    "64b7f0c2a1d3e4f5a6b7c8f1" (Some "Shipped") Sample.store1
                    eq_refl)).
    intros v [= <-] Hin. simpl in Hin. intuition discriminate.
  - apply (proj2 (setOrderStatus_any_transition Sample.env Sample.manager
                    "64b7f0c2a1d3e4f5a6b7c8f1" (Some "Ready") Sample.store1
                    eq_refl) "Ready" Sample.order1);
      try reflexivity.
    + simpl. auto.
    + split; [|reflexivity]. apply validate_nil. reflexivity.
Defined.

(** Backwards as well: a delivered order can be set back to pending. *)
Example backwards_transition :
  let delivered :=
    snd (Routes.setOrderStatus Sample.env Sample.manager
           "64b7f0c2a1d3e4f5a6b7c8f1" (Some "Delivered") Sample.store1) in
  map Order.orderStatus (orders delivered) = ["Delivered"]
  /\ status (fst (Routes.setOrderStatus Sample.env Sample.manager
                    "64b7f0c2a1d3e4f5a6b7c8f1" (Some "Pending") delivered))
     = 200
  /\ map Order.orderStatus
       (orders (snd (Routes.setOrderStatus Sample.env Sample.manager
                       "64b7f0c2a1d3e4f5a6b7c8f1" (Some "Pending")
                       delivered)))
     = ["Pending"].
Proof. vm_compute. auto. Qed.

(** The API keeps every stored order valid and numbered, so the
    precondition on the stored order holds in every store the API reaches
    from one where it holds. *)
Lemma handle_keeps_stored_ok env req s :
  Forall stored_ok (orders s) ->
  Forall stored_ok (orders (snd (handle env req s))).
Proof.
  intros Hs. apply Forall_forall. intros o Hin.
  rewrite Forall_forall in Hs.
  destruct (handle_orders env req s)
    as [Heq | [(fresh & Hv & _ & _ & Heq)
              | (id & tweak & old & _ & Hv & _ & _ & _ & Heq)]];
    rewrite Heq in Hin.
  - auto.
  - apply in_app_or in Hin. destruct Hin as [Hin | [<- | []]]; [auto|].
    now apply saved_ok.
  - apply In_replace_first in Hin. destruct Hin as [Hin | ->]; [auto|].
    now apply saved_ok.
Qed.

Lemma reachable_stored_ok s0 s :
  reachable s0 s -> Forall stored_ok (orders s0) -> Forall stored_ok (orders s).
Proof.
  induction 1 as [|s env req _ IH|s op _ IH]; intros H0.
  - exact H0.
  - apply handle_keeps_stored_ok. auto.
  - rewrite catalog_apply_orders. auto.
Qed.

(** No orders to start with, so valid and numbered orders ever after. *)
Lemma reachable_from_empty s0 s :
  orders s0 = [] -> reachable s0 s -> Forall stored_ok (orders s).
Proof.
  intros Hempty Hreach. apply (reachable_stored_ok s0 s Hreach).
  rewrite Hempty. constructor.
Qed.

(** ** Tracking *)

(** C9, as the code has it.  A track request that resolves an order and
    carries a non-empty phone different from the stored customerPhone is
    answered 403 with a body that has the message field only, and nothing
    is written. *)
Theorem track_wrong_phone_forbidden (orderNumber phone : string) (s : Store)
  (o : Order.t) :
  find (OrderModel.has_number orderNumber) (orders s) = Some o ->
  phone <> "" ->
  phone <> Order.customerPhone o ->
  Routes.trackOrder orderNumber (Some phone) s
  = (mkResponse 403 (BMessage "Invalid phone number for this order"), s)
  /\ body_fields (body (fst (Routes.trackOrder orderNumber (Some phone) s)))
     = ["message"].
Proof.
  intros Hfind Hne Hdiff.
  assert (Hrun : Routes.trackOrder orderNumber (Some phone) s
                 = (mkResponse 403
                      (BMessage "Invalid phone number for this order"), s)).
  { unfold Routes.trackOrder, try_catch, bind,
      OrderModel.findOne_orderNumber, gets, respond.
    rewrite Hfind, truthy_string_some by exact Hne.
    unfold JS.strict_eq.
    destruct (String.eqb_spec phone (Order.customerPhone o)); [contradiction|].
    reflexivity. }
  rewrite Hrun. split; reflexivity.
Qed.

Lemma track_wrong_phone_forbidden_witness :
  Routes.trackOrder "ORD2611010001" (Some "0700000000") Sample.store1
  = (mkResponse 403 (BMessage "Invalid phone number for this order"),
     Sample.store1)
  /\ body_fields
       (body (fst (Routes.trackOrder "ORD2611010001" (Some "0700000000")
                     Sample.store1)))
     = ["message"].
Proof.
  apply (track_wrong_phone_forbidden "ORD2611010001" "0700000000"
           Sample.store1 Sample.order1).
  - reflexivity.
  - discriminate.
  - discriminate.
Defined.

(** C9 as stated fails: the request [?phone=] supplies a phone, the empty
    string, that differs from the stored one, and the order summary is
    sent with status 200. *)
Lemma track_empty_phone_leaks :
  find (OrderModel.has_number "ORD2611010001") (orders Sample.store1)
  = Some Sample.order1
  /\ "" <> Order.customerPhone Sample.order1
  /\ fst (Routes.trackOrder "ORD2611010001" (Some "") Sample.store1)
     = track_response Sample.order1
  /\ status (fst (Routes.trackOrder "ORD2611010001" (Some "") Sample.store1))
     <> 403
  /\ In "items"
        (body_fields
           (body (fst (Routes.trackOrder "ORD2611010001" (Some "")
                         Sample.store1)))).
Proof.
  vm_compute. repeat split; try discriminate. auto 10.
Qed.

(** ** Defaults *)

(** C10. An order created from a request without orderType has
    orderType takeaway, and one created from a request without
    paymentMethod has paymentMethod M-PESA. *)
Theorem intake_defaults (env : Env) (user : User.t) (b : OrderRequest.t)
  (s : Store) :
  status (fst (Routes.createOrder env user b s)) = 201 ->
  exists o,
    orders (snd (Routes.createOrder env user b s)) = (orders s ++ [o])%list
    /\ (OrderRequest.orderType b = None -> Order.orderType o = "takeaway")
    /\ (OrderRequest.paymentMethod b = None ->
        Order.paymentMethod o = "M-PESA").
Proof.
  destruct (Routes.createOrder env user b s) as [resp s'] eqn:E.
  cbn [fst snd]. intros Hst. apply createOrder_inv in E.
  destruct E as [[_ Href] | (customer & o & Hacc & Hres)].
  { unfold refused in Href. lia. }
  apply intake_result_store in Hres. destruct Hres as [Ho _].
  destruct Hacc as (lines & orderItems & addr & Hacc). cbv zeta in Hacc.
  destruct Hacc as (_ & _ & _ & _ & _ & _ & _ & -> & _).
  eexists. split; [exact Ho|].
  destruct (saved_fields (now env) s
              (Routes.new_order env customer orderItems
                 (OrderModel.sum_subtotals orderItems) b addr))
    as (_ & _ & -> & -> & _).
  split; intros Hnone; cbn [Routes.new_order Order.orderType
                              Order.paymentMethod];
    rewrite Hnone; reflexivity.
Qed.

Lemma intake_defaults_witness :
  exists o,
    orders (snd (Routes.createOrder Sample.env Sample.diner Sample.bare
                   Sample.store0))
    = (orders Sample.store0 ++ [o])%list
    /\ (OrderRequest.orderType Sample.bare = None ->
        Order.orderType o = "takeaway")
    /\ (OrderRequest.paymentMethod Sample.bare = None ->
        Order.paymentMethod o = "M-PESA").
Proof.
  apply (intake_defaults Sample.env Sample.diner Sample.bare Sample.store0).
  reflexivity.
Defined.

(** * Further properties of the order routes *)

(** ** What an update leaves alone *)

Lemma reprice_fixed item :
  Item.subtotal item = JS.mul (Item.quantity item) (Item.price item) ->
  reprice item = item.
Proof.
  destruct item as [i n q p t]. unfold reprice, Item.set_subtotal. simpl.
  now intros ->.
Qed.

Lemma map_reprice_fixed items :
  Forall (fun item =>
            Item.subtotal item = JS.mul (Item.quantity item) (Item.price item))
         items ->
  map reprice items = items.
Proof.
  induction 1 as [|item items H _ IH]; simpl; [reflexivity|].
  now rewrite reprice_fixed, IH.
Qed.

(** On an order whose totals are those of the [pre('save')] hook, the hook
    only refreshes [updatedAt]. *)
Lemma pre_save_consistent date o :
  totals_consistent o -> OrderModel.pre_save date o = Order.set_updatedAt date o.
Proof.
  unfold totals_consistent, OrderModel.pre_save.
  destruct o as [? ? ? ? ? ? ? its sub tot ? ? ? ? ? ? ? ? ? ?].
  cbn [Order.items Order.subtotal Order.total].
  intros (Hlines & Hsub & Htot).
  destruct its as [|i its]; [reflexivity|].
  fold (reprice). change (map _ (i :: its)) with (map reprice (i :: its)).
  rewrite (map_reprice_fixed (i :: its) Hlines).
  cbn [Order.set_items Order.set_subtotal Order.set_total Order.items
       Order.subtotal Order.set_updatedAt].
  rewrite <- Hsub, <- Htot. reflexivity.
Qed.

Lemma saved_consistent date s o :
  numbered o -> totals_consistent o ->
  saved date s o = Order.set_updatedAt date o.
Proof.
  intros Hnum Htot. unfold saved.
  rewrite pre_validate_keeps by exact Hnum.
  now apply pre_save_consistent.
Qed.

Lemma set_orderStatus_keeps st o :
  (numbered o -> numbered (Order.set_orderStatus st o))
  /\ (totals_consistent o -> totals_consistent (Order.set_orderStatus st o))
  /\ Order.orderNumber (Order.set_orderStatus st o) = Order.orderNumber o.
Proof.
  destruct o. split; [|split]; [exact (fun H => H).. | reflexivity].
Qed.

Lemma pay_tweak_keeps st r o :
  (numbered o -> numbered (pay_tweak st r o))
  /\ (totals_consistent o -> totals_consistent (pay_tweak st r o))
  /\ Order.orderNumber (pay_tweak st r o) = Order.orderNumber o
  /\ Order.total (pay_tweak st r o) = Order.total o
  /\ Order.paymentStatus (pay_tweak st r o) = st.
Proof.
  unfold pay_tweak. destruct (JS.truthy_string r); destruct o;
    (split; [|split; [|split; [|split]]]);
    first [exact (fun H => H) | reflexivity].
Qed.

Lemma pay_tweak_valid st r o :
  valid o -> In st OrderModel.paymentStatuses -> valid (pay_tweak st r o).
Proof.
  unfold pay_tweak, valid. destruct (JS.truthy_string r); destruct o;
    cbn [Order.customerName Order.customerPhone Order.items Order.subtotal
         Order.total Order.orderType Order.paymentMethod Order.paymentStatus
         Order.orderStatus Order.set_paymentStatus Order.set_mpesaReceipt];
    intros (H1 & H2 & H3 & H4 & H5 & H6 & H7 & H8 & H9 & H10) Hin;
    repeat split; assumption.
Qed.

Lemma number_kept_no_conflict old o stored :
  numbered old ->
  Order.orderNumber o = Order.orderNumber old ->
  OrderModel.update_conflict old o stored = false.
Proof.
  unfold numbered, JS.truthy_string, OrderModel.update_conflict,
    OrderModel.has_number.
  intros Hnum ->. destruct (Order.orderNumber old) as [n|]; [|discriminate].
  now rewrite String.eqb_refl.
Qed.

(** A stored order stays acceptable under any of the four payment
    statuses, with or without a receipt. *)
Lemma payment_update_accepted env id s old newStatus receipt :
  ObjectId_isValid id = true ->
  find (OrderModel.has_id id) (orders s) = Some old ->
  stored_ok old ->
  In newStatus OrderModel.paymentStatuses ->
  update_accepted env id (pay_tweak newStatus receipt) s old
    (saved (now env) s (pay_tweak newStatus receipt old)).
Proof.
  intros Hid Hold [Hvalid Hnum] Hin.
  destruct (pay_tweak_keeps newStatus receipt old) as (Hn & _ & Hnb & _).
  repeat split; try assumption.
  - apply validate_nil. apply -> pre_validate_valid.
    now apply pay_tweak_valid.
  - apply number_kept_no_conflict; [exact Hnum|].
    rewrite saved_number_kept by auto. exact Hnb.
Qed.

(** X1. For a staff caller, setPaymentStatus turns down every payment
    status outside Pending, Paid, Failed and Refunded with 400 and writes
    nothing; for each of the four, whatever the stored order's payment
    status, it answers 200 with the stored order changed in its payment
    status, its receipt (only when the request brings a non-empty one) and
    updatedAt, and in nothing else, and records a notification of type
    success for Paid and warning otherwise. *)
Theorem payment_transition (env : Env) (user : User.t) (id : string)
  (st receipt : option string) (s : Store) :
  Routes.not_staff user = false ->
  ((forall v, st = Some v -> ~ In v OrderModel.paymentStatuses) ->
   Routes.setPaymentStatus env user id st receipt s
   = (mkResponse 400 (BMessage "Invalid payment status"), s))
  /\ (forall newStatus old,
        st = Some newStatus ->
        In newStatus OrderModel.paymentStatuses ->
        ObjectId_isValid id = true ->
        find (OrderModel.has_id id) (orders s) = Some old ->
        stored_ok old -> totals_consistent old ->
        notificationFailure env = None ->
        exists n,
          let o :=
            Order.set_updatedAt (now env)
              (let paid := Order.set_paymentStatus newStatus old in
               if JS.truthy_string receipt
               then Order.set_mpesaReceipt receipt paid else paid) in
          Routes.setPaymentStatus env user id st receipt s
          = (mkResponse 200 (BUpdated "Payment status updated" o),
             with_notifications (notifications s ++ [n])
               (with_orders (OrderModel.replace_first o (orders s)) s))
          /\ Notification.type n
             = (if String.eqb newStatus "Paid" then "success" else "warning")).
Proof.
  intros Hrole. split.
  - intros Hnot. unfold Routes.setPaymentStatus, try_catch. rewrite Hrole.
    destruct st as [v|]; [|reflexivity].
    destruct (JS.includes OrderModel.paymentStatuses (Some v)) eqn:Hin;
      [|reflexivity].
    apply includes_In in Hin. destruct (Hnot v eq_refl Hin).
  - intros newStatus old -> Hin Hid Hold Hok Htot Hsink.
    pose proof (payment_update_accepted env id s old newStatus receipt
                  Hid Hold Hok Hin) as Hacc.
    destruct (setPaymentStatus_run env user id newStatus receipt s old _
                Hrole Hin Hacc) as (resp & s' & Hrun & Hres).
    unfold update_result in Hres. rewrite Hsink in Hres.
    destruct Hres as (-> & n & Hn & ->).
    exists n. cbv zeta. fold (pay_tweak newStatus receipt old).
    destruct (pay_tweak_keeps newStatus receipt old) as (Hnum & Hcons & _).
    rewrite saved_consistent in Hrun by (destruct Hok; auto).
    split; [exact Hrun | exact Hn].
Qed.

Lemma payment_transition_witness :
  Routes.setPaymentStatus Sample.env Sample.manager
    "64b7f0c2a1d3e4f5a6b7c8f1" (Some "Settled") None Sample.store1
  = (mkResponse 400 (BMessage "Invalid payment status"), Sample.store1)
  /\ exists n,
       let o :=
         Order.set_updatedAt (now Sample.env)
           (let paid := Order.set_paymentStatus "Paid" Sample.order1 in
            if JS.truthy_string (Some "QGH7XK2M9P")
            then Order.set_mpesaReceipt (Some "QGH7XK2M9P") paid else paid) in
       Routes.setPaymentStatus Sample.env Sample.manager
         "64b7f0c2a1d3e4f5a6b7c8f1" (Some "Paid") (Some "QGH7XK2M9P")
         Sample.store1
       = (mkResponse 200 (BUpdated "Payment status updated" o),
          with_notifications (notifications Sample.store1 ++ [n])
            (with_orders (OrderModel.replace_first o (orders Sample.store1))
               Sample.store1))
       /\ Notification.type n
          = (if String.eqb "Paid" "Paid" then "success" else "warning").
Proof.
  split.
  - apply (proj1 (payment_transition Sample.env Sample.manager
                    "64b7f0c2a1d3e4f5a6b7c8f1" (Some "Settled") None
                    Sample.store1 eq_refl)).
    intros v [= <-] Hin. simpl in Hin. intuition discriminate.
  - apply (proj2 (payment_transition Sample.env Sample.manager
                    "64b7f0c2a1d3e4f5a6b7c8f1" (Some "Paid")
                    (Some "QGH7XK2M9P") Sample.store1 eq_refl)
             "Paid" Sample.order1);
      try reflexivity.
    + simpl. auto.
    + split; [|reflexivity]. apply validate_nil. reflexivity.
    + repeat split. repeat constructor.
Defined.

(** X2. A status update of a stored order with consistent totals changes
    its orderStatus and its updatedAt and nothing else: items, totals,
    payment fields, customer fields, order number and createdAt stay; so
    setting the status the order already has only refreshes updatedAt. *)
Theorem status_update_frame (env : Env) (user : User.t) (id : string)
  (newStatus : string) (s : Store) (old : Order.t) :
  Routes.not_staff user = false ->
  In newStatus OrderModel.orderStatuses ->
  ObjectId_isValid id = true ->
  find (OrderModel.has_id id) (orders s) = Some old ->
  stored_ok old -> totals_consistent old ->
  let o := Order.set_updatedAt (now env) (Order.set_orderStatus newStatus old) in
  orders (snd (Routes.setOrderStatus env user id (Some newStatus) s))
  = OrderModel.replace_first o (orders s)
  /\ customers (snd (Routes.setOrderStatus env user id (Some newStatus) s))
     = customers s
  /\ menu (snd (Routes.setOrderStatus env user id (Some newStatus) s)) = menu s
  /\ (notificationFailure env = None ->
      fst (Routes.setOrderStatus env user id (Some newStatus) s)
      = mkResponse 200 (BUpdated "Order status updated" o))
  /\ (newStatus = Order.orderStatus old ->
      o = Order.set_updatedAt (now env) old).
Proof.
  intros Hrole Hin Hid Hold Hok Htot o.
  pose proof (status_update_accepted env id s old newStatus Hid Hold Hok Hin)
    as Hacc.
  destruct (setOrderStatus_run env user id newStatus s old _ Hrole Hin Hacc)
    as (resp & s' & Hrun & Hres).
  destruct (set_orderStatus_keeps newStatus old) as (Hnum & Hcons & _).
  rewrite saved_consistent in Hres by (destruct Hok; auto).
  fold o in Hres. rewrite Hrun. cbn [fst snd].
  pose proof (update_result_store _ _ _ _ _ _ _ Hres) as (Ho & Hm & Hc).
  repeat split; try assumption.
  - intros Hsink. unfold update_result in Hres. rewrite Hsink in Hres.
    apply Hres.
  - intros ->. unfold o. now destruct old.
Qed.

Lemma status_update_frame_witness :
  let o :=
    Order.set_updatedAt (now Sample.env)
      (Order.set_orderStatus "Pending" Sample.order1) in
  orders (snd (Routes.setOrderStatus Sample.env Sample.manager
                 "64b7f0c2a1d3e4f5a6b7c8f1" (Some "Pending") Sample.store1))
  = OrderModel.replace_first o (orders Sample.store1)
  /\ customers (snd (Routes.setOrderStatus Sample.env Sample.manager
                       "64b7f0c2a1d3e4f5a6b7c8f1" (Some "Pending")
                       Sample.store1))
     = customers Sample.store1
  /\ menu (snd (Routes.setOrderStatus Sample.env Sample.manager
                  "64b7f0c2a1d3e4f5a6b7c8f1" (Some "Pending") Sample.store1))
     = menu Sample.store1
  /\ (notificationFailure Sample.env = None ->
      fst (Routes.setOrderStatus Sample.env Sample.manager
             "64b7f0c2a1d3e4f5a6b7c8f1" (Some "Pending") Sample.store1)
      = mkResponse 200 (BUpdated "Order status updated" o))
  /\ ("Pending" = Order.orderStatus Sample.order1 ->
      o = Order.set_updatedAt (now Sample.env) Sample.order1).
Proof.
  apply (status_update_frame Sample.env Sample.manager
           "64b7f0c2a1d3e4f5a6b7c8f1" "Pending" Sample.store1 Sample.order1);
    try reflexivity.
  - simpl. auto.
  - split; [|reflexivity]. apply validate_nil. reflexivity.
  - repeat split. repeat constructor.
Defined.

(** ** Lines the intake turns down *)

(** When the loop runs to its end, every line has passed every check. *)
Lemma collect_items_accepts lines : forall acc s result s',
  Routes.collect_items lines acc s = (Continue result, s') ->
  Forall (accepted (menu s)) lines.
Proof.
  induction lines as [|line lines IH]; intros acc s result s' H;
    cbn [Routes.collect_items] in H; [constructor|].
  destruct (LineRequest.menuItemId line) as [id|] eqn:Hid;
    [destruct (LineRequest.quantity line) as [q|] eqn:Hq|];
    try discriminate.
  destruct (JS.truthy_string (Some id)) eqn:Hti; [|discriminate].
  destruct (JS.truthy_number (Some q)) eqn:Htq; [|discriminate].
  cbn [negb orb] in H. unfold bind in H.
  rewrite menu_findById_run in H.
  destruct (ObjectId_isValid id) eqn:Hvalid; [|discriminate].
  destruct (find _ _) as [m|] eqn:Hm; [|discriminate].
  destruct (MenuItem.available m) eqn:Hav; [|discriminate].
  cbn [negb] in H. constructor; [|exact (IH _ _ _ _ H)].
  exists id, q, m. repeat split; try assumption.
  - intros ->. discriminate.
  - intros ->. discriminate.
Qed.

(** The loop stops with 400 at the first line that fails a check, here a
    well-formed line that names an entry not on offer. *)
Lemma collect_items_unavailable pre : forall acc s bad post id q m,
  Forall (accepted (menu s)) pre ->
  LineRequest.menuItemId bad = Some id ->
  LineRequest.quantity bad = Some q ->
  id <> "" -> q <> 0 ->
  ObjectId_isValid id = true ->
  find (MenuItemModel.has_id id) (menu s) = Some m ->
  MenuItem.available m = false ->
  Routes.collect_items (pre ++ bad :: post) acc s
  = (Responded
       (mkResponse 400 (BMessage (MenuItem.name m ++ " is not available"))),
     s).
Proof.
  induction pre as [|line pre IH]; intros acc s bad post id q m Hpre Hid Hq
    Hid0 Hq0 Hvalid Hm Hav; cbn [app Routes.collect_items].
  - rewrite Hid, Hq, truthy_string_some, truthy_number_some by assumption.
    cbn [negb orb]. unfold bind.
    rewrite menu_findById_run, Hvalid, Hm, Hav. reflexivity.
  - inversion Hpre as [|? ? (id' & q' & m' & H1 & H2 & H3 & H4 & H5 & H6 & H7)
                         Hrest]; subst.
    rewrite H1, H2, truthy_string_some, truthy_number_some by assumption.
    cbn [negb orb]. unfold bind.
    rewrite menu_findById_run, H5, H6, H7. cbn [negb].
    now apply IH with (id := id) (q := q).
Qed.

Lemma intake_accepted_lines env user b s customer o :
  intake_accepted env user b s customer o ->
  Forall (accepted (menu s)) (lines_of b).
Proof.
  intros (lines & orderItems & addr & Hacc). cbv zeta in Hacc.
  destruct Hacc as (Hitems & _ & _ & _ & Hloop & _).
  unfold lines_of. rewrite Hitems.
  exact (collect_items_accepts _ _ _ _ _ Hloop).
Qed.

(** A request with a line that is not accepted writes nothing. *)
Lemma rejected_line_writes_nothing env user b s line :
  In line (lines_of b) ->
  ~ accepted (menu s) line ->
  snd (Routes.createOrder env user b s) = s
  /\ refused (fst (Routes.createOrder env user b s)).
Proof.
  intros Hin Hno.
  destruct (Routes.createOrder env user b s) as [resp s'] eqn:E.
  cbn [fst snd]. apply createOrder_inv in E.
  destruct E as [[-> Href] | (customer & o & Hacc & _)]; [auto|].
  exfalso. apply Hno.
  pose proof (intake_accepted_lines _ _ _ _ _ _ Hacc) as Hall.
  rewrite Forall_forall in Hall. auto.
Qed.

(** X4. A createOrder request with a line whose catalog entry is marked
    not available is turned down and writes nothing; when the customer
    exists, the lines before it pass every check and the line is well
    formed, the answer is 400 with the message <name> is not available,
    the name being the catalog entry's. *)
Theorem unavailable_item_rejected (env : Env) (user : User.t)
  (b : OrderRequest.t) (s : Store) (bad : LineRequest.t) :
  In bad (lines_of b) ->
  unavailable (menu s) bad ->
  snd (Routes.createOrder env user b s) = s
  /\ refused (fst (Routes.createOrder env user b s))
  /\ forall pre post customer id q m,
       OrderRequest.items b = ItemsArray (pre ++ bad :: post) ->
       Forall (accepted (menu s)) pre ->
       ObjectId_isValid (User.id user) = true ->
       find (CustomerModel.has_id (User.id user)) (customers s)
       = Some customer ->
       LineRequest.menuItemId bad = Some id ->
       LineRequest.quantity bad = Some q ->
       id <> "" -> q <> 0 ->
       ObjectId_isValid id = true ->
       find (MenuItemModel.has_id id) (menu s) = Some m ->
       fst (Routes.createOrder env user b s)
       = mkResponse 400 (BMessage (MenuItem.name m ++ " is not available")).
Proof.
  intros Hin (id0 & m0 & Hid0 & Hm0 & Hav0).
  assert (Hno : ~ accepted (menu s) bad).
  { intros (id & q & m & Hid & _ & _ & _ & _ & Hm & Hav).
    rewrite Hid0 in Hid. injection Hid as <-.
    rewrite Hm0 in Hm. injection Hm as <-. congruence. }
  destruct (rejected_line_writes_nothing env user b s bad Hin Hno)
    as [Hstore Href].
  split; [exact Hstore|]. split; [exact Href|].
  intros pre post customer id q m Hitems Hpre Huser Hcust Hid Hq Hidne Hq0
    Hvalid Hm.
  rewrite Hid0 in Hid. injection Hid as <-.
  rewrite Hm0 in Hm. injection Hm as <-.
  unfold Routes.createOrder, try_catch, Routes.createOrder_body.
  rewrite Hitems.
  destruct (pre ++ bad :: post)%list as [|line lines] eqn:Hlines.
  { destruct pre; discriminate. }
  unfold bind at 1. rewrite customer_findById_run, Huser, Hcust.
  unfold bind at 1. rewrite <- Hlines.
  rewrite (collect_items_unavailable pre [] s bad post id0 q m0)
    by assumption.
  reflexivity.
Qed.

(** X5. A createOrder request with a line whose quantity is absent, zero
    or negative never creates an order: it is turned down and writes
    nothing (zero and absent by the check of the route, negative by the
    minimum of the schema). *)
Theorem bad_quantity_rejected (env : Env) (user : User.t)
  (b : OrderRequest.t) (s : Store) (line : LineRequest.t) :
  In line (lines_of b) ->
  (forall q, LineRequest.quantity line = Some q -> q < 1) ->
  snd (Routes.createOrder env user b s) = s
  /\ refused (fst (Routes.createOrder env user b s)).
Proof.
  intros Hin Hq.
  destruct (Routes.createOrder env user b s) as [resp s'] eqn:E.
  cbn [fst snd]. apply createOrder_inv in E.
  destruct E as [[-> Href] | (customer & o & Hacc & _)]; [auto|].
  exfalso.
  destruct Hacc as (lines & orderItems & addr & Hacc). cbv zeta in Hacc.
  destruct Hacc as (Hitems & _ & _ & _ & Hloop & _ & Hv & _).
  apply collect_items_inv in Hloop. destruct Hloop as [_ (new & Hnew & Hsnap)].
  cbn [app] in Hnew. subst new.
  apply validate_nil in Hv. apply pre_validate_valid in Hv.
  destruct Hv as (_ & _ & _ & Hvalid & _).
  cbn [Routes.new_order Order.items] in Hvalid.
  unfold lines_of in Hin. rewrite Hitems in Hin.
  clear Hitems. induction Hsnap as [|l item lines items Hl _ IH].
  - destruct Hin.
  - inversion Hvalid as [|? ? (_ & Hge & _) Hrest]; subst.
    destruct Hin as [<- | Hin]; [|auto].
    destruct Hl as (id & m & _ & _ & _ & _ & _ & Hquant).
    specialize (Hq _ Hquant). lia.
Qed.

Lemma bad_quantity_rejected_witness :
  (snd (Routes.createOrder Sample.env Sample.diner
          (OrderRequest.mk
             (ItemsArray
                [LineRequest.mk (Some "64b7f0c2a1d3e4f5a6b7c8e1") (Some (-2))])
             None None None None None) Sample.store0) = Sample.store0
   /\ refused
        (fst (Routes.createOrder Sample.env Sample.diner
                (OrderRequest.mk
                   (ItemsArray
                      [LineRequest.mk (Some "64b7f0c2a1d3e4f5a6b7c8e1")
                         (Some (-2))])
                   None None None None None) Sample.store0))).
Proof.
  apply (bad_quantity_rejected Sample.env Sample.diner _ Sample.store0
           (LineRequest.mk (Some "64b7f0c2a1d3e4f5a6b7c8e1") (Some (-2)))).
  - simpl. auto.
  - intros q [= <-]. lia.
Defined.

Example negative_quantity_is_validation_failure :
  status
    (fst (Routes.createOrder Sample.env Sample.diner
            (OrderRequest.mk
               (ItemsArray
                  [LineRequest.mk (Some "64b7f0c2a1d3e4f5a6b7c8e1")
                     (Some (-2))])
               None None None None None) Sample.store0)) = 400
  /\ body_fields
       (body
          (fst (Routes.createOrder Sample.env Sample.diner
                  (OrderRequest.mk
                     (ItemsArray
                        [LineRequest.mk (Some "64b7f0c2a1d3e4f5a6b7c8e1")
                           (Some (-2))])
                     None None None None None) Sample.store0)))
     = ["message"; "errors"].
Proof. vm_compute. auto. Qed.

Lemma unavailable_item_rejected_witness :
  snd (Routes.createOrder Sample.env Sample.diner Sample.two_pilau
         Sample.closed)
  = Sample.closed
  /\ fst (Routes.createOrder Sample.env Sample.diner Sample.two_pilau
            Sample.closed)
     = mkResponse 400 (BMessage ("Pilau" ++ " is not available")).
Proof.
  destruct (unavailable_item_rejected Sample.env Sample.diner Sample.two_pilau
              Sample.closed
              (LineRequest.mk (Some "64b7f0c2a1d3e4f5a6b7c8e1") (Some 2)))
    as (Hstore & _ & Hanswer).
  - simpl. auto.
  - exists "64b7f0c2a1d3e4f5a6b7c8e1",
      (MenuItem.set_available false Sample.pilau).
    repeat split.
  - split; [exact Hstore|].
    apply (Hanswer [] [] Sample.customer "64b7f0c2a1d3e4f5a6b7c8e1" 2
             (MenuItem.set_available false Sample.pilau));
      try reflexivity; try discriminate.
    constructor.
Defined.

(** ** The fields of a created order *)

Lemma saved_more_fields date s o :
  let o' := saved date s o in
  Order.deliveryAddress o' = Order.deliveryAddress o
  /\ Order.customerName o' = Order.customerName o
  /\ Order.customerPhone o' = Order.customerPhone o
  /\ Order.customerEmail o' = Order.customerEmail o
  /\ Order.userId o' = Order.userId o
  /\ Order.customerId o' = Order.customerId o
  /\ Order.createdAt o' = Order.createdAt o
  /\ Order.updatedAt o' = date
  /\ Order.mpesaReceipt o' = Order.mpesaReceipt o
  /\ Order.mpesaCheckoutId o' = Order.mpesaCheckoutId o
  /\ Order.notes o' = Order.notes o.
Proof.
  cbv zeta. unfold saved, OrderModel.pre_save, OrderModel.pre_validate.
  destruct (JS.truthy_string (Order.orderNumber o));
    destruct o as [? ? ? ? ? ? ? its ? ? ? ? ? ? ? ? ? ? ? ?];
    destruct its; cbn; auto 20.
Qed.

(** A 201 answer means the request was accepted, the customer update
    went through, the notification was written and the answer was built
    from the saved order. *)
Lemma created_inv_stats env user b s :
  status (fst (Routes.createOrder env user b s)) = 201 ->
  exists customer o n c,
    intake_accepted env user b s customer o
    /\ fst (stats_update env s customer o) = Continue c
    /\ fst (Routes.createOrder env user b s) = created_response o
    /\ Notification.type n = "success"
    /\ snd (Routes.createOrder env user b s)
       = with_notifications (notifications s ++ [n])
           (after_intake env s customer o).
Proof.
  destruct (Routes.createOrder env user b s) as [resp s'] eqn:E.
  cbn [fst snd]. intros Hst. apply createOrder_inv in E.
  destruct E as [[_ Href] | (customer & o & Hacc & Hres)].
  { unfold refused in Href. lia. }
  destruct (intake_result_success _ _ _ _ _ _ Hres (or_intror Hst))
    as ([c Hc] & _ & -> & n & Hn & ->).
  exists customer, o, n, c. auto.
Qed.

Lemma created_inv env user b s :
  status (fst (Routes.createOrder env user b s)) = 201 ->
  exists customer o n,
    intake_accepted env user b s customer o
    /\ fst (Routes.createOrder env user b s) = created_response o
    /\ Notification.type n = "success"
    /\ snd (Routes.createOrder env user b s)
       = with_notifications (notifications s ++ [n])
           (after_intake env s customer o).
Proof.
  intros Hst.
  destruct (created_inv_stats env user b s Hst)
    as (customer & o & n & c & Hacc & _ & H).
  exists customer, o, n. auto.
Qed.



(** ** The delivery address *)

Lemma collect_items_run lines : forall acc s,
  Forall (accepted (menu s)) lines ->
  exists items, Routes.collect_items lines acc s = (Continue items, s).
Proof.
  induction lines as [|line lines IH]; intros acc s Hall;
    cbn [Routes.collect_items].
  - exists acc. reflexivity.
  - inversion Hall as [|? ? (id & q & m & H1 & H2 & H3 & H4 & H5 & H6 & H7)
                         Hrest]; subst.
    rewrite H1, H2, truthy_string_some, truthy_number_some by assumption.
    cbn [negb orb]. unfold bind.
    rewrite menu_findById_run, H5, H6, H7. cbn [negb].
    apply IH, Hrest.
Qed.

Lemma lacks_address_run b s :
  lacks_address b ->
  Routes.delivery_address b s
  = (Responded
       (mkResponse 400
          (BMessage "Delivery address (street and city) is required for delivery orders")),
     s).
Proof.
  intros [Htype Haddr]. unfold Routes.delivery_address. rewrite Htype.
  cbn [JS.strict_eq]. rewrite String.eqb_refl.
  destruct (OrderRequest.deliveryAddress b) as [a|]; [|reflexivity].
  destruct (Haddr a eq_refl) as [-> | ->]; cbn [negb orb];
    [|rewrite orb_true_r]; reflexivity.
Qed.

(** X7. A delivery order needs a street and a city: a createOrder
    request of type delivery whose address is absent or lacks either is
    turned down and writes nothing, with 400 and the delivery-address
    message once the customer is found and every line has passed; and an
    order that is created stores the request's address exactly when its
    type is delivery, and no address otherwise. *)
Theorem delivery_address_rule (env : Env) (user : User.t)
  (b : OrderRequest.t) (s : Store) :
  (lacks_address b ->
   snd (Routes.createOrder env user b s) = s
   /\ refused (fst (Routes.createOrder env user b s))
   /\ forall customer,
        lines_of b <> [] ->
        Forall (accepted (menu s)) (lines_of b) ->
        ObjectId_isValid (User.id user) = true ->
        find (CustomerModel.has_id (User.id user)) (customers s)
        = Some customer ->
        fst (Routes.createOrder env user b s)
        = mkResponse 400
            (BMessage "Delivery address (street and city) is required for delivery orders"))
  /\ (status (fst (Routes.createOrder env user b s)) = 201 ->
      exists o,
        orders (snd (Routes.createOrder env user b s))
        = (orders s ++ [o])%list
        /\ Order.deliveryAddress o
           = if JS.strict_eq (OrderRequest.orderType b) "delivery"
             then OrderRequest.deliveryAddress b else None).
Proof.
  split.
  - intros Hlack. pose proof (lacks_address_run b s Hlack) as Hrun.
    assert (Hgen : snd (Routes.createOrder env user b s) = s
                   /\ refused (fst (Routes.createOrder env user b s))).
    { destruct (Routes.createOrder env user b s) as [resp s'] eqn:E.
      cbn [fst snd]. apply createOrder_inv in E.
      destruct E as [[-> Href] | (customer & o & Hacc & _)]; [auto|].
      destruct Hacc as (lines & orderItems & addr & Hacc). cbv zeta in Hacc.
      destruct Hacc as (_ & _ & _ & _ & _ & Haddr & _). congruence. }
    destruct Hgen as [Hstore Href]. repeat split; try assumption.
    intros customer Hne Hall Huser Hcust.
    unfold Routes.createOrder, try_catch, Routes.createOrder_body.
    unfold lines_of in Hne, Hall.
    destruct (OrderRequest.items b) as [| |[|line lines]]; try congruence.
    unfold bind at 1. rewrite customer_findById_run, Huser, Hcust.
    unfold bind at 1.
    destruct (collect_items_run (line :: lines) [] s Hall) as [items ->].
    cbv zeta. unfold bind at 1. rewrite Hrun. reflexivity.
  - intros Hst.
    destruct (created_inv env user b s Hst)
      as (customer & o & n & Hacc & _ & _ & Hstore).
    exists o. rewrite Hstore.
    split; [exact (proj1 (after_intake_store env s customer o))|].
    destruct Hacc as (lines & orderItems & addr & Hacc). cbv zeta in Hacc.
    destruct Hacc as (_ & _ & _ & _ & _ & Haddr & _ & -> & _).
    destruct (saved_more_fields (now env) s
                (Routes.new_order env customer orderItems
                   (OrderModel.sum_subtotals orderItems) b addr))
      as (-> & _).
    cbn [Routes.new_order Order.deliveryAddress].
    unfold Routes.delivery_address, respond, ret in Haddr.
    destruct (JS.strict_eq _ _); [|congruence].
    destruct (OrderRequest.deliveryAddress b) as [a|]; [|discriminate].
    destruct (_ || _); [discriminate | congruence].
Qed.

Lemma delivery_address_rule_witness :
  (snd (Routes.createOrder Sample.env Sample.diner
          (OrderRequest.mk
             (ItemsArray
                [LineRequest.mk (Some "64b7f0c2a1d3e4f5a6b7c8e1") (Some 2)])
             (Some "delivery") (Some "Cash")
             (Some (Address.mk (Some "Moi Avenue") None None None))
             None None) Sample.store0) = Sample.store0
   /\ fst (Routes.createOrder Sample.env Sample.diner
             (OrderRequest.mk
                (ItemsArray
                   [LineRequest.mk (Some "64b7f0c2a1d3e4f5a6b7c8e1") (Some 2)])
                (Some "delivery") (Some "Cash")
                (Some (Address.mk (Some "Moi Avenue") None None None))
                None None) Sample.store0)
      = mkResponse 400
          (BMessage "Delivery address (street and city) is required for delivery orders"))
  /\ exists o,
       orders (snd (Routes.createOrder Sample.env Sample.diner
                      Sample.two_pilau Sample.store0))
       = (orders Sample.store0 ++ [o])%list
       /\ Order.deliveryAddress o
          = if JS.strict_eq (OrderRequest.orderType Sample.two_pilau)
                 "delivery"
            then OrderRequest.deliveryAddress Sample.two_pilau else None.
Proof.
  split.
  - destruct (proj1 (delivery_address_rule Sample.env Sample.diner
                       (OrderRequest.mk
                          (ItemsArray
                             [LineRequest.mk (Some "64b7f0c2a1d3e4f5a6b7c8e1")
                                (Some 2)])
                          (Some "delivery") (Some "Cash")
                          (Some (Address.mk (Some "Moi Avenue") None None None))
                          None None) Sample.store0))
      as (Hstore & _ & Hanswer).
    + split; [reflexivity|]. intros a [= <-]. right. reflexivity.
    + split; [exact Hstore|]. apply (Hanswer Sample.customer).
      * discriminate.
      * constructor; [|constructor].
        exists "64b7f0c2a1d3e4f5a6b7c8e1", 2, Sample.pilau.
        repeat split; try reflexivity; discriminate.
      * reflexivity.
      * reflexivity.
  - apply (proj2 (delivery_address_rule Sample.env Sample.diner
                    Sample.two_pilau Sample.store0)).
    reflexivity.
Defined.

(** ** The customer statistics *)


Lemma customer_find_id id stored c :
  find (CustomerModel.has_id id) stored = Some c -> Customer._id c = id.
Proof.
  intros H. apply find_some in H. destruct H as [_ H].
  now apply String.eqb_eq in H.
Qed.





(** A customer who has spent [2^53] and orders one mandazi for a shilling
    has spent [2^53] afterwards. *)
Example spent_beyond_exact_bound :
  let regular :=
    Customer.mk "64b7f0c2a1d3e4f5a6b7c8d9" (Some "CUST00001") "Wanjiku"
      None None "0712345678" (Some 1) (Some 9007199254740992) None in
  let one_mandazi :=
    OrderRequest.mk
      (ItemsArray [LineRequest.mk (Some "64b7f0c2a1d3e4f5a6b7c8e3") (Some 1)])
      (Some "takeaway") (Some "Cash") None None None in
  let after :=
    Routes.createOrder Sample.env Sample.diner one_mandazi
      (mkStore [] [regular] [Sample.mandazi] []) in
  status (fst after) = 201
  /\ map Order.total (orders (snd after)) = [1]
  /\ map (fun c => (Customer.totalOrders c, Customer.totalSpent c))
         (customers (snd after))
     = [(Some 2, Some 9007199254740992)].
Proof. vm_compute. auto. Qed.

(** The customer update can fail once the order is written: for a
    customer stored with a phone the schema does not accept, the order is
    stored, the statistics are not, no notification is recorded and the
    answer is 400. *)
Example customer_update_can_fail :
  let walk_in :=
    Customer.mk "64b7f0c2a1d3e4f5a6b7c8d9" (Some "CUST00001") "Wanjiku"
      None None "+254712345678" (Some 0) (Some 0) None in
  let s := mkStore [] [walk_in] [Sample.pilau] [] in
  let after := Routes.createOrder Sample.env Sample.diner Sample.two_pilau s in
  fst after
  = mkResponse 400
      (BValidation "Validation failed" ["Please enter a valid phone number"])
  /\ map Order.orderNumber (orders (snd after)) = [Some "ORD2611010001"]
  /\ customers (snd after) = [walk_in]
  /\ notifications (snd after) = [].
Proof. vm_compute. auto. Qed.

Example second_order_stats :
  map (fun c => (Customer.totalOrders c, Customer.totalSpent c))
      (customers (snd (Routes.createOrder
                         (mkEnv Sample.today "64b7f0c2a1d3e4f5a6b7c8f2" None)
                         Sample.diner Sample.bare Sample.store1)))
  = [(Some 2, Some 2240)].
Proof. reflexivity. Qed.

(** ** Reading a rendered number back *)

Lemma list_ascii_app s t :
  list_ascii_of_string (s ++ t)
  = (list_ascii_of_string s ++ list_ascii_of_string t)%list.
Proof. induction s as [|c s IH]; simpl; [reflexivity | now rewrite IH]. Qed.

Lemma digits_value_snoc s c :
  digits_value (s ++ String c "")
  = 10 * digits_value s + (Z.of_nat (nat_of_ascii c) - 48).
Proof.
  unfold digits_value. rewrite list_ascii_app, fold_left_app. reflexivity.
Qed.

Lemma digit_value d :
  0 <= d <= 9 -> Z.of_nat (nat_of_ascii (JS.digit d)) - 48 = d.
Proof.
  intros Hd. unfold JS.digit. rewrite nat_ascii_embedding by lia. lia.
Qed.

(** Reading the decimal rendering of a number gives the number back. *)
Lemma digits_value_decimal n : 0 <= n -> digits_value (JS.decimal n) = n.
Proof.
  revert n. apply (Zlt_0_ind (fun n => digits_value (JS.decimal n) = n)).
  intros n IH Hn. destruct (Z.ltb_spec n 10) as [Hlt | Hge].
  - rewrite decimal_small by exact Hlt.
    change (String (JS.digit n) "") with ("" ++ String (JS.digit n) "").
    rewrite digits_value_snoc, digit_value by lia. reflexivity.
  - rewrite decimal_step, digits_value_snoc by exact Hge.
    rewrite IH by (split; [apply Z.div_pos | apply Z.div_lt]; lia).
    rewrite digit_value by (pose proof (Z.mod_pos_bound n 10); lia).
    pose proof (Z_div_mod_eq_full n 10). lia.
Qed.

Lemma digits_value_zeros k s :
  digits_value (JS.repeat_char "0"%char k ++ s) = digits_value s.
Proof.
  induction k as [|k IH]; [reflexivity|].
  cbn [JS.repeat_char append]. unfold digits_value in *.
  cbn [list_ascii_of_string fold_left]. exact IH.
Qed.

(** Zero-padding keeps numbers apart. *)
Lemma padded_decimal_inj w n m :
  0 <= n -> 0 <= m ->
  JS.padStart w "0"%char (JS.decimal n) = JS.padStart w "0"%char (JS.decimal m) ->
  n = m.
Proof.
  intros Hn Hm H. apply (f_equal digits_value) in H.
  unfold JS.padStart in H.
  now rewrite !digits_value_zeros, !digits_value_decimal in H by assumption.
Qed.

(** Two order numbers agree only on the same sequence number. *)
Lemma spec_order_number_inj d1 d2 n m :
  0 <= n -> 0 <= m ->
  spec_order_number d1 n = spec_order_number d2 m -> n = m.
Proof.
  intros Hn Hm H. unfold spec_order_number, two_digits in H.
  cbn [append] in H. injection H as _ _ _ _ _ _ H.
  apply padded_decimal_inj in H; lia.
Qed.

Lemma some_inj {A} (x y : A) : Some x = Some y -> x = y.
Proof. congruence. Qed.

Lemma spec_order_number_truthy d n :
  JS.truthy_string (Some (spec_order_number d n)) = true.
Proof. reflexivity. Qed.

(** ** The sequence of order numbers *)

Lemma sequenced_numbered stored i o :
  sequenced stored -> nth_error stored i = Some o -> numbered o.
Proof.
  intros Hseq Hi. destruct (Hseq i o Hi) as (d & _ & Hnum).
  unfold numbered. rewrite Hnum. apply spec_order_number_truthy.
Qed.

(** In a sequenced store an order number names one position. *)
Lemma sequenced_distinct stored i j o1 o2 :
  sequenced stored ->
  nth_error stored i = Some o1 -> nth_error stored j = Some o2 ->
  Order.orderNumber o1 = Order.orderNumber o2 -> i = j.
Proof.
  intros Hseq Hi Hj Heq.
  destruct (Hseq i o1 Hi) as (d1 & _ & H1).
  destruct (Hseq j o2 Hj) as (d2 & _ & H2).
  rewrite H1, H2 in Heq. apply some_inj in Heq.
  apply spec_order_number_inj in Heq; lia.
Qed.

Lemma handle_keeps_sequenced env req s :
  calendar_date (now env) ->
  sequenced (orders s) ->
  sequenced (orders (snd (handle env req s))).
Proof.
  intros Hdate Hseq.
  destruct (handle_orders env req s)
    as [Heq | [(fresh & Hv & Hnone & _ & Heq)
              | (id & tweak & old & Hold & Hv & Hid & Hnum & _ & Heq)]];
    rewrite Heq.
  - exact Hseq.
  - intros i o Hi.
    destruct (Nat.lt_ge_cases i (length (orders s))) as [Hlt | Hge].
    + rewrite nth_error_app1 in Hi by exact Hlt. auto.
    + rewrite nth_error_app2 in Hi by exact Hge.
      destruct (i - length (orders s))%nat as [|k] eqn:Hk;
        [|destruct k; discriminate].
      injection Hi as <-. exists (now env). split; [exact Hdate|].
      rewrite saved_number_fresh by exact Hnone.
      rewrite order_number_spec by exact Hdate.
      do 3 f_equal. lia.
  - intros i o Hi.
    assert (Hlen : (i < length (orders s))%nat).
    { apply nth_error_Some. intros Hnone.
      assert (Hl : forall o' l, length (OrderModel.replace_first o' l)
                                = length l).
      { intros o' l. induction l as [|y l IH]; simpl; [reflexivity|].
        destruct (OrderModel.has_id _ y); simpl; congruence. }
      apply nth_error_None in Hnone. rewrite <- (Hl (saved (now env) s (tweak old))) in Hnone.
      apply nth_error_None in Hnone. congruence. }
    destruct (nth_error (orders s) i) as [x|] eqn:Hx;
      [|apply nth_error_None in Hx; lia].
    destruct (nth_replace_first (saved (now env) s (tweak old)) old (orders s))
      with (i := i) (x := x) as [Hsame | [-> Hnew]]; try assumption.
    + rewrite saved_id, Hid. exact (find_by_own_id _ _ _ Hold).
    + rewrite Hsame in Hi. injection Hi as <-. auto.
    + rewrite Hnew in Hi. injection Hi as <-.
      destruct (Hseq i old Hx) as (d & Hd & Hn).
      exists d. split; [exact Hd|].
      rewrite saved_number_kept; [congruence|].
      unfold numbered. rewrite Hnum, Hn. apply spec_order_number_truthy.
Qed.

Lemma step_keeps_sequenced st s :
  sound_step st -> sequenced (orders s) -> sequenced (orders (step s st)).
Proof.
  destruct st as [env req | op]; cbn [sound_step step].
  - intros [Hdate _]. now apply handle_keeps_sequenced.
  - intros _. now rewrite catalog_apply_orders.
Qed.

Lemma run_keeps_sequenced script : forall s,
  Forall sound_step script ->
  sequenced (orders s) -> sequenced (orders (run script s)).
Proof.
  unfold run. induction script as [|st script IH]; intros s Hall Hseq;
    [exact Hseq|].
  inversion Hall; subst. cbn [fold_left].
  apply IH; [assumption|]. now apply step_keeps_sequenced.
Qed.

(** X9. Sequence numbers never collide in a sequential run.  From a
    store whose orders are numbered in sequence (an empty collection is),
    after any run of requests under calendar clocks and catalog writes, the
    order at position k still carries the sequence number k+1, no two
    stored orders share an order number, and the number createOrder would
    draw next is held by no stored order. *)
Theorem order_numbers_stay_distinct (script : list Step) (s : Store) :
  Forall sound_step script ->
  sequenced (orders s) ->
  sequenced (orders (run script s))
  /\ (forall i j o1 o2,
        nth_error (orders (run script s)) i = Some o1 ->
        nth_error (orders (run script s)) j = Some o2 ->
        Order.orderNumber o1 = Order.orderNumber o2 -> i = j)
  /\ (forall date o,
        calendar_date date ->
        In o (orders (run script s)) ->
        Order.orderNumber o
        <> Some (OrderModel.order_number date
                   (Z.of_nat (length (orders (run script s)))))).
Proof.
  intros Hall Hseq.
  pose proof (run_keeps_sequenced script s Hall Hseq) as Hrun.
  split; [exact Hrun|]. split.
  - intros i j o1 o2. now apply sequenced_distinct.
  - intros date o Hdate Hin Heq.
    apply In_nth_error in Hin. destruct Hin as [i Hi].
    destruct (Hrun i o Hi) as (d & _ & Hn).
    rewrite Hn, order_number_spec in Heq by exact Hdate.
    apply some_inj in Heq. apply spec_order_number_inj in Heq; try lia.
    assert (i < length (orders (run script s)))%nat
      by (apply nth_error_Some; congruence).
    lia.
Qed.

Lemma order_numbers_stay_distinct_witness :
  sequenced
    (orders (run [Call (mkEnv Sample.today "64b7f0c2a1d3e4f5a6b7c8f2" None)
                    (CreateOrder Sample.diner Sample.bare)]
               Sample.store1))
  /\ (forall i j o1 o2,
        nth_error
          (orders (run [Call (mkEnv Sample.today "64b7f0c2a1d3e4f5a6b7c8f2"
                                None)
                          (CreateOrder Sample.diner Sample.bare)]
                     Sample.store1)) i = Some o1 ->
        nth_error
          (orders (run [Call (mkEnv Sample.today "64b7f0c2a1d3e4f5a6b7c8f2"
                                None)
                          (CreateOrder Sample.diner Sample.bare)]
                     Sample.store1)) j = Some o2 ->
        Order.orderNumber o1 = Order.orderNumber o2 -> i = j)
  /\ (forall date o,
        calendar_date date ->
        In o (orders (run [Call (mkEnv Sample.today
                                   "64b7f0c2a1d3e4f5a6b7c8f2" None)
                             (CreateOrder Sample.diner Sample.bare)]
                        Sample.store1)) ->
        Order.orderNumber o
        <> Some (OrderModel.order_number date
                   (Z.of_nat
                      (length
                         (orders (run [Call (mkEnv Sample.today
                                               "64b7f0c2a1d3e4f5a6b7c8f2"
                                               None)
                                         (CreateOrder Sample.diner
                                            Sample.bare)]
                                    Sample.store1)))))).
Proof.
  apply (order_numbers_stay_distinct
           [Call (mkEnv Sample.today "64b7f0c2a1d3e4f5a6b7c8f2" None)
              (CreateOrder Sample.diner Sample.bare)]
           Sample.store1).
  - constructor; [|constructor]. split; [|reflexivity].
    vm_compute. intuition discriminate.
  - intros [|[|i]] o Hi; try discriminate.
    injection Hi as <-. exists Sample.today.
    split; [vm_compute; intuition discriminate | reflexivity].
Defined.

Example two_orders_two_numbers :
  map Order.orderNumber
    (orders (run [Call (mkEnv Sample.today "64b7f0c2a1d3e4f5a6b7c8f2" None)
                    (CreateOrder Sample.diner Sample.bare)]
               Sample.store1))
  = [Some "ORD2611010001"; Some "ORD2611010002"].
Proof. reflexivity. Qed.

(** ** Finding a stored order again *)

Lemma map_id_replace_first o old stored :
  find (OrderModel.has_id (Order._id o)) stored = Some old ->
  Order._id o = Order._id old ->
  map Order._id (OrderModel.replace_first o stored) = map Order._id stored.
Proof.
  intros Hf Hid.
  induction stored as [|y stored IH]; simpl in *; [discriminate|].
  destruct (OrderModel.has_id (Order._id o) y) eqn:Hy.
  - injection Hf as ->. simpl. now rewrite Hid.
  - simpl. now rewrite IH.
Qed.

Lemma existsb_has_id_In id stored :
  existsb (OrderModel.has_id id) stored = false ->
  ~ In (ObjectId_hex id)
       (map (fun o => ObjectId_hex (Order._id o)) stored).
Proof.
  induction stored as [|y stored IH]; simpl; [tauto|].
  intros H. apply orb_false_iff in H. destruct H as [Hy H].
  intros [Heq | Hin]; [|now apply IH].
  apply ObjectId_eq_hex in Heq. unfold OrderModel.has_id in Hy. congruence.
Qed.

(** How a request changes the ids of the stored orders: not at all, or by
    one new id at the end that is the id of no stored order. *)
Lemma handle_order_ids env req s :
  map Order._id (orders (snd (handle env req s))) = map Order._id (orders s)
  \/ (map Order._id (orders (snd (handle env req s)))
      = (map Order._id (orders s) ++ [newObjectId env])%list
      /\ ~ In (ObjectId_hex (newObjectId env))
             (map (fun o => ObjectId_hex (Order._id o)) (orders s))).
Proof.
  destruct req as [user b|user id st|user id st receipt|n phone|user id];
    cbn [handle].
  - destruct (Routes.createOrder env user b s) as [resp s'] eqn:E.
    apply createOrder_inv in E.
    destruct E as [[-> _] | (customer & o & Hacc & Hres)]; [auto|].
    right. apply intake_result_store in Hres. destruct Hres as [Ho _].
    cbn [snd]. rewrite Ho, map_app.
    destruct Hacc as (lines & orderItems & addr & Hacc). cbv zeta in Hacc.
    destruct Hacc as (_ & _ & _ & _ & _ & _ & _ & Hsaved & Hconf).
    assert (Hid : Order._id o = newObjectId env)
      by (rewrite Hsaved, saved_id; reflexivity).
    cbn [map]. rewrite Hid. split; [reflexivity|].
    unfold OrderModel.insert_conflict in Hconf.
    apply orb_false_iff in Hconf. destruct Hconf as [Hconf _].
    rewrite Hid in Hconf. now apply existsb_has_id_In.
  - destruct (Routes.setOrderStatus env user id st s) as [resp s'] eqn:E.
    apply setOrderStatus_inv in E.
    destruct E as [[-> _] | (newStatus & old & o & _ & _ & _ & Hacc & Hres)];
      [auto|].
    left. apply update_result_store in Hres. destruct Hres as [Ho _].
    cbn [snd]. rewrite Ho.
    destruct Hacc as (_ & Hold & _ & Hsaved & _).
    assert (Hid : Order._id o = Order._id old)
      by (now rewrite Hsaved, saved_id, set_orderStatus_id).
    apply (map_id_replace_first o old); [|exact Hid].
    rewrite Hid. exact (find_by_own_id _ _ _ Hold).
  - destruct (Routes.setPaymentStatus env user id st receipt s)
      as [resp s'] eqn:E.
    apply setPaymentStatus_inv in E.
    destruct E as [[-> _] | (newStatus & old & o & _ & _ & _ & Hacc & Hres)];
      [auto|].
    left. apply update_result_store in Hres. destruct Hres as [Ho _].
    cbn [snd]. rewrite Ho.
    destruct Hacc as (_ & Hold & _ & Hsaved & _).
    assert (Hid : Order._id o = Order._id old)
      by (now rewrite Hsaved, saved_id, pay_tweak_id).
    apply (map_id_replace_first o old); [|exact Hid].
    rewrite Hid. exact (find_by_own_id _ _ _ Hold).
  - left. now rewrite trackOrder_store.
  - left. now rewrite getOrder_store.
Qed.

Lemma map_hex_ids stored :
  map (fun o => ObjectId_hex (Order._id o)) stored
  = map ObjectId_hex (map Order._id stored).
Proof. now rewrite map_map. Qed.

Lemma step_keeps_ids st s :
  sound_step st -> distinct_ids (orders s) -> distinct_ids (orders (step s st)).
Proof.
  unfold distinct_ids.
  destruct st as [env req | op]; cbn [sound_step step].
  - intros [_ Hvalid] [Hnodup Hall]. rewrite map_hex_ids in *.
    destruct (handle_order_ids env req s) as [-> | [-> Hfresh]].
    + auto.
    + rewrite map_hex_ids in Hfresh. split.
      * rewrite map_app. cbn [map].
        apply NoDup_app; [exact Hnodup | repeat constructor; simpl; tauto|].
        intros x Hx [<- | []]. contradiction.
      * apply Forall_app. split; [exact Hall|]. repeat constructor.
        exact Hvalid.
  - intros _. now rewrite catalog_apply_orders.
Qed.

Lemma run_keeps_ids script : forall s,
  Forall sound_step script ->
  distinct_ids (orders s) -> distinct_ids (orders (run script s)).
Proof.
  unfold run. induction script as [|st script IH]; intros s Hall Hids;
    [exact Hids|].
  inversion Hall; subst. cbn [fold_left].
  apply IH; [assumption|]. now apply step_keeps_ids.
Qed.

Lemma find_the_one {A} (f : A -> bool) (l : list A) (o : A) :
  In o l -> f o = true ->
  (forall x, In x l -> f x = true -> x = o) ->
  find f l = Some o.
Proof.
  induction l as [|y l IH]; simpl; [tauto|].
  intros Hin Ho Huniq. destruct (f y) eqn:Hy.
  - f_equal. apply Huniq; auto.
  - destruct Hin as [-> | Hin]; [congruence|]. apply IH; auto.
Qed.

Lemma distinct_ids_same stored x y :
  NoDup (map (fun o => ObjectId_hex (Order._id o)) stored) ->
  In x stored -> In y stored ->
  ObjectId_hex (Order._id x) = ObjectId_hex (Order._id y) -> x = y.
Proof.
  induction stored as [|z stored IH]; simpl; [tauto|].
  intros Hnodup Hx Hy Heq. inversion Hnodup as [|? ? Hnot Hrest]; subst.
  destruct Hx as [-> | Hx]; destruct Hy as [-> | Hy]; auto.
  - exfalso. apply Hnot. rewrite Heq.
    now apply (in_map (fun o => ObjectId_hex (Order._id o))).
  - exfalso. apply Hnot. rewrite <- Heq.
    now apply (in_map (fun o => ObjectId_hex (Order._id o))).
Qed.

Lemma sequenced_same stored x y :
  sequenced stored ->
  In x stored -> In y stored ->
  Order.orderNumber x = Order.orderNumber y -> x = y.
Proof.
  intros Hseq Hx Hy Heq.
  apply In_nth_error in Hx. destruct Hx as [i Hi].
  apply In_nth_error in Hy. destruct Hy as [j Hj].
  assert (i = j) by (now apply (sequenced_distinct stored i j x y)).
  subst j. congruence.
Qed.

(** X10. What is stored is found again.  After any run of requests under
    sound environments and catalog writes, from a store whose orders are
    numbered in sequence with distinct well-formed ids (an empty collection
    is), every stored order is the one the read-by-id route returns for its
    id, and the one the tracking route returns for its order number, both
    without a phone and with the phone stored on the order. *)
Theorem stored_orders_found (script : list Step) (s : Store) (o : Order.t) :
  Forall sound_step script ->
  sequenced (orders s) ->
  distinct_ids (orders s) ->
  In o (orders (run script s)) ->
  (forall staff,
      Routes.not_staff staff = false ->
      Routes.getOrder staff (Order._id o) (run script s)
      = (mkResponse 200 (BOrder o), run script s))
  /\ exists n,
       Order.orderNumber o = Some n
       /\ Routes.trackOrder n None (run script s)
          = (track_response o, run script s)
       /\ Routes.trackOrder n (Some (Order.customerPhone o)) (run script s)
          = (track_response o, run script s).
Proof.
  intros Hall Hseq Hids Hin.
  pose proof (run_keeps_sequenced script s Hall Hseq) as Hseq'.
  pose proof (run_keeps_ids script s Hall Hids) as [Hnodup Hvalid].
  split.
  - intros staff Hstaff. unfold Routes.getOrder, try_catch. rewrite Hstaff.
    unfold bind. rewrite findById_run.
    rewrite Forall_forall in Hvalid.
    rewrite (Hvalid (Order._id o) (in_map Order._id _ _ Hin)).
    rewrite (find_the_one _ _ o Hin (has_id_refl o)); [reflexivity|].
    intros x Hx Hfx. apply ObjectId_eq_hex in Hfx.
    now apply (distinct_ids_same (orders (run script s))).
  - pose proof Hin as Hnth. apply In_nth_error in Hnth.
    destruct Hnth as [i Hi]. destruct (Hseq' i o Hi) as (d & _ & Hn).
    exists (spec_order_number d (Z.of_nat i)). split; [exact Hn|].
    assert (Hfind : find (OrderModel.has_number
                            (spec_order_number d (Z.of_nat i)))
                         (orders (run script s)) = Some o).
    { apply find_the_one; [exact Hin | |].
      - unfold OrderModel.has_number. rewrite Hn. apply String.eqb_refl.
      - intros x Hx Hfx. unfold OrderModel.has_number in Hfx.
        destruct (Order.orderNumber x) as [m|] eqn:Hm; [|discriminate].
        apply String.eqb_eq in Hfx. subst m.
        apply (sequenced_same (orders (run script s)));
          [exact Hseq' | exact Hx | exact Hin | congruence]. }
    unfold Routes.trackOrder, try_catch, bind,
      OrderModel.findOne_orderNumber, gets, respond.
    rewrite Hfind. split; [reflexivity|].
    unfold JS.strict_eq. rewrite String.eqb_refl, andb_false_r. reflexivity.
Qed.

Lemma stored_orders_found_witness :
  (forall staff,
      Routes.not_staff staff = false ->
      Routes.getOrder staff (Order._id Sample.order1)
        (run [Write (Catalog.delete_first "64b7f0c2a1d3e4f5a6b7c8e1")] Sample.store1)
      = (mkResponse 200 (BOrder Sample.order1),
         run [Write (Catalog.delete_first "64b7f0c2a1d3e4f5a6b7c8e1")] Sample.store1))
  /\ exists n,
       Order.orderNumber Sample.order1 = Some n
       /\ Routes.trackOrder n None
            (run [Write (Catalog.delete_first "64b7f0c2a1d3e4f5a6b7c8e1")]
               Sample.store1)
          = (track_response Sample.order1,
             run [Write (Catalog.delete_first "64b7f0c2a1d3e4f5a6b7c8e1")]
               Sample.store1)
       /\ Routes.trackOrder n (Some (Order.customerPhone Sample.order1))
            (run [Write (Catalog.delete_first "64b7f0c2a1d3e4f5a6b7c8e1")]
               Sample.store1)
          = (track_response Sample.order1,
             run [Write (Catalog.delete_first "64b7f0c2a1d3e4f5a6b7c8e1")]
               Sample.store1).
Proof.
  apply (stored_orders_found
           [Write (Catalog.delete_first "64b7f0c2a1d3e4f5a6b7c8e1")]
           Sample.store1 Sample.order1).
  - repeat constructor.
  - intros [|[|i]] o Hi; try discriminate.
    injection Hi as <-. exists Sample.today.
    split; [vm_compute; intuition discriminate | reflexivity].
  - split.
    + repeat constructor. simpl. tauto.
    + repeat constructor.
  - left. reflexivity.
Defined.

(** ** What every stored order satisfies *)

Lemma handle_keeps_consistent env req s :
  Forall (fun o => stored_ok o /\ totals_consistent o) (orders s) ->
  Forall (fun o => stored_ok o /\ totals_consistent o)
         (orders (snd (handle env req s))).
Proof.
  intros Hs. apply Forall_forall. intros o Hin.
  rewrite Forall_forall in Hs.
  destruct (handle_orders env req s)
    as [Heq | [(fresh & Hv & _ & _ & Heq)
              | (id & tweak & old & _ & Hv & _ & _ & _ & Heq)]];
    rewrite Heq in Hin.
  - auto.
  - apply in_app_or in Hin. destruct Hin as [Hin | [<- | []]]; [auto|].
    now apply saved_ok.
  - apply In_replace_first in Hin. destruct Hin as [Hin | ->]; [auto|].
    now apply saved_ok.
Qed.




(** ** The catalog and the intake *)

Lemma menu_save_run m s :
  MenuItemModel.save m s =
  let m' := MenuItemModel.pre_save (length (menu s)) m in
  match MenuItemModel.validate m with
  | (_ :: _) as errors => (Thrown (ValidationError "MenuItem" errors), s)
  | [] =>
      match find (MenuItemModel.has_id (MenuItem._id m')) (menu s) with
      | None => (Thrown (Error "No document found for query"), s)
      | Some old =>
          if MenuItemModel.update_conflict old m' (menu s)
          then (Thrown MenuItemModel.duplicate_key, s)
          else (Continue m',
                with_menu (MenuItemModel.replace_first m' (menu s)) s)
      end
  end.
Proof.
  unfold MenuItemModel.save, bind, gets, throw, modify, ret. cbv zeta.
  destruct (MenuItemModel.validate m); [|reflexivity].
  destruct (find _ _); [|reflexivity].
  destruct (MenuItemModel.update_conflict _ _ _); reflexivity.
Qed.

Lemma menu_has_id_same id m :
  MenuItemModel.has_id id m = true ->
  forall x, MenuItemModel.has_id (MenuItem._id m) x = MenuItemModel.has_id id x.
Proof.
  unfold MenuItemModel.has_id. intros H x. now apply ObjectId_eq_same.
Qed.

(** The entry found under an id is the one found under its own id. *)
Lemma menu_find_by_own_id id stored m :
  find (MenuItemModel.has_id id) stored = Some m ->
  find (MenuItemModel.has_id (MenuItem._id m)) stored = Some m.
Proof.
  intros H. rewrite <- H. apply find_same.
  apply menu_has_id_same. apply find_some in H. apply H.
Qed.

Lemma menu_find_replace_first id m old stored :
  find (MenuItemModel.has_id id) stored = Some old ->
  MenuItem._id m = MenuItem._id old ->
  find (MenuItemModel.has_id id) (MenuItemModel.replace_first m stored)
  = Some m.
Proof.
  intros Hf Hid.
  assert (Hm : MenuItemModel.has_id id m = true).
  { apply find_some in Hf. destruct Hf as [_ Hf].
    unfold MenuItemModel.has_id in *. now rewrite Hid. }
  pose proof (menu_has_id_same id m Hm) as Hsame.
  induction stored as [|x stored IH]; simpl in *; [discriminate|].
  rewrite Hsame.
  destruct (MenuItemModel.has_id id x) eqn:Hx.
  - simpl. now rewrite Hm.
  - simpl. rewrite Hx. auto.
Qed.

(** Writing an entry over the stored one and the stored one over it
    again gives back the collection. *)
Lemma menu_replace_first_back m old stored :
  find (MenuItemModel.has_id (MenuItem._id old)) stored = Some old ->
  MenuItem._id m = MenuItem._id old ->
  MenuItemModel.replace_first old (MenuItemModel.replace_first m stored)
  = stored.
Proof.
  intros Hf Hid.
  induction stored as [|x stored IH]; simpl in *; [reflexivity|].
  rewrite Hid.
  destruct (MenuItemModel.has_id (MenuItem._id old) x) eqn:Hx; simpl.
  - injection Hf as ->. unfold MenuItemModel.has_id.
    now rewrite Hid, ObjectId_eq_refl.
  - rewrite Hx. f_equal. auto.
Qed.

(** The toggle route on a stored entry that passes the validators of the
    schema and has its [menuId]: the entry is written with the other
    availability and the answer tells which. *)
Lemma toggle_run id m s :
  ObjectId_isValid id = true ->
  find (MenuItemModel.has_id id) (menu s) = Some m ->
  MenuItemModel.validate m = [] ->
  JS.truthy_string (MenuItem.menuId m) = true ->
  Catalog.toggle id s
  = (mkResponse 200
       (BAvailability
          ("Menu item "
           ++ (if negb (MenuItem.available m) then "activated"
               else "deactivated"))
          (negb (MenuItem.available m))),
     with_menu
       (MenuItemModel.replace_first
          (MenuItem.set_available (negb (MenuItem.available m)) m) (menu s))
       s).
Proof.
  intros Hvalid Hm Hv Hmid.
  unfold Catalog.toggle, try_catch. unfold bind at 1.
  rewrite menu_findById_run, Hvalid, Hm.
  unfold bind. rewrite menu_save_run. cbv zeta.
  change (MenuItemModel.validate
            (MenuItem.set_available (negb (MenuItem.available m)) m))
    with (MenuItemModel.validate m).
  rewrite Hv. unfold MenuItemModel.pre_save.
  change (MenuItem.menuId
            (MenuItem.set_available (negb (MenuItem.available m)) m))
    with (MenuItem.menuId m).
  rewrite Hmid.
  change (MenuItem._id
            (MenuItem.set_available (negb (MenuItem.available m)) m))
    with (MenuItem._id m).
  rewrite (menu_find_by_own_id _ _ _ Hm).
  unfold MenuItemModel.update_conflict, MenuItemModel.has_menuId.
  change (MenuItem.menuId
            (MenuItem.set_available (negb (MenuItem.available m)) m))
    with (MenuItem.menuId m).
  destruct (MenuItem.menuId m) as [n|]; [|discriminate].
  rewrite String.eqb_refl. reflexivity.
Qed.

Lemma with_menu_same s : with_menu (menu s) s = s.
Proof. now destruct s. Qed.

(** X12. Switching a catalog entry off takes it out of the intake, and
    switching it on again restores the catalog.  For a stored entry that
    is on offer, passes the validators of its schema and has its menuId,
    the toggle route answers 200 with the message Menu item deactivated,
    writes the entry as not available and touches nothing else; from then
    on every createOrder request with a line for that entry is turned down
    and writes nothing; and a second toggle answers 200 with Menu item
    activated and gives back the store as it was. *)
Theorem toggled_off_not_orderable (id : ObjectId) (m : MenuItem.t)
  (s : Store) :
  ObjectId_isValid id = true ->
  find (MenuItemModel.has_id id) (menu s) = Some m ->
  MenuItem.available m = true ->
  MenuItemModel.validate m = [] ->
  JS.truthy_string (MenuItem.menuId m) = true ->
  exists off,
    Catalog.toggle id s
    = (mkResponse 200 (BAvailability "Menu item deactivated" false), off)
    /\ orders off = orders s
    /\ customers off = customers s
    /\ notifications off = notifications s
    /\ find (MenuItemModel.has_id id) (menu off)
       = Some (MenuItem.set_available false m)
    /\ (forall env user b line,
          In line (lines_of b) ->
          LineRequest.menuItemId line = Some id ->
          snd (Routes.createOrder env user b off) = off
          /\ refused (fst (Routes.createOrder env user b off)))
    /\ Catalog.toggle id off
       = (mkResponse 200 (BAvailability "Menu item activated" true), s).
Proof.
  intros Hvalid Hm Hav Hv Hmid.
  pose proof (toggle_run id m s Hvalid Hm Hv Hmid) as Hoff.
  rewrite Hav in Hoff. cbn [negb] in Hoff.
  set (m' := MenuItem.set_available false m) in *.
  set (off := with_menu (MenuItemModel.replace_first m' (menu s)) s) in *.
  assert (Hm' : find (MenuItemModel.has_id id) (menu off) = Some m')
    by (apply (menu_find_replace_first id m' m); [exact Hm | reflexivity]).
  exists off. split; [exact Hoff|].
  split; [reflexivity|]. split; [reflexivity|]. split; [reflexivity|].
  split; [exact Hm'|]. split.
  - intros env user b line Hin Hline.
    apply (rejected_line_writes_nothing env user b _ line Hin).
    intros (id' & q & x & Hid' & _ & _ & _ & _ & Hx & Hav').
    rewrite Hline in Hid'. injection Hid' as <-.
    rewrite Hm' in Hx. injection Hx as <-. discriminate.
  - rewrite (toggle_run id m' off Hvalid Hm' Hv Hmid).
    cbn [MenuItem.available m' MenuItem.set_available negb].
    f_equal. unfold off. cbn [menu with_menu].
    replace (MenuItem.set_available true m') with m
      by (destruct m; cbn in Hav; now subst).
    rewrite (menu_replace_first_back m' m (menu s)
               (menu_find_by_own_id _ _ _ Hm) eq_refl).
    destruct s; reflexivity.
Qed.

Lemma toggled_off_not_orderable_witness :
  exists off,
    Catalog.toggle "64b7f0c2a1d3e4f5a6b7c8e1" Sample.store0
    = (mkResponse 200 (BAvailability "Menu item deactivated" false), off)
    /\ orders off = orders Sample.store0
    /\ customers off = customers Sample.store0
    /\ notifications off = notifications Sample.store0
    /\ find (MenuItemModel.has_id "64b7f0c2a1d3e4f5a6b7c8e1") (menu off)
       = Some (MenuItem.set_available false Sample.pilau)
    /\ (forall env user b line,
          In line (lines_of b) ->
          LineRequest.menuItemId line = Some "64b7f0c2a1d3e4f5a6b7c8e1" ->
          snd (Routes.createOrder env user b off) = off
          /\ refused (fst (Routes.createOrder env user b off)))
    /\ Catalog.toggle "64b7f0c2a1d3e4f5a6b7c8e1" off
       = (mkResponse 200 (BAvailability "Menu item activated" true),
          Sample.store0).
Proof.
  apply (toggled_off_not_orderable "64b7f0c2a1d3e4f5a6b7c8e1" Sample.pilau
           Sample.store0);
    reflexivity.
Defined.

(** An entry stored under a category the schema does not list cannot be
    toggled: [save()] fails on the category, the answer is 500 and the
    entry stays on offer. *)
Example toggle_fails_on_invalid_entry :
  let snack :=
    MenuItem.mk "64b7f0c2a1d3e4f5a6b7c8e4" (Some "MENU0004") "Samosa"
      "Snack" 50 "" 15 true "fa-utensils" Sample.today in
  let s := mkStore [] [Sample.customer] [snack] [] in
  status (fst (Catalog.toggle "64b7f0c2a1d3e4f5a6b7c8e4" s)) = 500
  /\ snd (Catalog.toggle "64b7f0c2a1d3e4f5a6b7c8e4" s) = s.
Proof. vm_compute. auto. Qed.

(** ** The customer's order list *)

Lemma insert_newest_perm o sorted :
  Permutation (Listing.insert_newest o sorted) (o :: sorted).
Proof.
  induction sorted as [|x sorted IH]; simpl; [reflexivity|].
  destruct (_ <? _); [reflexivity|].
  rewrite IH. apply perm_swap.
Qed.

Lemma sort_newest_perm l : Permutation (Listing.sort_newest l) l.
Proof.
  induction l as [|o l IH]; simpl; [reflexivity|].
  rewrite insert_newest_perm. now constructor.
Qed.

Lemma insert_newest_sorted o sorted :
  StronglySorted not_older sorted ->
  StronglySorted not_older (Listing.insert_newest o sorted).
Proof.
  induction 1 as [|x sorted Hs IH Hx]; simpl; [repeat constructor|].
  destruct (Z.ltb_spec (getTime (Order.createdAt x))
                       (getTime (Order.createdAt o))) as [Hlt | Hge].
  - constructor; [now constructor|].
    constructor; [unfold not_older; lia|].
    revert Hx. apply Forall_impl. unfold not_older. intros; lia.
  - constructor; [exact IH|].
    apply Forall_forall. intros y Hy.
    apply (Permutation_in _ (insert_newest_perm o sorted)) in Hy.
    rewrite Forall_forall in Hx.
    destruct Hy as [<- | Hy]; [exact Hge | now apply Hx].
Qed.

Lemma sort_newest_sorted l : StronglySorted not_older (Listing.sort_newest l).
Proof.
  induction l as [|o l IH]; simpl; [constructor|].
  now apply insert_newest_sorted.
Qed.

(** X13. The order list of a customer is complete, exclusive and newest
    first: for a caller with a well-formed id, my-orders answers 200 with
    exactly the stored orders whose userId or customerId is the caller's
    id, each once, no order of anyone else, sorted by createdAt from newest
    to oldest, and writes nothing; an order the caller has just created
    with createOrder (201) is on the list. *)
Theorem my_orders_listing (user : User.t) (s : Store) :
  ObjectId_isValid (User.id user) = true ->
  exists found,
    Listing.myOrders user s
    = (Listing.mkResponse 200 (Listing.LOrders found), s)
    /\ Permutation found
         (filter (Listing.owned_by (User.id user)) (orders s))
    /\ (forall o,
          In o found
          <-> In o (orders s)
              /\ (Order.userId o = User.id user
                  \/ Order.customerId o = User.id user))
    /\ StronglySorted not_older found
    /\ forall env b,
         status (fst (Routes.createOrder env user b s)) = 201 ->
         exists o found',
           orders (snd (Routes.createOrder env user b s))
           = (orders s ++ [o])%list
           /\ Listing.myOrders user (snd (Routes.createOrder env user b s))
              = (Listing.mkResponse 200 (Listing.LOrders found'),
                 snd (Routes.createOrder env user b s))
           /\ In o found'.
Proof.
  intros Hvalid.
  assert (Hmem : forall st o,
             In o (Listing.sort_newest
                     (filter (Listing.owned_by (User.id user)) (orders st)))
             <-> In o (orders st)
                 /\ (Order.userId o = User.id user
                     \/ Order.customerId o = User.id user)).
  { intros st o. split.
    - intros Hin.
      apply (Permutation_in _ (sort_newest_perm _)) in Hin.
      apply filter_In in Hin. destruct Hin as [Hin Hown].
      split; [exact Hin|]. unfold Listing.owned_by in Hown.
      apply orb_true_iff in Hown.
      destruct Hown as [H | H]; apply String.eqb_eq in H; auto.
    - intros [Hin Hown].
      apply (Permutation_in _ (Permutation_sym (sort_newest_perm _))).
      apply filter_In. split; [exact Hin|]. unfold Listing.owned_by.
      apply orb_true_iff.
      destruct Hown as [H | H]; [left | right]; now apply String.eqb_eq. }
  eexists. unfold Listing.myOrders. rewrite Hvalid.
  split; [reflexivity|]. split; [apply sort_newest_perm|].
  split; [apply Hmem|]. split; [apply sort_newest_sorted|].
  intros env b Hst.
  destruct (created_inv env user b s Hst)
    as (customer & o & n & Hacc & _ & _ & Hstore).
  pose proof (proj1 (after_intake_store env s customer o)) as Horders.
  exists o. eexists. rewrite Hstore.
  split; [exact Horders|]. split; [reflexivity|].
  apply Hmem. cbn [orders with_notifications]. rewrite Horders.
  split; [apply in_or_app; simpl; auto|].
  destruct Hacc as (lines & orderItems & addr & Hacc). cbv zeta in Hacc.
  destruct Hacc as (_ & _ & _ & Hcust & _ & _ & _ & -> & _).
  left.
  destruct (saved_more_fields (now env) s
              (Routes.new_order env customer orderItems
                 (OrderModel.sum_subtotals orderItems) b addr))
    as (_ & _ & _ & _ & -> & _).
  exact (customer_find_id _ _ _ Hcust).
Qed.

Lemma my_orders_listing_witness :
  exists found,
    Listing.myOrders Sample.diner Sample.store1
    = (Listing.mkResponse 200 (Listing.LOrders found), Sample.store1)
    /\ Permutation found
         (filter (Listing.owned_by (User.id Sample.diner))
                 (orders Sample.store1))
    /\ (forall o,
          In o found
          <-> In o (orders Sample.store1)
              /\ (Order.userId o = User.id Sample.diner
                  \/ Order.customerId o = User.id Sample.diner))
    /\ StronglySorted not_older found
    /\ forall env b,
         status (fst (Routes.createOrder env Sample.diner b Sample.store1))
         = 201 ->
         exists o found',
           orders (snd (Routes.createOrder env Sample.diner b Sample.store1))
           = (orders Sample.store1 ++ [o])%list
           /\ Listing.myOrders Sample.diner
                (snd (Routes.createOrder env Sample.diner b Sample.store1))
              = (Listing.mkResponse 200 (Listing.LOrders found'),
                 snd (Routes.createOrder env Sample.diner b Sample.store1))
           /\ In o found'.
Proof.
  apply (my_orders_listing Sample.diner Sample.store1). reflexivity.
Defined.

Example manager_has_no_orders :
  fst (Listing.myOrders Sample.manager Sample.store1)
  = Listing.mkResponse 200 (Listing.LOrders []).
Proof. reflexivity. Qed.

(** * The phone helpers *)

Lemma all_digits_app a b :
  Helpers.all_digits (a ++ b) = Helpers.all_digits a && Helpers.all_digits b.
Proof.
  induction a as [|c a IH]; simpl; [reflexivity|].
  now rewrite IH, andb_assoc.
Qed.

Lemma digits_only_digits s : Helpers.all_digits (Helpers.digits_only s) = true.
Proof.
  induction s as [|c s IH]; simpl; [reflexivity|].
  destruct (Helpers.is_digit c) eqn:Hc; [|exact IH].
  simpl. now rewrite Hc.
Qed.

Lemma digits_only_fixed s :
  Helpers.all_digits s = true -> Helpers.digits_only s = s.
Proof.
  induction s as [|c s IH]; simpl; [reflexivity|].
  intros H. apply andb_true_iff in H. destruct H as [-> H].
  now rewrite IH.
Qed.

Lemma startsWith_app p s :
  Helpers.startsWith p s = true -> exists rest, s = p ++ rest.
Proof.
  unfold Helpers.startsWith. revert s.
  induction p as [|c p IH]; intros s; simpl.
  - intros _. now exists s.
  - destruct s as [|d s]; simpl; [discriminate|].
    destruct (ascii_dec c d) as [-> | _]; intros H; [|discriminate H].
    destruct (IH s H) as [rest ->]. now exists rest.
Qed.

Lemma substring_from_app p rest :
  Helpers.substring_from (String.length p) (p ++ rest) = rest.
Proof.
  unfold Helpers.substring_from. rewrite length_append.
  replace (String.length p + String.length rest - String.length p)%nat
    with (String.length rest) by lia.
  apply substring_skip.
Qed.

Lemma startsWith_self p rest : Helpers.startsWith p (p ++ rest) = true.
Proof.
  unfold Helpers.startsWith.
  induction p as [|c p IH]; simpl; [now destruct rest|].
  destruct (ascii_dec c c) as [_ | Hne]; [exact IH | now destruct Hne].
Qed.

(** A string of digits after [254] is left as it is. *)
Lemma format_canonical rest :
  Helpers.all_digits rest = true ->
  Helpers.formatPhoneNumber ("254" ++ rest) = "254" ++ rest.
Proof.
  intros Hrest. unfold Helpers.formatPhoneNumber.
  rewrite digits_only_fixed by (rewrite all_digits_app, Hrest; reflexivity).
  assert (H0 : Helpers.startsWith "0" ("254" ++ rest) = false) by reflexivity.
  assert (H7 : Helpers.startsWith "7" ("254" ++ rest) = false) by reflexivity.
  rewrite H0, H7, startsWith_self. reflexivity.
Qed.

(** What [formatPhoneNumber] returns: [254] and digits. *)
Lemma format_shape phone :
  exists rest,
    Helpers.formatPhoneNumber phone = "254" ++ rest
    /\ Helpers.all_digits rest = true
    /\ (Helpers.startsWith "0" (Helpers.digits_only phone) = true ->
        Helpers.digits_only phone = "0" ++ rest)
    /\ (Helpers.startsWith "0" (Helpers.digits_only phone) = false ->
        Helpers.startsWith "254" (Helpers.digits_only phone) = true ->
        Helpers.digits_only phone = "254" ++ rest)
    /\ (Helpers.startsWith "0" (Helpers.digits_only phone) = false ->
        Helpers.startsWith "254" (Helpers.digits_only phone) = false ->
        Helpers.digits_only phone = rest).
Proof.
  unfold Helpers.formatPhoneNumber.
  pose proof (digits_only_digits phone) as Hd.
  set (d := Helpers.digits_only phone) in *.
  destruct (Helpers.startsWith "0" d) eqn:H0.
  - destruct (startsWith_app _ _ H0) as [rest Hrest].
    exists rest. rewrite Hrest.
    change (Helpers.substring_from 1 ("0" ++ rest))
      with (Helpers.substring_from (String.length "0") ("0" ++ rest)).
    rewrite substring_from_app.
    rewrite Hrest, all_digits_app in Hd. apply andb_true_iff in Hd.
    repeat split; try reflexivity; try discriminate. apply Hd.
  - destruct (Helpers.startsWith "7" d) eqn:H7.
    + exists d. repeat split; try assumption; try discriminate.
      intros _ H254. destruct (startsWith_app _ _ H7) as [r7 Hr7].
      rewrite Hr7 in H254. cbv in H254. discriminate.
    + destruct (Helpers.startsWith "254" d) eqn:H254; cbn [negb].
      * destruct (startsWith_app _ _ H254) as [rest Hrest].
        exists rest. rewrite Hrest, all_digits_app in Hd.
        apply andb_true_iff in Hd.
        repeat split; try assumption; try discriminate;
          [apply Hd | intros _ _; exact Hrest].
      * exists d. repeat split; try assumption; discriminate.
Qed.

(** X14. formatPhoneNumber always returns digits only, starting with
    254, whatever it is given (spaces, a plus sign, letters, nothing at
    all); and it is idempotent: formatting a formatted number changes
    nothing. *)
Theorem format_phone_normal_form (phone : string) :
  Helpers.startsWith "254" (Helpers.formatPhoneNumber phone) = true
  /\ Helpers.all_digits (Helpers.formatPhoneNumber phone) = true
  /\ Helpers.formatPhoneNumber (Helpers.formatPhoneNumber phone)
     = Helpers.formatPhoneNumber phone.
Proof.
  destruct (format_shape phone) as (rest & -> & Hrest & _).
  split; [apply startsWith_self|]. split.
  - rewrite all_digits_app, Hrest. reflexivity.
  - now apply format_canonical.
Qed.

Example format_local : Helpers.formatPhoneNumber "0712 345 678" = "254712345678".
Proof. reflexivity. Qed.

Example format_international :
  Helpers.formatPhoneNumber "+254 712 345678" = "254712345678".
Proof. reflexivity. Qed.

Example format_bare : Helpers.formatPhoneNumber "112345678" = "254112345678".
Proof. reflexivity. Qed.

Example format_nothing : Helpers.formatPhoneNumber "" = "254".
Proof. reflexivity. Qed.

Lemma subscriber_digits t :
  Helpers.subscriber t = true ->
  String.length t = 9%nat /\ Helpers.all_digits t = true
  /\ Helpers.startsWith "0" t = false /\ Helpers.startsWith "254" t = false.
Proof.
  unfold Helpers.subscriber. intros H.
  apply andb_true_iff in H. destruct H as [H Hd].
  apply andb_true_iff in H. destruct H as [Hlen Hfirst].
  apply Nat.eqb_eq in Hlen. repeat split; try assumption.
  - apply orb_true_iff in Hfirst.
    destruct Hfirst as [H | H]; destruct (startsWith_app _ _ H) as [r ->];
      reflexivity.
  - apply orb_true_iff in Hfirst.
    destruct Hfirst as [H | H]; destruct (startsWith_app _ _ H) as [r ->];
      reflexivity.
Qed.

(** X15. Every phone isValidPhone accepts is brought by formatPhoneNumber
    to one form: 254 followed by the nine-digit subscriber number that
    starts with 1 or 7, twelve digits in all, whether it was written bare,
    with a leading 0 or with 254 and with whatever punctuation; and the
    formatted number is valid again. *)
Theorem valid_phone_canonical (phone : string) :
  Helpers.isValidPhone phone = true ->
  exists t,
    Helpers.subscriber t = true
    /\ Helpers.formatPhoneNumber phone = "254" ++ t
    /\ String.length (Helpers.formatPhoneNumber phone) = 12%nat
    /\ Helpers.isValidPhone (Helpers.formatPhoneNumber phone) = true.
Proof.
  unfold Helpers.isValidPhone, Helpers.phone_pattern. intros Hvalid.
  destruct (format_shape phone) as (rest & Hf & Hrest & H0 & H254 & Hbare).
  set (d := Helpers.digits_only phone) in *.
  assert (Hsub : Helpers.subscriber rest = true).
  { destruct (Helpers.startsWith "0" d) eqn:E0.
    - rewrite (H0 eq_refl) in Hvalid.
      change (Helpers.substring_from 1 ("0" ++ rest))
        with (Helpers.substring_from (String.length "0") ("0" ++ rest))
        in Hvalid.
      rewrite substring_from_app in Hvalid.
      destruct (Helpers.subscriber ("0" ++ rest)) eqn:Es.
      + apply subscriber_digits in Es. destruct Es as (_ & _ & Es & _).
        rewrite startsWith_self in Es. discriminate.
      + cbn [orb andb] in Hvalid. apply orb_true_iff in Hvalid.
        destruct Hvalid as [Hv | Hv]; [exact Hv|].
        apply andb_true_iff in Hv. destruct Hv as [Hv _]. discriminate.
    - destruct (Helpers.startsWith "254" d) eqn:E254.
      + rewrite (H254 eq_refl eq_refl) in Hvalid.
        change (Helpers.substring_from 3 ("254" ++ rest))
          with (Helpers.substring_from (String.length "254") ("254" ++ rest))
          in Hvalid.
        rewrite substring_from_app in Hvalid.
        destruct (Helpers.subscriber ("254" ++ rest)) eqn:Es.
        * apply subscriber_digits in Es. destruct Es as (_ & _ & _ & Es).
          rewrite startsWith_self in Es. discriminate.
        * cbn [orb andb] in Hvalid. exact Hvalid.
      + rewrite (Hbare eq_refl eq_refl) in *.
        cbn [andb] in Hvalid. now rewrite !orb_false_r in Hvalid. }
  exists rest. split; [exact Hsub|]. split; [exact Hf|].
  pose proof (subscriber_digits rest Hsub) as (Hlen & _).
  split.
  - rewrite Hf, length_append, Hlen. reflexivity.
  - rewrite Hf.
    rewrite digits_only_fixed by (rewrite all_digits_app, Hrest; reflexivity).
    change (Helpers.substring_from 3 ("254" ++ rest))
      with (Helpers.substring_from (String.length "254") ("254" ++ rest)).
    rewrite substring_from_app, Hsub, startsWith_self.
    cbn [andb]. apply orb_true_r.
Qed.

Lemma valid_phone_canonical_witness :
  exists t,
    Helpers.subscriber t = true
    /\ Helpers.formatPhoneNumber "0712-345-678" = "254" ++ t
    /\ String.length (Helpers.formatPhoneNumber "0712-345-678") = 12%nat
    /\ Helpers.isValidPhone (Helpers.formatPhoneNumber "0712-345-678") = true.
Proof.
  apply (valid_phone_canonical "0712-345-678"). reflexivity.
Defined.

Example short_phone_invalid : Helpers.isValidPhone "07123" = false.
Proof. reflexivity. Qed.

Example landline_invalid : Helpers.isValidPhone "0201234567" = false.
Proof. reflexivity. Qed.

(** ** The figures of the dashboard and the reports *)

Lemma or_number_zero v : JS.or_number (Some v) 0 = v.
Proof.
  unfold JS.or_number, JS.truthy_number.
  destruct (Z.eqb_spec v 0) as [-> | _]; reflexivity.
Qed.

Lemma sum_totals_snoc found o :
  Reports.sum_totals (found ++ [o])
  = JS.add (Reports.sum_totals found) (Order.total o).
Proof.
  unfold Reports.sum_totals. rewrite fold_left_app. cbn [fold_left].
  now rewrite or_number_zero.
Qed.

Lemma total_of_app a b : total_of (a ++ b) = total_of a + total_of b.
Proof. induction a as [|o a IH]; simpl; [reflexivity | rewrite IH; lia]. Qed.

Lemma total_of_nonneg found :
  Forall (fun o => 0 <= Order.total o) found -> 0 <= total_of found.
Proof. induction 1 as [|o found Ho _ IH]; simpl; lia. Qed.

Lemma total_of_filter_le f found :
  Forall (fun o => 0 <= Order.total o) found ->
  0 <= total_of (filter f found) <= total_of found.
Proof.
  induction 1 as [|o found Ho _ IH]; simpl; [lia|].
  destruct (f o); simpl; lia.
Qed.


(** The sum of the code is the exact one as long as the exact one is a
    double. *)
Lemma sum_totals_exact found :
  Forall (fun o => 0 <= Order.total o) found ->
  total_of found <= exact_bound ->
  Reports.sum_totals found = total_of found.
Proof.
  induction found as [|o found IH] using rev_ind; intros Hs Hb;
    [reflexivity|].
  apply Forall_app in Hs. destruct Hs as [Hs Ho].
  inversion Ho as [|? ? Hpos _]; subst.
  rewrite total_of_app in *. cbn [total_of fold_right] in *.
  pose proof (total_of_nonneg found Hs).
  rewrite sum_totals_snoc, IH by (assumption || lia).
  rewrite add_exact; lia.
Qed.


(** The sum depends on the totals only. *)
Lemma sum_totals_map a b :
  map Order.total a = map Order.total b ->
  Reports.sum_totals a = Reports.sum_totals b.
Proof.
  unfold Reports.sum_totals. generalize 0 at 2 4.
  revert b. induction a as [|x a IH]; intros [|y b] acc H;
    try discriminate; [reflexivity|].
  cbn [map] in H. injection H as Hxy H. cbn [fold_left].
  rewrite Hxy. now apply IH.
Qed.

Lemma paid_total_parts stored :
  paid_total stored = fold_right (fun o acc => paid_part o + acc) 0 stored.
Proof.
  unfold paid_total.
  induction stored as [|o l IH]; simpl; [reflexivity|].
  unfold paid_part. destruct (String.eqb (Order.paymentStatus o) "Paid");
    simpl; rewrite IH; reflexivity.
Qed.

Lemma paid_parts_replace_first o old stored :
  find (OrderModel.has_id (Order._id o)) stored = Some old ->
  fold_right (fun o acc => paid_part o + acc) 0
             (OrderModel.replace_first o stored)
  = fold_right (fun o acc => paid_part o + acc) 0 stored
    - paid_part old + paid_part o.
Proof.
  induction stored as [|x stored IH]; simpl; [discriminate|].
  destruct (OrderModel.has_id (Order._id o) x).
  - intros [= ->]. simpl. lia.
  - intros Hf. simpl. rewrite (IH Hf). lia.
Qed.

(** Replacing a stored order by one with its payment status and its total
    leaves the totals of the paid orders as they are. *)
Lemma paid_totals_replace_first o old stored :
  find (OrderModel.has_id (Order._id o)) stored = Some old ->
  Order.paymentStatus o = Order.paymentStatus old ->
  Order.total o = Order.total old ->
  map Order.total
      (filter (fun o => String.eqb (Order.paymentStatus o) "Paid")
              (OrderModel.replace_first o stored))
  = map Order.total
        (filter (fun o => String.eqb (Order.paymentStatus o) "Paid") stored).
Proof.
  intros Hf Hstatus Htotal.
  induction stored as [|x stored IH]; simpl in *; [discriminate|].
  destruct (OrderModel.has_id (Order._id o) x).
  - injection Hf as ->. cbn [filter]. rewrite Hstatus.
    destruct (String.eqb (Order.paymentStatus old) "Paid");
      cbn [map]; now rewrite ?Htotal.
  - cbn [filter]. destruct (String.eqb (Order.paymentStatus x) "Paid");
      cbn [map]; now rewrite IH.
Qed.

(** An accepted update of a stored order with the totals of the hook
    writes the changed order with a new [updatedAt]. *)
Lemma update_accepted_saved env id tweak s old o :
  update_accepted env id tweak s old o ->
  numbered (tweak old) -> totals_consistent (tweak old) ->
  Order._id (tweak old) = Order._id old ->
  o = Order.set_updatedAt (now env) (tweak old)
  /\ find (OrderModel.has_id (Order._id o)) (orders s) = Some old.
Proof.
  intros (Hid & Hold & _ & -> & _) Hnum Htot Hsame.
  rewrite saved_consistent by assumption.
  split; [reflexivity|].
  replace (Order._id (Order.set_updatedAt (now env) (tweak old)))
    with (Order._id old);
    [exact (find_by_own_id _ _ _ Hold)|].
  rewrite <- Hsame. now destruct (tweak old).
Qed.

Lemma paid_part_updatedAt date o :
  paid_part (Order.set_updatedAt date o) = paid_part o.
Proof. now destruct o. Qed.

Lemma paid_part_pay_tweak st receipt o :
  paid_part (pay_tweak st receipt o)
  = if String.eqb st "Paid" then Order.total o else 0.
Proof.
  unfold paid_part.
  destruct (pay_tweak_keeps st receipt o) as (_ & _ & _ & -> & ->).
  reflexivity.
Qed.

Lemma paid_part_bounds o :
  0 <= Order.total o -> 0 <= paid_part o <= Order.total o.
Proof.
  unfold paid_part. destruct (String.eqb _ _); lia.
Qed.

(** The paid revenue of a store is the exact sum of the totals of its
    paid orders as long as that sum is a double. *)
Lemma paid_revenue_exact s :
  Forall (fun o => 0 <= Order.total o) (orders s) ->
  paid_total (orders s) <= exact_bound ->
  Reports.paid_revenue s = paid_total (orders s).
Proof.
  intros Hs Hb. unfold Reports.paid_revenue, paid_total in *.
  apply sum_totals_exact; [|exact Hb].
  apply Forall_forall. intros o Ho. apply filter_In in Ho.
  rewrite Forall_forall in Hs. now apply Hs.
Qed.

(** X16. The paid revenue of the dashboard, the sum of the totals of the
    orders whose payment status is Paid as the code adds them, on doubles,
    moves with payment updates only.  Over stored orders that are valid,
    numbered and have the totals of the [pre('save')] hook, no intake,
    status update, tracking or read changes it, accepted or not and also
    when the notification fails; a request that changes it is a payment
    update of a stored order, and for totals in whole numbers, as long as
    the exact sum of the paid totals and that order's total is at most
    [2^53], the change is exactly
    that order's total: added when the order becomes Paid, taken away when
    a Paid order gets another status, nothing when it was and stays
    Paid. *)
Theorem paid_revenue_moves_with_payment (env : Env) (req : Request)
  (s : Store) :
  Forall (fun o => stored_ok o /\ totals_consistent o) (orders s) ->
  Reports.paid_revenue (snd (handle env req s)) = Reports.paid_revenue s
  \/ exists user id newStatus receipt old,
       req = SetPaymentStatus user id (Some newStatus) receipt
       /\ find (OrderModel.has_id id) (orders s) = Some old
       /\ (paid_total (orders s) + Order.total old <= exact_bound ->
           Reports.paid_revenue (snd (handle env req s))
           = Reports.paid_revenue s - paid_part old
             + (if String.eqb newStatus "Paid" then Order.total old else 0)).
Proof.
  intros Hs.
  pose proof (handle_keeps_consistent env req s Hs) as Hs'.
  rewrite Forall_forall in Hs.
  destruct req as [user b|user id st|user id st receipt|n phone|user id];
    cbn [handle] in *.
  - left. destruct (Routes.createOrder env user b s) as [resp s'] eqn:E.
    cbn [snd]. apply createOrder_inv in E.
    destruct E as [[-> _] | (customer & o & Hacc & Hres)]; [reflexivity|].
    apply intake_result_store in Hres. destruct Hres as [Ho _].
    unfold Reports.paid_revenue. rewrite Ho, filter_app.
    destruct Hacc as (lines & orderItems & addr & Hacc). cbv zeta in Hacc.
    destruct Hacc as (_ & _ & _ & _ & _ & _ & _ & -> & _).
    cbn [filter].
    destruct (saved_fields (now env) s
                (Routes.new_order env customer orderItems
                   (OrderModel.sum_subtotals orderItems) b addr))
      as (_ & _ & _ & _ & _ & ->).
    cbn. now rewrite app_nil_r.
  - left. destruct (Routes.setOrderStatus env user id st s) as [resp s'] eqn:E.
    cbn [snd]. apply setOrderStatus_inv in E.
    destruct E as [[-> _] | (newStatus & old & o & _ & _ & _ & Hacc & Hres)];
      [reflexivity|].
    apply update_result_store in Hres. destruct Hres as [Ho _].
    assert (Hold : In old (orders s))
      by (destruct Hacc as (_ & Hf & _); exact (proj1 (find_some _ _ Hf))).
    destruct (Hs old Hold) as [[_ Hnum] Htot].
    destruct (set_orderStatus_keeps newStatus old) as (Hn & Ht & _).
    destruct (update_accepted_saved _ _ _ _ _ _ Hacc (Hn Hnum) (Ht Htot))
      as [-> Hf]; [now destruct old|].
    unfold Reports.paid_revenue. rewrite Ho. apply sum_totals_map.
    apply (paid_totals_replace_first _ old); [exact Hf | |]; now destruct old.
  - destruct (Routes.setPaymentStatus env user id st receipt s)
      as [resp s'] eqn:E.
    cbn [snd] in *. apply setPaymentStatus_inv in E.
    destruct E as [[-> _] | (newStatus & old & o & -> & _ & _ & Hacc & Hres)];
      [now left|].
    right. exists user, id, newStatus, receipt, old.
    apply update_result_store in Hres. destruct Hres as [Ho _].
    assert (Hfind : find (OrderModel.has_id id) (orders s) = Some old)
      by (destruct Hacc as (_ & Hf & _); exact Hf).
    destruct (Hs old (proj1 (find_some _ _ Hfind))) as [[Hvalid Hnum] Htot].
    destruct (pay_tweak_keeps newStatus receipt old) as (Hn & Ht & _).
    destruct (update_accepted_saved _ _ _ _ _ _ Hacc (Hn Hnum) (Ht Htot))
      as [-> Hf].
    { unfold pay_tweak. destruct (JS.truthy_string receipt); now destruct old. }
    split; [reflexivity|]. split; [exact Hfind|].
    intros Hb.
    assert (Hpos : 0 <= Order.total old) by apply Hvalid.
    assert (Hall : Forall (fun o => 0 <= Order.total o) (orders s)).
    { apply Forall_forall. intros x Hx. apply (Hs x Hx). }
    assert (Hall' : Forall (fun o => 0 <= Order.total o) (orders s')).
    { revert Hs'. apply Forall_impl. intros x Hx. apply Hx. }
    assert (Hafter : paid_total (orders s')
                     = paid_total (orders s) - paid_part old
                       + (if String.eqb newStatus "Paid"
                          then Order.total old else 0)).
    { rewrite !paid_total_parts, Ho,
        (paid_parts_replace_first _ old) by exact Hf.
      now rewrite paid_part_updatedAt, paid_part_pay_tweak. }
    pose proof (paid_part_bounds old Hpos).
    assert (0 <= paid_total (orders s)).
    { unfold paid_total. apply total_of_filter_le. exact Hall. }
    rewrite (paid_revenue_exact s), (paid_revenue_exact s'); try assumption.
    + rewrite Hafter. destruct (String.eqb newStatus "Paid"); lia.
    + lia.
  - left. now rewrite trackOrder_store.
  - left. now rewrite getOrder_store.
Qed.

Lemma paid_revenue_moves_with_payment_witness :
  Reports.paid_revenue
    (snd (handle Sample.env
            (SetPaymentStatus Sample.manager "64b7f0c2a1d3e4f5a6b7c8f1"
               (Some "Paid") None)
            Sample.store1))
  = Reports.paid_revenue Sample.store1
  \/ exists user id newStatus receipt old,
       SetPaymentStatus Sample.manager "64b7f0c2a1d3e4f5a6b7c8f1"
         (Some "Paid") None
       = SetPaymentStatus user id (Some newStatus) receipt
       /\ find (OrderModel.has_id id) (orders Sample.store1) = Some old
       /\ (paid_total (orders Sample.store1) + Order.total old
           <= exact_bound ->
           Reports.paid_revenue
             (snd (handle Sample.env
                     (SetPaymentStatus Sample.manager
                        "64b7f0c2a1d3e4f5a6b7c8f1" (Some "Paid") None)
                     Sample.store1))
           = Reports.paid_revenue Sample.store1 - paid_part old
             + (if String.eqb newStatus "Paid" then Order.total old else 0)).
Proof.
  apply (paid_revenue_moves_with_payment Sample.env
           (SetPaymentStatus Sample.manager "64b7f0c2a1d3e4f5a6b7c8f1"
              (Some "Paid") None)
           Sample.store1).
  constructor; [|constructor].
  split; [split; [apply validate_nil|]; reflexivity|].
  repeat split. repeat constructor.
Defined.

(** Paying the sample order of 1000 brings the paid revenue from 0 to
    1000; refunding it brings it back to 0.  The id of the request may be
    written in upper case. *)
Example pay_then_refund :
  let paid :=
    snd (handle Sample.env
           (SetPaymentStatus Sample.manager "64B7F0C2A1D3E4F5A6B7C8F1"
              (Some "Paid") None)
           Sample.store1) in
  let refunded :=
    snd (handle Sample.env
           (SetPaymentStatus Sample.manager "64b7f0c2a1d3e4f5a6b7c8f1"
              (Some "Refunded") None)
           paid) in
  Reports.paid_revenue Sample.store1 = 0
  /\ Reports.paid_revenue paid = 1000
  /\ Reports.paid_revenue refunded = 0.
Proof. vm_compute. auto. Qed.

(** Beyond [2^53] the sum of the code is not the exact one: paid totals of
    [2^53], 1 and 1 make a paid revenue of [2^53]. *)
Example paid_revenue_beyond_exact_bound :
  let paid v :=
    Order.set_total v (Order.set_paymentStatus "Paid" Sample.order1) in
  Reports.paid_revenue
    (mkStore [paid 9007199254740992; paid 1; paid 1] [] [] [])
  = 9007199254740992.
Proof. vm_compute. reflexivity. Qed.

(** ** The general report *)

Lemma count_status_cons st o found :
  Reports.count_status st (o :: found)
  = (if String.eqb (Order.orderStatus o) st then 1 else 0)
    + Reports.count_status st found.
Proof.
  unfold Reports.count_status. cbn [filter].
  destruct (String.eqb (Order.orderStatus o) st); cbn [length]; lia.
Qed.

(** X17. The status breakdown of the general report leaves two statuses
    out.  Its six counts (pending, confirmed, preparing, ready, completed,
    cancelled) add up to its total less the orders that are Out for
    Delivery or Delivered, so they add up to the total only when no order
    of the period has one of these two statuses.  Its revenue adds the
    totals of all the orders, paid or not, and for totals in whole numbers
    it is their exact sum when no total is negative and the exact sum is at
    most [2^53]. *)
Theorem general_report_breakdown (found : list Order.t) :
  Forall (fun o => In (Order.orderStatus o) OrderModel.orderStatuses) found ->
  let counts := Reports.order_counts found in
  Reports.pending counts + Reports.confirmed counts
  + Reports.preparing counts + Reports.ready counts
  + Reports.completed counts + Reports.cancelled counts
  = Reports.total counts
    - Reports.count_status "Out for Delivery" found
    - Reports.count_status "Delivered" found
  /\ (Forall (fun o => 0 <= Order.total o) found ->
      total_of found <= exact_bound ->
      Reports.revenue counts = total_of found).
Proof.
  intros Hs. cbv zeta.
  unfold Reports.order_counts.
  cbn [Reports.pending Reports.confirmed Reports.preparing Reports.ready
       Reports.completed Reports.cancelled Reports.total Reports.revenue].
  split; [|apply sum_totals_exact].
  induction Hs as [|o found Ho _ IH].
  - reflexivity.
  - rewrite !count_status_cons. cbn [length]. rewrite Nat2Z.inj_succ.
    unfold OrderModel.orderStatuses in Ho. cbn [In] in Ho.
    destruct Ho as [H|[H|[H|[H|[H|[H|[H|[H|[]]]]]]]]];
      rewrite <- H; cbn [String.eqb Ascii.eqb Bool.eqb andb]; lia.
Qed.

Lemma general_report_breakdown_witness :
  let found := [Order.set_orderStatus "Delivered" Sample.order1] in
  let counts := Reports.order_counts found in
  Reports.pending counts + Reports.confirmed counts
  + Reports.preparing counts + Reports.ready counts
  + Reports.completed counts + Reports.cancelled counts
  = Reports.total counts
    - Reports.count_status "Out for Delivery" found
    - Reports.count_status "Delivered" found
  /\ (Forall (fun o => 0 <= Order.total o) found ->
      total_of found <= exact_bound ->
      Reports.revenue counts = total_of found).
Proof.
  apply (general_report_breakdown
           [Order.set_orderStatus "Delivered" Sample.order1]).
  constructor; [|constructor]. cbn. auto 10.
Defined.

(** One delivered order: a total of one order and six counts of none. *)
Example delivered_order_in_no_count :
  let counts :=
    Reports.order_counts [Order.set_orderStatus "Delivered" Sample.order1] in
  Reports.total counts = 1
  /\ Reports.pending counts + Reports.confirmed counts
     + Reports.preparing counts + Reports.ready counts
     + Reports.completed counts + Reports.cancelled counts = 0.
Proof. vm_compute. auto. Qed.

(** ** The sales report *)



















(** Two orders of 1000 on one day, one of them paid: a revenue of 2000. *)
Example sales_of_one_day :
  let summary :=
    Reports.sales_summary (fun _ => "2026-11-01")
      [Sample.order1; Order.set_paymentStatus "Paid" Sample.order1] in
  Reports.totalRevenue summary = 2000
  /\ Reports.paidOrders summary = 1
  /\ Reports.pendingOrders summary = 1
  /\ Reports.daily summary = [("2026-11-01", (2, 2000))].
Proof. vm_compute. auto. Qed.

(** Beyond [2^53] the sums of the report depend on where the orders fall:
    of three orders of [2^53], 1 and 1, the last two paid by card, the
    revenue is [2^53] and the entries of byPaymentMethod add up to
    [2^53 + 2]. *)
Example sales_beyond_exact_bound :
  let order v method :=
    let '(Order.mk a b c d e f g h _ _ k l _ n p q r s u w) :=
      Sample.order1 in
    Order.mk a b c d e f g h v v k l method n p q r s u w in
  let summary :=
    Reports.sales_summary (fun _ => "2026-11-01")
      [order 9007199254740992 "Cash"; order 1 "Card"; order 1 "Card"] in
  Reports.totalRevenue summary = 9007199254740992
  /\ Reports.byPaymentMethod summary
     = [("Cash", 9007199254740992); ("Card", 2)]
  /\ tally (fun v => v) (Reports.byPaymentMethod summary) = 9007199254740994.
Proof. vm_compute. auto. Qed.
